(** * handwerk_app: a shallow embedding of the command-line tool

    The tool keeps projects, tasks and materials in one JSON file.  Every
    command loads the file with [json.load], works on the dictionaries and
    lists it got, and writes the whole document back with [json.dump].

    The development follows the source:
    - [Py]: the values [json.load] produces and the handful of dynamic
      operations the commands apply to them ([dict.get], [==], [max], ...);
    - [Json]: the text [json.dump (indent=2, ensure_ascii=False)] writes and
      the scanner [json.load] runs over it;
    - the commands of [handwerk_app.py], in a small state-and-exception
      monad over the file, the module global [DEFAULT_DATA] and the output;
    - the properties of the specification;
    - further properties of the commands: what a run leaves behind,
      what the showing commands print, documents that are not valid,
      and sessions of several runs.

    Outside the model: [argparse] (a command starts from the namespace the
    parser built), the rendering of the printed lines as text, and the
    failures of the environment (input and output errors, text that
    cannot be encoded or decoded, the digit limit of ints, the recursion
    limit).  [save_data] in particular always returns; [storable] marks
    the documents on which the real one returns as well, and
    [FloatFacts] proves that every float reads back from its digits. *)

From Stdlib Require Import ZArith List String Ascii Bool Lia SpecFloat.
From Stdlib Require Import DecimalString DecimalFacts DecimalN.
Import ListNotations.
Local Open Scope Z_scope.
Local Open Scope list_scope.

(** ** Outcomes of a computation

    [Raise e] is an uncaught Python exception.  [Beyond] marks the two
    points at which this development does not describe the interpreter
    (the order of two lists, the slice of a dict); no statement below
    relies on it. *)

Inductive exn :=
| AttributeError
| TypeError
| KeyError
| OverflowError
| JSONDecodeError.

Inductive result (A : Type) :=
| Ok (a : A)
| Raise (e : exn)
| Beyond.

Arguments Ok {A} a.
Arguments Raise {A} e.
Arguments Beyond {A}.

Definition rbind {A B} (r : result A) (k : A -> result B) : result B :=
  match r with
  | Ok a => k a
  | Raise e => Raise e
  | Beyond => Beyond
  end.

Declare Scope result_scope.
Delimit Scope result_scope with result.
Notation "'let*' x ':=' r 'in' k" := (rbind r (fun x => k))
  (at level 10, x pattern, r at level 100, k at level 200) : result_scope.
Local Open Scope result_scope.

(** ** Python values *)

Module Py.

#[local] Set Warnings "-register-all".

(** What [json.load] can return.  A [str] is held as the bytes of its
    UTF-8 encoding, a [float] as an IEEE-754 binary64 number, a [dict] as
    its items in insertion order (keys pairwise different). *)
Inductive value :=
| VNone
| VBool (b : bool)
| VInt (z : Z)
| VFloat (f : spec_float)
| VStr (s : string)
| VList (l : list value)
| VDict (d : list (string * value)).

Definition items := list (string * value).

Definition prec : Z := 53.
Definition emax : Z := 1024.

(** *** Dictionaries *)

Fixpoint lookup (k : string) (d : items) : option value :=
  match d with
  | [] => None
  | (k', v) :: d' => if String.eqb k k' then Some v else lookup k d'
  end.

(** [d[k] = v]: an existing key keeps its place, a new one goes last. *)
Fixpoint store (k : string) (v : value) (d : items) : items :=
  match d with
  | [] => [(k, v)]
  | (k', v') :: d' =>
      if String.eqb k k' then (k, v) :: d' else (k', v') :: store k v d'
  end.

Definition keys (d : items) : list string := map fst d.

(** [o.get(k, default)] *)
Definition get (o : value) (k : string) (default : value) : result value :=
  match o with
  | VDict d => Ok (match lookup k d with Some v => v | None => default end)
  | _ => Raise AttributeError
  end.

(** [o[k]] for a string [k]: a dict looks the key up; every other value
    either has no subscript or rejects a string index. *)
Definition getitem (o : value) (k : string) : result value :=
  match o with
  | VDict d => match lookup k d with Some v => Ok v | None => Raise KeyError end
  | _ => Raise TypeError
  end.

(** *** Strings *)

(** A continuation byte of UTF-8, 10xxxxxx. *)
Definition is_cont (c : ascii) : bool :=
  let n := N_of_ascii c in (128 <=? n)%N && (n <? 192)%N.

Definition starts_with_cont (s : string) : bool :=
  match s with
  | String c _ => is_cont c
  | EmptyString => false
  end.

(** The characters of a [str], each with its continuation bytes. *)
Fixpoint chars (s : string) : list string :=
  match s with
  | EmptyString => []
  | String c s' =>
      match chars s' with
      | ch :: chs =>
          if starts_with_cont ch then String c ch :: chs
          else String c EmptyString :: ch :: chs
      | [] => [String c EmptyString]
      end
  end.

(** [s[:n]] *)
Definition str_take (n : nat) (s : string) : string :=
  String.concat EmptyString (firstn n (chars s)).

(** *** Iteration *)

(** [iter(o)], run to the end: a list gives its elements, a dict its keys,
    a str its characters; nothing else is iterable. *)
Definition iter (o : value) : result (list value) :=
  match o with
  | VList l => Ok l
  | VDict d => Ok (map VStr (keys d))
  | VStr s => Ok (map VStr (chars s))
  | _ => Raise TypeError
  end.

(** *** Truth value *)

Definition float_is_zero (f : spec_float) : bool :=
  match f with
  | S754_zero _ => true
  | _ => false
  end.

Definition truthy (v : value) : bool :=
  match v with
  | VNone => false
  | VBool b => b
  | VInt z => negb (z =? 0)
  | VFloat f => negb (float_is_zero f)
  | VStr s => negb (String.eqb s EmptyString)
  | VList l => match l with [] => false | _ => true end
  | VDict d => match d with [] => false | _ => true end
  end.

(** [a or b] *)
Definition or_else (a b : value) : value := if truthy a then a else b.

(** *** Numbers *)

(** [bool] is a subclass of [int]: the numbers are the ints (with [True]
    as 1 and [False] as 0) and the floats. *)
Inductive num :=
| NInt (z : Z)
| NFloat (f : spec_float).

Definition as_num (v : value) : option num :=
  match v with
  | VBool b => Some (NInt (Z.b2z b))
  | VInt z => Some (NInt z)
  | VFloat f => Some (NFloat f)
  | _ => None
  end.

(** A float against an int, on their exact values ([None]: unordered). *)
Definition float_compare_Z (f : spec_float) (z : Z) : option comparison :=
  match f with
  | S754_nan => None
  | S754_infinity s => Some (if s then Lt else Gt)
  | S754_zero _ => Some (0 ?= z)
  | S754_finite s m e =>
      let v := cond_Zopp s (Zpos m) in
      Some (if 0 <=? e then v * 2 ^ e ?= z else v ?= z * 2 ^ (- e))
  end.

Definition num_compare (a b : num) : option comparison :=
  match a, b with
  | NInt x, NInt y => Some (x ?= y)
  | NFloat f, NInt y => float_compare_Z f y
  | NInt x, NFloat g => option_map CompOpp (float_compare_Z g x)
  | NFloat f, NFloat g => SFcompare f g
  end.

(** [v == n] for an int [n]. *)
Definition eq_int (v : value) (n : Z) : bool :=
  match as_num v with
  | Some a => match num_compare a (NInt n) with Some Eq => true | _ => false end
  | None => false
  end.

(** [v == s] for a str [s]. *)
Definition eq_str (v : value) (s : string) : bool :=
  match v with
  | VStr t => String.eqb t s
  | _ => false
  end.

(** [a > b].  Numbers compare by value, strings by code points (which is
    the order of their UTF-8 bytes); [None], dicts and mixed kinds raise
    [TypeError].  Two lists are ordered through [==] on their elements,
    which looks at object identity first: that case is left out. *)
Definition gt (a b : value) : result bool :=
  match as_num a, as_num b with
  | Some x, Some y =>
      Ok (match num_compare x y with Some Gt => true | _ => false end)
  | _, _ =>
      match a, b with
      | VStr s, VStr t => Ok (String.ltb t s)
      | VList _, VList _ => Beyond
      | _, _ => Raise TypeError
      end
  end.

(** [v + 1] *)
Definition add_one (v : value) : result value :=
  match as_num v with
  | Some (NInt z) => Ok (VInt (z + 1))
  | Some (NFloat f) => Ok (VFloat (SFadd prec emax f (SFone prec emax)))
  | None => Raise TypeError
  end.

(** [max((f(x) for x in xs), default=d)], as the builtin runs it: the key
    of each element is computed when the element is reached, the first
    element is taken without any comparison, a later one replaces the
    maximum only when it is [>]. *)
Fixpoint max_from (f : value -> result value) (xs : list value) (cur : value)
  : result value :=
  match xs with
  | [] => Ok cur
  | x :: xs' =>
      let* item := f x in
      let* bigger := gt item cur in
      max_from f xs' (if bigger then item else cur)
  end.

Definition max_default (f : value -> result value) (xs : list value)
  (default : value) : result value :=
  match xs with
  | [] => Ok default
  | x :: xs' => let* first := f x in max_from f xs' first
  end.

End Py.

(** ** The JSON text of a value

    [json.dump(data, handle, indent=2, ensure_ascii=False)] and
    [json.load(handle)] as the standard library documents and implements
    them.  The file is read and written as text: its content is the
    encoded text, and errors of the encoding layer are not part of the
    model. *)

Module Json.
Import Py.
Local Open Scope string_scope.
Local Open Scope Z_scope.

Definition quote : ascii := "034"%char.
Definition backslash : ascii := "092"%char.
Definition LF : ascii := "010"%char.

Definition str1 (c : ascii) : string := String c EmptyString.

(** *** Integers: decimal digits *)

Definition dump_nat (n : N) : string :=
  NilEmpty.string_of_uint (N.to_uint n).

Definition dump_int (z : Z) : string :=
  match z with
  | Zneg p => String "-" (dump_nat (Npos p))
  | _ => dump_nat (Z.to_N z)
  end.

Definition digit_of_char (c : ascii) : option (Decimal.uint -> Decimal.uint) :=
  match c with
  | "0"%char => Some Decimal.D0
  | "1"%char => Some Decimal.D1
  | "2"%char => Some Decimal.D2
  | "3"%char => Some Decimal.D3
  | "4"%char => Some Decimal.D4
  | "5"%char => Some Decimal.D5
  | "6"%char => Some Decimal.D6
  | "7"%char => Some Decimal.D7
  | "8"%char => Some Decimal.D8
  | "9"%char => Some Decimal.D9
  | _ => None
  end.

Definition is_digit (c : ascii) : bool :=
  match digit_of_char c with Some _ => true | None => false end.

(** The longest run of digits at the head of [s], and what follows it. *)
Fixpoint scan_digits (s : string) : Decimal.uint * string :=
  match s with
  | String c s' =>
      match digit_of_char c with
      | Some d => let (ds, rest) := scan_digits s' in (d ds, rest)
      | None => (Decimal.Nil, s)
      end
  | EmptyString => (Decimal.Nil, s)
  end.

(** *** Floats: decimal text

    A number token with a fraction or an exponent is handed to [float],
    which rounds the decimal it denotes to the nearest binary64 number
    (ties to even).  [float.__repr__] writes the shortest decimal that
    rounds back to the number. *)

Definition pow10 (k : Z) : Z := 10 ^ k.

(** The float nearest to [(-1)^neg * d * 10^k]. *)
Definition float_of_decimal (neg : bool) (d : N) (k : Z) : spec_float :=
  match d with
  | N0 => S754_zero neg
  | Npos p =>
      if 0 <=? k then
        match Zpos p * pow10 k with
        | Zpos m => binary_round prec emax neg m 0
        | _ => S754_zero neg
        end
      else
        let den := pow10 (- k) in
        let num := Zpos p * 2 ^ 1074 in
        let q := num / den in
        let r := num mod den in
        let loc := if r =? 0 then loc_Exact else loc_Inexact (2 * r ?= den) in
        binary_round_aux prec emax neg q (-1074) loc
  end.

Record number_token := {
  tok_neg : bool;
  tok_int : Decimal.uint;
  tok_frac : option Decimal.uint;
  tok_exp : option (bool * Decimal.uint)
}.

Definition uint_length (d : Decimal.uint) : nat := Decimal.nb_digits d.

(** [float(text)] on the text of a number token. *)
Definition float_of_token (t : number_token) : spec_float :=
  let frac := match tok_frac t with Some f => f | None => Decimal.Nil end in
  let digits := Decimal.app (tok_int t) frac in
  let e := match tok_exp t with
           | Some (neg, x) => cond_Zopp neg (Z.of_N (N.of_uint x))
           | None => 0
           end in
  float_of_decimal (tok_neg t) (N.of_uint digits)
    (e - Z.of_nat (uint_length frac)).

(** The number of decimal digits of a positive integer. *)
Definition ndigits (n : N) : nat := uint_length (N.to_uint n).

(** [decpt_of num den]: the position of the decimal point of the positive
    rational [num/den], that is the [p] with
    [10^(p-1) <= num/den < 10^p]. *)
Fixpoint decpt_below (fuel : nat) (num den : Z) (p : Z) : Z :=
  match fuel with
  | O => p
  | S fuel' =>
      if den <=? num then p else decpt_below fuel' (num * 10) den (p - 1)
  end.

Definition decpt_of (num den : Z) : Z :=
  if den <=? num then Z.of_nat (ndigits (Z.to_N (num / den)))
  else decpt_below 400 (num * 10) den 0.

(** The [n]-digit decimals next to [num/den] that [float] maps back to
    [f]: the one below, the one above, or the nearer of the two (the
    even one on a tie). *)
Definition shortest_at (f : spec_float) (num den decpt : Z) (n : Z)
  : option (N * Z) :=
  let k := decpt - n in
  let x := if 0 <=? k then num else num * pow10 (- k) in
  let y := if 0 <=? k then den * pow10 k else den in
  let lo := Z.to_N (x / y) in
  let hi := N.succ lo in
  let r := x mod y in
  let back d := match SFcompare (float_of_decimal false d k) f with
                | Some Eq => true
                | _ => false
                end in
  match back lo, back hi with
  | true, true =>
      match 2 * r ?= y with
      | Lt => Some (lo, k)
      | Gt => Some (hi, k)
      | Eq => Some (if N.even lo then lo else hi, k)
      end
  | true, false => Some (lo, k)
  | false, true => Some (hi, k)
  | false, false => None
  end.

Fixpoint shortest_from (fuel : nat) (f : spec_float) (num den decpt : Z) (n : Z)
  : option (N * Z) :=
  match fuel with
  | O => None
  | S fuel' =>
      match shortest_at f num den decpt n with
      | Some r => Some r
      | None => shortest_from fuel' f num den decpt (n + 1)
      end
  end.

(** Trailing zeros carry no information: [d * 10^k] with [d] a multiple
    of ten is [(d/10) * 10^(k+1)]. *)
Fixpoint strip_zeros (fuel : nat) (d : N) (k : Z) : N * Z :=
  match fuel with
  | O => (d, k)
  | S fuel' =>
      if (negb (d =? 0) && (d mod 10 =? 0))%N
      then strip_zeros fuel' (d / 10)%N (k + 1)
      else (d, k)
  end.

Definition zeros (n : Z) : string :=
  String.concat EmptyString (repeat "0" (Z.to_nat n)).

Definition dump_exponent (e : Z) : string :=
  let a := dump_nat (Z.to_N (Z.abs e)) in
  (if e <? 0 then "-" else "+") ++ (if Z.abs e <? 10 then "0" ++ a else a).

(** The layout of [repr]: digits [ds] with the decimal point [decpt]
    places after their start; exponent form from 1e16 on and below 1e-4. *)
Definition layout (ds : string) (decpt : Z) : string :=
  let n := Z.of_nat (String.length ds) in
  if (decpt <=? -4) || (16 <? decpt) then
    String.substring 0 1 ds
    ++ (if 1 <? n then "." ++ String.substring 1 (String.length ds - 1) ds
        else EmptyString)
    ++ "e" ++ dump_exponent (decpt - 1)
  else if decpt <=? 0 then "0." ++ zeros (- decpt) ++ ds
  else if decpt <? n then
    String.substring 0 (Z.to_nat decpt) ds ++ "."
    ++ String.substring (Z.to_nat decpt) (String.length ds - Z.to_nat decpt) ds
  else ds ++ zeros (decpt - n) ++ ".0".

(** [float.__repr__] of a finite float. *)
Definition float_repr (f : spec_float) : string :=
  match f with
  | S754_zero s => if s then "-0.0" else "0.0"
  | S754_finite s m e =>
      let num := if 0 <=? e then Zpos m * 2 ^ e else Zpos m in
      let den := if 0 <=? e then 1 else 2 ^ (- e) in
      let decpt := decpt_of num den in
      match shortest_from 17 (S754_finite false m e) num den decpt 1 with
      | Some (d, k) =>
          let (d', k') := strip_zeros 17 d k in
          let ds := dump_nat d' in
          (if s then "-" else EmptyString)
          ++ layout ds (Z.of_nat (String.length ds) + k')
      | None => "nan"
      end
  | S754_infinity s => if s then "-inf" else "inf"
  | S754_nan => "nan"
  end.

(** [json.dump] writes the three special floats by name. *)
Definition dump_float (f : spec_float) : string :=
  match f with
  | S754_nan => "NaN"
  | S754_infinity s => if s then "-Infinity" else "Infinity"
  | _ => float_repr f
  end.

(** *** Number tokens

    The scanner matches, at the head of the text: an optional minus; a
    zero, or a digit from 1 to 9 and all digits that follow; then, if
    present, a point and at least one digit; then, if present, [e] or
    [E], an optional sign and at least one digit. *)

Definition scan_int_part (s : string) : option (Decimal.uint * string) :=
  match s with
  | String "0" rest => Some (Decimal.D0 Decimal.Nil, rest)
  | String c _ => if is_digit c then Some (scan_digits s) else None
  | EmptyString => None
  end.

Definition scan_frac (s : string) : option Decimal.uint * string :=
  match s with
  | String "." (String c _ as s') =>
      if is_digit c then let (ds, rest) := scan_digits s' in (Some ds, rest)
      else (None, s)
  | _ => (None, s)
  end.

Definition scan_exp_digits (neg : bool) (s whole : string)
  : option (bool * Decimal.uint) * string :=
  match s with
  | String c _ =>
      if is_digit c then let (ds, rest) := scan_digits s in (Some (neg, ds), rest)
      else (None, whole)
  | EmptyString => (None, whole)
  end.

Definition scan_exp (s : string) : option (bool * Decimal.uint) * string :=
  match s with
  | String c s' =>
      if (Ascii.eqb c "e" || Ascii.eqb c "E")%bool then
        match s' with
        | String "-" s'' => scan_exp_digits true s'' s
        | String "+" s'' => scan_exp_digits false s'' s
        | _ => scan_exp_digits false s' s
        end
      else (None, s)
  | EmptyString => (None, s)
  end.

Definition scan_unsigned (neg : bool) (s : string)
  : option (number_token * string) :=
  match scan_int_part s with
  | None => None
  | Some (int, s2) =>
      let (frac, s3) := scan_frac s2 in
      let (exp, s4) := scan_exp s3 in
      Some ({| tok_neg := neg; tok_int := int; tok_frac := frac; tok_exp := exp |},
            s4)
  end.

Definition scan_number (s : string) : option (number_token * string) :=
  match s with
  | String "-" s' => scan_unsigned true s'
  | _ => scan_unsigned false s
  end.

(** [int(text)] or [float(text)], as the token has a fraction or an
    exponent or neither. *)
Definition value_of_token (t : number_token) : value :=
  match tok_frac t, tok_exp t with
  | None, None =>
      VInt (cond_Zopp (tok_neg t) (Z.of_N (N.of_uint (tok_int t))))
  | _, _ => VFloat (float_of_token t)
  end.

(** *** Strings *)

Definition hex_char (n : N) : ascii :=
  match n with
  | 0 => "0" | 1 => "1" | 2 => "2" | 3 => "3" | 4 => "4" | 5 => "5"
  | 6 => "6" | 7 => "7" | 8 => "8" | 9 => "9" | 10 => "a" | 11 => "b"
  | 12 => "c" | 13 => "d" | 14 => "e" | _ => "f"
  end%N%char.

(** The escapes of [encode_basestring]: the quote, the backslash and the
    control characters; everything else is written as it is. *)
Definition escape_char (c : ascii) : string :=
  if Ascii.eqb c quote then String backslash (str1 quote)
  else if Ascii.eqb c backslash then String backslash (str1 backslash)
  else if Ascii.eqb c LF then String backslash "n"
  else if Ascii.eqb c "013" then String backslash "r"
  else if Ascii.eqb c "009" then String backslash "t"
  else if Ascii.eqb c "008" then String backslash "b"
  else if Ascii.eqb c "012" then String backslash "f"
  else if (N_of_ascii c <? 32)%N then
    String backslash
      (String "u" (String "0" (String "0"
         (String (hex_char (N_of_ascii c / 16))
            (str1 (hex_char (N_of_ascii c mod 16)))))))
  else str1 c.

Fixpoint escape (s : string) : string :=
  match s with
  | EmptyString => EmptyString
  | String c s' => escape_char c ++ escape s'
  end.

Definition dump_str (s : string) : string :=
  String quote (escape s ++ str1 quote).

Definition hex_value (c : ascii) : option N :=
  let n := N_of_ascii c in
  if (48 <=? n)%N && (n <=? 57)%N then Some (n - 48)%N
  else if (97 <=? n)%N && (n <=? 102)%N then Some (n - 87)%N
  else if (65 <=? n)%N && (n <=? 70)%N then Some (n - 55)%N
  else None.

Definition hex4 (a b c d : ascii) : option N :=
  match hex_value a, hex_value b, hex_value c, hex_value d with
  | Some x, Some y, Some z, Some w => Some (((x * 16 + y) * 16 + z) * 16 + w)%N
  | _, _, _, _ => None
  end.

Definition byte (n : N) : ascii := ascii_of_N n.

(** The bytes of a code point. *)
Definition utf8 (u : N) : string :=
  (if u <? 128 then str1 (byte u)
   else if u <? 2048 then
     String (byte (192 + u / 64)) (str1 (byte (128 + u mod 64)))
   else if u <? 65536 then
     String (byte (224 + u / 4096))
       (String (byte (128 + (u / 64) mod 64)) (str1 (byte (128 + u mod 64))))
   else
     String (byte (240 + u / 262144))
       (String (byte (128 + (u / 4096) mod 64))
          (String (byte (128 + (u / 64) mod 64))
             (str1 (byte (128 + u mod 64))))))%N.

Definition is_high_surrogate (u : N) : bool := ((55296 <=? u) && (u <=? 56319))%N.
Definition is_low_surrogate (u : N) : bool := ((56320 <=? u) && (u <=? 57343))%N.
Definition join_surrogates (hi lo : N) : N :=
  (65536 + (hi - 55296) * 1024 + (lo - 56320))%N.

(** The body of a string, from behind its opening quote up to the closing
    one (strict mode: a control character is an error). *)
Fixpoint scan_string (s : string) : result (string * string) :=
  match s with
  | EmptyString => Raise JSONDecodeError
  | String c s' =>
      if Ascii.eqb c quote then Ok (EmptyString, s')
      else if Ascii.eqb c backslash then
        match s' with
        | String e s'' =>
            let plain (x : ascii) :=
              let* (body, rest) := scan_string s'' in Ok (String x body, rest) in
            if Ascii.eqb e quote then plain quote
            else if Ascii.eqb e backslash then plain backslash
            else if Ascii.eqb e "/" then plain "/"%char
            else if Ascii.eqb e "b" then plain "008"%char
            else if Ascii.eqb e "f" then plain "012"%char
            else if Ascii.eqb e "n" then plain LF
            else if Ascii.eqb e "r" then plain "013"%char
            else if Ascii.eqb e "t" then plain "009"%char
            else if Ascii.eqb e "u" then
              match s'' with
              | String h1 (String h2 (String h3 (String h4 s3))) =>
                  match hex4 h1 h2 h3 h4 with
                  | None => Raise JSONDecodeError
                  | Some u =>
                      let single :=
                        let* (body, rest) := scan_string s3 in
                        Ok (utf8 u ++ body, rest) in
                      if is_high_surrogate u then
                        match s3 with
                        | String b (String x (String l1 (String l2 (String l3 (String l4 s4))))) =>
                            if (Ascii.eqb b backslash && Ascii.eqb x "u")%bool then
                              match hex4 l1 l2 l3 l4 with
                              | None => Raise JSONDecodeError
                              | Some lo =>
                                  if is_low_surrogate lo then
                                    let* (body, rest) := scan_string s4 in
                                    Ok (utf8 (join_surrogates u lo) ++ body, rest)
                                  else single
                              end
                            else single
                        | _ => single
                        end
                      else single
                  end
              | _ => Raise JSONDecodeError
              end
            else Raise JSONDecodeError
        | EmptyString => Raise JSONDecodeError
        end
      else if (N_of_ascii c <? 32)%N then Raise JSONDecodeError
      else
        let* (body, rest) := scan_string s' in Ok (String c body, rest)
  end.

(** *** Writing a value *)

Fixpoint spaces (n : nat) : string :=
  match n with
  | O => EmptyString
  | S n' => String " " (spaces n')
  end.

Definition newline_indent (level : nat) : string :=
  String LF (spaces (2 * level)).

(** The parts of a container behind the first: a comma, a new line and
    the part, for each. *)
Fixpoint continued (level : nat) (parts : list string) : string :=
  match parts with
  | [] => EmptyString
  | q :: qs => String "," (newline_indent level ++ q ++ continued level qs)
  end.

(** A container with its parts, one per line, a level deeper; an empty
    one is just its two brackets. *)
Definition bracket (o c : ascii) (level : nat) (parts : list string) : string :=
  match parts with
  | [] => String o (str1 c)
  | p :: ps =>
      String o
        (newline_indent (S level) ++ p ++ continued (S level) ps
         ++ newline_indent level ++ str1 c)
  end.

Fixpoint dumps_at (level : nat) (v : value) : string :=
  match v with
  | VNone => "null"
  | VBool b => if b then "true" else "false"
  | VInt z => dump_int z
  | VFloat f => dump_float f
  | VStr s => dump_str s
  | VList l => bracket "[" "]" level (map (dumps_at (S level)) l)
  | VDict d =>
      bracket "{" "}" level
        (map (fun kv => dump_str (fst kv) ++ ": " ++ dumps_at (S level) (snd kv)) d)
  end.

(** [json.dumps(v, indent=2, ensure_ascii=False)] *)
Definition dumps (v : value) : string := dumps_at 0 v.

(** *** Reading a value *)

Definition is_ws (c : ascii) : bool :=
  (Ascii.eqb c " " || Ascii.eqb c "009" || Ascii.eqb c LF || Ascii.eqb c "013")%bool.

Fixpoint skip_ws (s : string) : string :=
  match s with
  | String c s' => if is_ws c then skip_ws s' else s
  | EmptyString => s
  end.

(** [s] without its prefix [p], when it starts with [p]. *)
Fixpoint strip_prefix (p s : string) : option string :=
  match p, s with
  | EmptyString, _ => Some s
  | String a p', String b s' => if Ascii.eqb a b then strip_prefix p' s' else None
  | String _ _, EmptyString => None
  end.

(** [s] without its first character, when that is [c]. *)
Definition starts_with (c : ascii) (s : string) : option string :=
  match s with
  | String c' rest => if Ascii.eqb c c' then Some rest else None
  | EmptyString => None
  end.

Definition scan_constant (s : string) : result (value * string) :=
  match strip_prefix "NaN" s with
  | Some rest => Ok (VFloat S754_nan, rest)
  | None =>
      match strip_prefix "Infinity" s with
      | Some rest => Ok (VFloat (S754_infinity false), rest)
      | None =>
          match strip_prefix "-Infinity" s with
          | Some rest => Ok (VFloat (S754_infinity true), rest)
          | None => Raise JSONDecodeError
          end
      end
  end.

Definition scan_atom (s : string) : result (value * string) :=
  match strip_prefix "null" s with
  | Some rest => Ok (VNone, rest)
  | None =>
      match strip_prefix "true" s with
      | Some rest => Ok (VBool true, rest)
      | None =>
          match strip_prefix "false" s with
          | Some rest => Ok (VBool false, rest)
          | None =>
              match scan_number s with
              | Some (t, rest) => Ok (value_of_token t, rest)
              | None => scan_constant s
              end
          end
      end
  end.

(** The scanner.  [scan_once] reads one value at the head of the text,
    [scan_elements] the elements of an array from its first element on,
    [scan_members] the members of an object from its first key on.  Each
    call reads at least one character, so that the recursion ends; [fuel]
    makes that structural, and [loads] hands out enough of it
    ([JsonFacts.loads_answers]). *)
Fixpoint scan_once (fuel : nat) (s : string) {struct fuel}
  : result (value * string) :=
  match fuel with
  | O => Beyond
  | S fuel' =>
      match s with
      | EmptyString => Raise JSONDecodeError
      | String c s' =>
          if Ascii.eqb c quote then
            let* (body, rest) := scan_string s' in Ok (VStr body, rest)
          else if Ascii.eqb c "{" then
            match starts_with "}" (skip_ws s') with
            | Some rest => Ok (VDict [], rest)
            | None => scan_members fuel' (skip_ws s') []
            end
          else if Ascii.eqb c "[" then
            match starts_with "]" (skip_ws s') with
            | Some rest => Ok (VList [], rest)
            | None => scan_elements fuel' (skip_ws s') []
            end
          else scan_atom s
      end
  end

with scan_elements (fuel : nat) (s : string) (acc : list value) {struct fuel}
  : result (value * string) :=
  match fuel with
  | O => Beyond
  | S fuel' =>
      let* (v, rest) := scan_once fuel' s in
      match skip_ws rest with
      | String c rest' =>
          if Ascii.eqb c "]" then Ok (VList (acc ++ [v])%list, rest')
          else if Ascii.eqb c "," then
            scan_elements fuel' (skip_ws rest') (acc ++ [v])%list
          else Raise JSONDecodeError
      | EmptyString => Raise JSONDecodeError
      end
  end

with scan_members (fuel : nat) (s : string) (acc : items) {struct fuel}
  : result (value * string) :=
  match fuel with
  | O => Beyond
  | S fuel' =>
      match s with
      | String q s1 =>
          if Ascii.eqb q quote then
            let* (key, rest) := scan_string s1 in
            match starts_with ":" (skip_ws rest) with
            | Some rest1 =>
                let* (v, rest2) := scan_once fuel' (skip_ws rest1) in
                match skip_ws rest2 with
                | String c rest3 =>
                    if Ascii.eqb c "}" then Ok (VDict (store key v acc), rest3)
                    else if Ascii.eqb c "," then
                      scan_members fuel' (skip_ws rest3) (store key v acc)
                    else Raise JSONDecodeError
                | EmptyString => Raise JSONDecodeError
                end
            | None => Raise JSONDecodeError
            end
          else Raise JSONDecodeError
      | EmptyString => Raise JSONDecodeError
      end
  end.

(** The byte order mark, U+FEFF. *)
Definition BOM : string := utf8 65279.

(** [json.loads(s)]: one value, white space around it, nothing else. *)
Definition loads (s : string) : result value :=
  match strip_prefix BOM s with
  | Some _ => Raise JSONDecodeError
  | None =>
      let* (v, rest) := scan_once (S (2 * String.length s)) (skip_ws s) in
      match skip_ws rest with
      | EmptyString => Ok v
      | String _ _ => Raise JSONDecodeError
      end
  end.

End Json.

(** ** The program *)

Import Py.
Local Open Scope string_scope.
Local Open Scope Z_scope.

Definition opt_str (o : option string) : value :=
  match o with
  | Some s => VStr s
  | None => VNone
  end.

(** *** The dataclasses and their [to_dict] *)

Module Task.
Record t := { title : string; due_date : option string; status : string }.

Definition to_dict (self : t) : value :=
  VDict [("title", VStr (title self));
         ("due_date", opt_str (due_date self));
         ("status", VStr (status self))].
End Task.

Module Material.
Record t := { name : string; quantity : spec_float; unit : string }.

Definition to_dict (self : t) : value :=
  VDict [("name", VStr (name self));
         ("quantity", VFloat (quantity self));
         ("unit", VStr (unit self))].
End Material.

Module Project.
(** [id] holds whatever [next_project_id] returned: a dataclass does not
    check the annotation. *)
Record t := {
  id : value;
  name : string;
  customer : string;
  address : option string;
  due_date : option string;
  status : string;
  notes : option string;
  tasks : list value;
  materials : list value
}.

Definition to_dict (self : t) : value :=
  VDict [("id", id self);
         ("name", VStr (name self));
         ("customer", VStr (customer self));
         ("address", opt_str (address self));
         ("due_date", opt_str (due_date self));
         ("status", VStr (status self));
         ("notes", opt_str (notes self));
         ("tasks", VList (tasks self));
         ("materials", VList (materials self))].
End Project.

(** *** The parsed command lines

    [argparse] is not modelled: a command gets the namespace the parser
    built.  An option without a default is [None] when it is not given;
    [--status] of [add] and [--unit] default to ["offen"] and ["Stk"]. *)

Module ProjectAdd.
Record args := {
  name : string;
  customer : string;
  address : option string;
  due_date : option string;
  status : string;
  notes : option string
}.
End ProjectAdd.

Module ProjectList.
Record args := { status : option string }.
End ProjectList.

Module ProjectDetail.
Record args := { project_id : Z }.
End ProjectDetail.

Module TaskAdd.
Record args := {
  project_id : Z;
  title : string;
  due_date : option string;
  status : string
}.
End TaskAdd.

Module MaterialAdd.
Record args := {
  name : string;
  quantity : spec_float;
  unit : string;
  project_id : option Z
}.
End MaterialAdd.

Inductive command :=
| project_add (args : ProjectAdd.args)
| project_list (args : ProjectList.args)
| project_detail (args : ProjectDetail.args)
| task_add (args : TaskAdd.args)
| material_add (args : MaterialAdd.args)
| inventory_list.

(** *** Output

    One constructor for each [print] of the source, with the values its
    f-string interpolates; how a value is rendered as text is not
    modelled. *)

Inductive context :=
| OfProject (id : value)            (* f"Projekt {project['id']}" *)
| OfInventory.                      (* "Lagerbestand" *)

Inductive line :=
| ProjectCreated (id : value) (name customer : string)
| NoProjectsFound
| ListHeader
| ListRule
| ListRow (id name customer status due : value)
| ProjectNotFound (project_id : Z)
| DetailTitle (id name : value)
| DetailCustomer (customer : value)
| DetailAddress (address : value)
| DetailDue (due_date : value)
| DetailStatus (status : value)
| DetailNotes (notes : value)
| TasksHeader
| TaskRow (idx : Z) (status title due : value)
| NoTasks
| MaterialsHeader
| MaterialRow (name quantity unit : value)
| NoMaterials
| TaskSaved (id : value) (title : string)
| MaterialAdded (where_ : context) (quantity : spec_float) (unit name : string)
| NoInventory
| InventoryHeader
| InventoryRow (name quantity unit : value).

(** *** The state of a run

    [DEFAULT_DATA] is the module global, [DATA_FILE] the content of
    [handwerk_data.json] ([None] while the file does not exist), [stdout]
    what has been printed so far. *)

Record world := {
  DEFAULT_DATA : items;
  DATA_FILE : option string;
  stdout : list line
}.

Definition M (A : Type) : Type := world -> result A * world.

Definition ret {A} (a : A) : M A := fun w => (Ok a, w).

Definition bind {A B} (c : M A) (k : A -> M B) : M B :=
  fun w =>
    match c w with
    | (Ok a, w') => k a w'
    | (Raise e, w') => (Raise e, w')
    | (Beyond, w') => (Beyond, w')
    end.

Definition lift {A} (r : result A) : M A := fun w => (r, w).

Declare Scope run_scope.
Delimit Scope run_scope with run.
Notation "x <- c ;; k" := (bind c (fun x => k))
  (at level 61, c at next level, right associativity) : run_scope.
Notation "c ;; k" := (bind c (fun _ => k))
  (at level 61, right associativity) : run_scope.
Local Open Scope run_scope.

Definition print (l : line) : M unit :=
  fun w =>
    (Ok tt, {| DEFAULT_DATA := DEFAULT_DATA w;
               DATA_FILE := DATA_FILE w;
               stdout := (stdout w ++ [l])%list |}).

(** [for x in xs: body(x)] *)
Fixpoint for_each {A} (xs : list A) (body : A -> M unit) : M unit :=
  match xs with
  | [] => ret tt
  | x :: xs' => body x ;; for_each xs' body
  end.

(** The state in which the interpreter starts [main]: the module has just
    been loaded. *)
Definition start (file : option string) : world :=
  {| DEFAULT_DATA := [("projects", VList []); ("inventory", VList [])];
     DATA_FILE := file;
     stdout := [] |}.

(** *** Loading and saving *)

(** The document a command works on.  [aliased] records that it is the
    shallow copy [DEFAULT_DATA.copy()]: a dict of its own whose values are
    the very lists held by [DEFAULT_DATA]. *)
Record loaded := { doc : value; aliased : bool }.

Definition load_data : M loaded :=
  fun w =>
    match DATA_FILE w with
    | None => (Ok {| doc := VDict (DEFAULT_DATA w); aliased := true |}, w)
    | Some text =>
        (let* v := Json.loads text in Ok {| doc := v; aliased := false |}, w)
    end.

(** [save_data] as it goes when nothing fails: the file then holds the
    text [json.dump] writes for the document.  The source opens the file
    for writing, which empties it, before [json.dump] runs; when the
    encoder or the handle then refuses a value (a str with a lone
    surrogate, an int of more than 4300 digits, nesting beyond the
    recursion limit), or the operating system fails, the exception
    leaves a cut-off file behind.  These failures are outside the model:
    [save_data] always returns.  [storable] below describes the
    documents on which the encoder and the handle do not fail; the
    statements that a command returns, or that a file is valid after a
    session, are made for such documents. *)
Definition save_data (data : value) : M unit :=
  fun w =>
    (Ok tt, {| DEFAULT_DATA := DEFAULT_DATA w;
               DATA_FILE := Some (Json.dumps data);
               stdout := stdout w |}).

(** An in-place change of a list or dict inside [data], after which the
    document reads [doc'].  Through a shallow copy the changed object is
    the one [DEFAULT_DATA] holds, which then reads the same. *)
Definition mutated (data : loaded) (doc' : value) : M loaded :=
  fun w =>
    (Ok {| doc := doc'; aliased := aliased data |},
     match aliased data, doc' with
     | true, VDict d =>
         {| DEFAULT_DATA := d; DATA_FILE := DATA_FILE w; stdout := stdout w |}
     | _, _ => w
     end).

(** [target.append(item)], where [target] is what [setdefault(key, [])]
    returned: the value under the key, or the new empty list. *)
Definition appended (target : option value) (item : value) : result value :=
  match target with
  | None => Ok (VList [item])
  | Some (VList l) => Ok (VList (l ++ [item])%list)
  | Some _ => Raise AttributeError
  end.

(** [data.setdefault(key, []).append(item)].  A key that [setdefault] has
    to create is created in the dict [data] alone. *)
Definition setdefault_append (data : loaded) (key : string) (item : value)
  : M loaded :=
  match doc data with
  | VDict d =>
      l <- lift (appended (lookup key d) item) ;;
      match lookup key d with
      | Some _ => mutated data (VDict (store key l d))
      | None => ret {| doc := VDict (store key l d); aliased := false |}
      end
  | _ => lift (Raise AttributeError)
  end.

Fixpoint replace_nth {A} (i : nat) (x : A) (l : list A) : list A :=
  match l, i with
  | [], _ => []
  | _ :: l', O => x :: l'
  | y :: l', S i' => y :: replace_nth i' x l'
  end.

(** The document after the dict at position [i] of [data["projects"]]
    has been changed in place into [project']. *)
Definition with_project (data : value) (i : nat) (project' : value) : value :=
  match data with
  | VDict d =>
      match lookup "projects" d with
      | Some (VList ps) => VDict (store "projects" (VList (replace_nth i project' ps)) d)
      | _ => data
      end
  | _ => data
  end.

(** [project.setdefault(key, []).append(item)] for the project that
    [find_project] returned from position [i]. *)
Definition project_setdefault_append (data : loaded) (i : nat) (project : value)
  (key : string) (item : value) : M (loaded * value) :=
  match project with
  | VDict p =>
      l <- lift (appended (lookup key p) item) ;;
      let project' := VDict (store key l p) in
      data' <- mutated data (with_project (doc data) i project') ;;
      ret (data', project')
  | _ => lift (Raise AttributeError)
  end.

(** *** Lookup helpers *)

Definition next_project_id (data : value) : result value :=
  let* projects := get data "projects" (VList []) in
  let* ps := iter projects in
  let* m := max_default (fun p => get p "id" (VInt 0)) ps (VInt 0) in
  add_one m.

(** [next((p for p in ps if p.get("id") == project_id), None)]: the
    elements behind the first match are not looked at.  The result is
    [None] or the matching dict; its position comes with it, since the
    callers change that very dict in place. *)
Fixpoint first_with_id (ps : list value) (project_id : Z) (i : nat)
  : result (option (nat * value)) :=
  match ps with
  | [] => Ok None
  | p :: ps' =>
      let* id := get p "id" VNone in
      if eq_int id project_id then Ok (Some (i, p))
      else first_with_id ps' project_id (S i)
  end.

Definition find_project (data : value) (project_id : Z)
  : result (option (nat * value)) :=
  let* projects := get data "projects" (VList []) in
  let* ps := iter projects in
  first_with_id ps project_id 0.

(** *** Formatting

    What the f-strings can raise.  A format specification ([:>3], [:<25],
    [:7]) is accepted by strings and numbers and rejected by [None],
    lists and dicts; without one every value is rendered. *)

Definition with_spec (v : value) : result value :=
  match v with
  | VNone | VList _ | VDict _ => Raise TypeError
  | _ => Ok v
  end.

(** [v[:n]]: strings and lists can be sliced.  What a dict does with a
    slice depends on the interpreter version and is left out. *)
Definition slice_to (n : nat) (v : value) : result value :=
  match v with
  | VStr s => Ok (VStr (str_take n s))
  | VList l => Ok (VList (firstn n l))
  | VDict _ => Beyond
  | _ => Raise TypeError
  end.

(** *** The commands *)

Definition cmd_project_add (args : ProjectAdd.args) : M unit :=
  data <- load_data ;;
  id <- lift (next_project_id (doc data)) ;;
  let new_project :=
    {| Project.id := id;
       Project.name := ProjectAdd.name args;
       Project.customer := ProjectAdd.customer args;
       Project.address := ProjectAdd.address args;
       Project.due_date := ProjectAdd.due_date args;
       Project.status := ProjectAdd.status args;
       Project.notes := ProjectAdd.notes args;
       Project.tasks := [];
       Project.materials := [] |} in
  data <- setdefault_append data "projects" (Project.to_dict new_project) ;;
  save_data (doc data) ;;
  print (ProjectCreated (Project.id new_project) (Project.name new_project)
           (Project.customer new_project)).

(** [[p for p in projects if p.get("status") == status]] *)
Fixpoint with_status (ps : list value) (status : string) : result (list value) :=
  match ps with
  | [] => Ok []
  | p :: ps' =>
      let* s := get p "status" VNone in
      let* rest := with_status ps' status in
      Ok (if eq_str s status then p :: rest else rest)
  end.

(** The row of the table for [proj]: the values of the f-string, each
    formatted as it is evaluated. *)
Definition row (proj : value) : result line :=
  let* id := (let* v := get proj "id" VNone in with_spec v) in
  let* name := (let* v := get proj "name" (VStr EmptyString) in
                let* v := slice_to 25 v in with_spec v) in
  let* customer := (let* v := get proj "customer" (VStr EmptyString) in
                    let* v := slice_to 18 v in with_spec v) in
  let* status := (let* v := get proj "status" (VStr EmptyString) in with_spec v) in
  let* due := get proj "due_date" VNone in
  Ok (ListRow id name customer status (or_else due (VStr "-"))).

Definition list_row (proj : value) : M unit :=
  l <- lift (row proj) ;; print l.

(** [if args.status:] holds for a status that is given and is not the
    empty string. *)
Definition given_status (status : option string) : option string :=
  match status with
  | Some s => if truthy (VStr s) then Some s else None
  | None => None
  end.

Definition cmd_project_list (args : ProjectList.args) : M unit :=
  data <- load_data ;;
  projects <- lift (get (doc data) "projects" (VList [])) ;;
  projects <- match given_status (ProjectList.status args) with
              | Some status =>
                  lift (let* ps := iter projects in
                        let* selected := with_status ps status in
                        Ok (VList selected))
              | None => ret projects
              end ;;
  if negb (truthy projects) then print NoProjectsFound
  else
    print ListHeader ;;
    print ListRule ;;
    ps <- lift (iter projects) ;;
    for_each ps list_row.

(** [enumerate(xs, start=n)] *)
Fixpoint enumerate {A} (xs : list A) (n : Z) : list (Z * A) :=
  match xs with
  | [] => []
  | x :: xs' => (n, x) :: enumerate xs' (n + 1)
  end.

Definition task_row (it : Z * value) : M unit :=
  let (idx, task) := it in
  due <- lift (get task "due_date" VNone) ;;
  status <- lift (get task "status" (VStr "-")) ;;
  title <- lift (get task "title" VNone) ;;
  print (TaskRow idx status title (or_else due (VStr "-"))).

Definition material_row (row : value -> value -> value -> line) (mat : value)
  : M unit :=
  name <- lift (get mat "name" VNone) ;;
  quantity <- lift (get mat "quantity" VNone) ;;
  unit <- lift (get mat "unit" VNone) ;;
  print (row name quantity unit).

(** [if project.get(key): print(f"...{project[key]}")] *)
Definition print_if_set (project : value) (key : string) (l : value -> line)
  : M unit :=
  v <- lift (get project key VNone) ;;
  if truthy v then
    v <- lift (getitem project key) ;; print (l v)
  else ret tt.

Definition cmd_project_detail (args : ProjectDetail.args) : M unit :=
  data <- load_data ;;
  found <- lift (find_project (doc data) (ProjectDetail.project_id args)) ;;
  match found with
  | Some (_, project) =>
      if negb (truthy project) then
        print (ProjectNotFound (ProjectDetail.project_id args))
      else
        id <- lift (getitem project "id") ;;
        name <- lift (getitem project "name") ;;
        print (DetailTitle id name) ;;
        customer <- lift (getitem project "customer") ;;
        print (DetailCustomer customer) ;;
        print_if_set project "address" DetailAddress ;;
        print_if_set project "due_date" DetailDue ;;
        status <- lift (get project "status" (VStr "-")) ;;
        print (DetailStatus status) ;;
        print_if_set project "notes" DetailNotes ;;
        tasks <- lift (get project "tasks" (VList [])) ;;
        (if truthy tasks then
           print TasksHeader ;;
           ts <- lift (iter tasks) ;;
           for_each (enumerate ts 1) task_row
         else print NoTasks) ;;
        materials <- lift (get project "materials" (VList [])) ;;
        if truthy materials then
          print MaterialsHeader ;;
          ms <- lift (iter materials) ;;
          for_each ms (material_row MaterialRow)
        else print NoMaterials
  | None => print (ProjectNotFound (ProjectDetail.project_id args))
  end.

Definition cmd_task_add (args : TaskAdd.args) : M unit :=
  data <- load_data ;;
  found <- lift (find_project (doc data) (TaskAdd.project_id args)) ;;
  match found with
  | Some (i, project) =>
      if negb (truthy project) then
        print (ProjectNotFound (TaskAdd.project_id args))
      else
        let task := {| Task.title := TaskAdd.title args;
                       Task.due_date := TaskAdd.due_date args;
                       Task.status := TaskAdd.status args |} in
        r <- project_setdefault_append data i project "tasks" (Task.to_dict task) ;;
        let (data, project) := r in
        save_data (doc data) ;;
        id <- lift (getitem project "id") ;;
        print (TaskSaved id (Task.title task))
  | None => print (ProjectNotFound (TaskAdd.project_id args))
  end.

(** [if args.project_id:] holds for a project id that is given and is
    not zero. *)
Definition given_id (project_id : option Z) : option Z :=
  match project_id with
  | Some n => if truthy (VInt n) then Some n else None
  | None => None
  end.

Definition cmd_material_add (args : MaterialAdd.args) : M unit :=
  data <- load_data ;;
  let material := {| Material.name := MaterialAdd.name args;
                     Material.quantity := MaterialAdd.quantity args;
                     Material.unit := MaterialAdd.unit args |} in
  let finish (data : loaded) (where_ : context) : M unit :=
    save_data (doc data) ;;
    print (MaterialAdded where_ (Material.quantity material)
             (Material.unit material) (Material.name material)) in
  match given_id (MaterialAdd.project_id args) with
  | Some project_id =>
      found <- lift (find_project (doc data) project_id) ;;
      match found with
      | Some (i, project) =>
          if negb (truthy project) then print (ProjectNotFound project_id)
          else
            r <- project_setdefault_append data i project "materials"
                   (Material.to_dict material) ;;
            let (data, project) := r in
            id <- lift (getitem project "id") ;;
            finish data (OfProject id)
      | None => print (ProjectNotFound project_id)
      end
  | None =>
      data <- setdefault_append data "inventory" (Material.to_dict material) ;;
      finish data OfInventory
  end.

Definition cmd_inventory_list : M unit :=
  data <- load_data ;;
  inventory <- lift (get (doc data) "inventory" (VList [])) ;;
  if negb (truthy inventory) then print NoInventory
  else
    print InventoryHeader ;;
    items <- lift (iter inventory) ;;
    for_each items (material_row InventoryRow).

(** [args.func(args)] *)
Definition main (c : command) : M unit :=
  match c with
  | project_add args => cmd_project_add args
  | project_list args => cmd_project_list args
  | project_detail args => cmd_project_detail args
  | task_add args => cmd_task_add args
  | material_add args => cmd_material_add args
  | inventory_list => cmd_inventory_list
  end.

(** One invocation of the tool on the file as it stands. *)
Definition invoke (c : command) (file : option string) : result unit * world :=
  main c (start file).

(** The exit status of the interpreter: 0 when [main] returns, 1 when an
    exception reaches the top level. *)
Definition exit_status (r : result unit) : option Z :=
  match r with
  | Ok _ => Some 0
  | Raise _ => Some 1
  | Beyond => None
  end.

(** *** Values the file can hold

    [json.dump] writes every value of [value]; what it writes reads back
    as the same value when the keys of each dict are pairwise different
    (which they are in a Python dict) and each finite float is given back
    by [float] from the digits [repr] wrote for it.  The latter is what
    [repr] is specified to do; it is a property of the conversion between
    binary and decimal, checked here float by float. *)

Definition float_same (f g : spec_float) : bool :=
  match f, g with
  | S754_zero s, S754_zero s' => Bool.eqb s s'
  | S754_infinity s, S754_infinity s' => Bool.eqb s s'
  | S754_nan, S754_nan => true
  | S754_finite s m e, S754_finite s' m' e' =>
      Bool.eqb s s' && (m =? m')%positive && (e =? e')
  | _, _ => false
  end.

Definition is_float_token (t : Json.number_token) : bool :=
  match Json.tok_frac t, Json.tok_exp t with
  | None, None => false
  | _, _ => true
  end.

Definition float_text_ok (f : spec_float) : bool :=
  match f with
  | S754_nan | S754_infinity _ => true
  | _ =>
      match Json.scan_number (Json.float_repr f) with
      | Some (t, EmptyString) =>
          is_float_token t && float_same (Json.float_of_token t) f
      | _ => false
      end
  end.

Fixpoint distinct (ks : list string) : bool :=
  match ks with
  | [] => true
  | k :: ks' => negb (existsb (String.eqb k) ks') && distinct ks'
  end.

Fixpoint json_ok (v : value) : bool :=
  match v with
  | VFloat f => float_text_ok f
  | VList l => forallb json_ok l
  | VDict d => distinct (keys d) && forallb (fun kv => json_ok (snd kv)) d
  | _ => true
  end.

(** The calls the scanner makes on the text of a value. *)
Fixpoint size (v : value) : nat :=
  match v with
  | VList l => S (list_sum (map (fun x => S (size x)) l))
  | VDict d => S (list_sum (map (fun kv => S (size (snd kv))) d))
  | _ => 1
  end.

(** *** Floats and decimals

    What the proof that a float reads back from its digits speaks of. *)

(**     [locate n d] is the integer part of the ratio [n/d] and where the
    ratio lies between it and the next integer: on it, below the middle,
    on the middle or above. *)
Definition locate (n d : Z) : Z * location :=
  (n / d,
   if n mod d =? 0 then loc_Exact else loc_Inexact (2 * (n mod d) ?= d)).

(** The float nearest to [num/den] (ties to even), for a positive
    ratio: the ratio is located in units of [2^-1074], the least
    positive binary64 number, and rounded from there. *)
Definition round_ratio (neg : bool) (num den : Z) : spec_float :=
  binary_round_aux prec emax neg
    (fst (locate (num * 2 ^ 1074) den)) (-1074)
    (snd (locate (num * 2 ^ 1074) den)).

(** The decimal [d * 10^k] as a ratio of integers. *)
Definition dec_num (d k : Z) : Z := if 0 <=? k then d * 10 ^ k else d.
Definition dec_den (k : Z) : Z := if 0 <=? k then 1 else 10 ^ (- k).

(** The record of [shr_1] for a located ratio. *)
Definition located (n d : Z) : shr_record :=
  shr_record_of_loc (fst (locate n d)) (snd (locate n d)).

(** The integer nearest to [n/d], the even one on a tie. *)
Definition nearest (n d : Z) : Z :=
  round_nearest_even (fst (locate n d)) (snd (locate n d)).

(** The last step of [binary_round_aux]: the rounded mantissa is brought
    back into the format (rounding up can have made it one bit too long). *)
Definition finish (sx : bool) (c e : Z) : spec_float :=
  let '(mrs, e') := shr_fexp prec emax c e loc_Exact in
  match shr_m mrs with
  | Z0 => S754_zero sx
  | Zpos m => if e' <=? emax - prec then S754_finite sx m e' else S754_infinity sx
  | Zneg _ => S754_nan
  end.

(** The number a row of decimal digits denotes, read from the left. *)
Definition digit_value (d : DecimalFacts.digits) : Z :=
  match d with
  | DecimalFacts.d0 => 0 | DecimalFacts.d1 => 1 | DecimalFacts.d2 => 2
  | DecimalFacts.d3 => 3 | DecimalFacts.d4 => 4 | DecimalFacts.d5 => 5
  | DecimalFacts.d6 => 6 | DecimalFacts.d7 => 7 | DecimalFacts.d8 => 8
  | DecimalFacts.d9 => 9
  end.

Fixpoint list_value (acc : Z) (l : list DecimalFacts.digits) : Z :=
  match l with
  | [] => acc
  | d :: l' => list_value (10 * acc + digit_value d) l'
  end.

(** A row of digits that starts with a digit from 1 to 9. *)
Definition head_nonzero (u : Decimal.uint) : bool :=
  match u with
  | Decimal.Nil | Decimal.D0 _ => false
  | _ => true
  end.

(** *** Values the program can write

    The source writes through a handle that encodes UTF-8, and
    [json.dump] turns each int into its decimal digits.  Both can fail:
    a str with a lone surrogate cannot be encoded, an int of more than
    4300 digits is refused by the conversion, and the encoder gives up
    on nesting beyond the recursion limit.  [storable] describes the
    values on which none of this happens.

    A str of the model is the UTF-8 text of the Python str; a lone
    surrogate shows as the three bytes its escape decodes to, which is
    not well-formed UTF-8. *)

Definition continuation (c : ascii) : bool :=
  ((128 <=? N_of_ascii c) && (N_of_ascii c <=? 191))%N.

(** Well-formed UTF-8: no surrogate, no overlong form, nothing above
    U+10FFFF. *)
Fixpoint valid_utf8 (s : string) : bool :=
  match s with
  | EmptyString => true
  | String a s1 =>
      let x := N_of_ascii a in
      if (x <? 128)%N then valid_utf8 s1
      else
        match s1 with
        | String b s2 =>
            let y := N_of_ascii b in
            if ((194 <=? x) && (x <=? 223))%N then
              continuation b && valid_utf8 s2
            else
              match s2 with
              | String c s3 =>
                  if ((224 <=? x) && (x <=? 239))%N then
                    ((if x =? 224 then 160 <=? y else 128 <=? y)
                     && (if x =? 237 then y <=? 159 else y <=? 191))%N
                    && continuation c && valid_utf8 s3
                  else
                    match s3 with
                    | String d s4 =>
                        ((240 <=? x) && (x <=? 244)
                         && (if x =? 240 then 144 <=? y else 128 <=? y)
                         && (if x =? 244 then y <=? 143 else y <=? 191))%N
                        && continuation c && continuation d && valid_utf8 s4
                    | EmptyString => false
                    end
              | EmptyString => false
              end
        | EmptyString => false
        end
  end.

(** [sys.get_int_max_str_digits()]: an int converts to decimal digits
    when it has at most 4300 of them. *)
Definition int_limit : Z := 10 ^ 4300.

(** Nesting the encoder and the scanner go through without reaching the
    recursion limit. *)
Definition max_depth : nat := 100.

(** [storable_at slack room v]: the strs and keys of [v] are well-formed,
    its floats are binary64 numbers, the keys of each dict differ, its
    ints stay within the digit limit even [slack] further from zero, and
    lists and dicts are nested at most [room] deep. *)
Fixpoint storable_at (slack room : nat) (v : value) {struct v} : bool :=
  match v with
  | VNone | VBool _ => true
  | VInt z => Z.abs z + Z.of_nat slack <? int_limit
  | VFloat f => valid_binary prec emax f
  | VStr s => valid_utf8 s
  | VList l =>
      match room with
      | O => false
      | S room' => forallb (storable_at slack room') l
      end
  | VDict d =>
      match room with
      | O => false
      | S room' =>
          distinct (keys d)
          && forallb (fun kv => valid_utf8 (fst kv)
                                && storable_at slack room' (snd kv)) d
      end
  end.

Definition storable (v : value) : bool := storable_at 0 max_depth v.

(** Storable, with room for [slack] more ids. *)
Definition storable_with (slack : nat) (v : value) : bool :=
  (Z.of_nat slack + 1 <? int_limit) && storable_at slack max_depth v.

(** ** The vocabulary of the statements *)

(** *** The shape of the text *)

Module JsonShape.
Import Json.
Local Open Scope string_scope.
Local Open Scope Z_scope.

(** What may follow a value in the text [dumps] writes: a comma, the
    line feed before a closing bracket, or the end. *)
Definition is_delim (c : ascii) : bool :=
  (Ascii.eqb c "," || Ascii.eqb c LF)%bool.

Definition delimited (s : string) : Prop :=
  match s with
  | EmptyString => True
  | String c _ => is_delim c = true
  end.

Definition no_digit_head (s : string) : Prop :=
  match s with
  | EmptyString => True
  | String c _ => is_digit c = false
  end.

(** The text of a value starts with a character of its own: no white
    space, no closing bracket, no byte of the byte order mark. *)
Definition head_ok (s : string) : Prop :=
  match s with
  | EmptyString => False
  | String c _ =>
      is_ws c = false /\ c <> "]"%char /\ c <> "}"%char
      /\ (N_of_ascii c <? 128)%N = true
  end.

(** [v] reads back from its text, whatever the indentation and whatever
    follows the text. *)
Definition reads_back (v : value) : Prop :=
  json_ok v = true ->
  forall level rest fuel, delimited rest -> (size v <= fuel)%nat ->
  scan_once fuel (dumps_at level v ++ rest) = Ok (v, rest).

End JsonShape.

(** *** Documents and runs *)

Local Open Scope string_scope.
Local Open Scope Z_scope.

(** The project id a command looks up with [find_project]. *)
Definition looks_up (c : command) : option Z :=
  match c with
  | project_detail args => Some (ProjectDetail.project_id args)
  | task_add args => Some (TaskAdd.project_id args)
  | material_add args => given_id (MaterialAdd.project_id args)
  | _ => None
  end.

(** [load_data] in a fresh process on this file returns [data]. *)
Definition loads_as (file : option string) (data : loaded) : Prop :=
  fst (load_data (start file)) = Ok data.

(** The projects of a document: the list under ["projects"], none when
    the key is absent. *)
Definition projects_of (data : value) : option (list value) :=
  match data with
  | VDict d =>
      match lookup "projects" d with
      | Some (VList ps) => Some ps
      | None => Some []
      | Some _ => None
      end
  | _ => None
  end.

(** The id of a project as [next_project_id] reads it, when it is an
    int: the value under ["id"], and 0 when the key is absent. *)
Definition int_id (p : value) : option Z :=
  match p with
  | VDict pd =>
      match lookup "id" pd with
      | Some (VInt z) => Some z
      | None => Some 0
      | Some _ => None
      end
  | _ => None
  end.

Fixpoint int_ids (ps : list value) : option (list Z) :=
  match ps with
  | [] => Some []
  | p :: ps' =>
      match int_id p, int_ids ps' with
      | Some z, Some zs => Some (z :: zs)
      | _, _ => None
      end
  end.

(** The ids of the stored projects, for a document all of whose projects
    are dicts with an int (or no) id. *)
Definition stored_ids (data : value) : option (list Z) :=
  match projects_of data with
  | Some ps => int_ids ps
  | None => None
  end.

(** One more than the largest id; 1 when there is no project. *)
Definition next_id (ids : list Z) : Z :=
  match ids with
  | [] => 1
  | i :: rest => fold_left Z.max rest i + 1
  end.

(** The specification's words: [max(existing ids, 0) + 1]. *)
Definition spec_next_id (ids : list Z) : Z := fold_right Z.max 0 ids + 1.

(** The dict [cmd_project_add] stores for a namespace and an id. *)
Definition new_project (id : value) (args : ProjectAdd.args) : value :=
  Project.to_dict
    {| Project.id := id;
       Project.name := ProjectAdd.name args;
       Project.customer := ProjectAdd.customer args;
       Project.address := ProjectAdd.address args;
       Project.due_date := ProjectAdd.due_date args;
       Project.status := ProjectAdd.status args;
       Project.notes := ProjectAdd.notes args;
       Project.tasks := [];
       Project.materials := [] |}.

(** The file holds (or, being absent, stands for) a document the file
    format can hold, whose projects carry the int ids [ids], in order. *)
Definition holds_ids (file : option string) (ids : list Z) : Prop :=
  exists data,
    loads_as file data /\ json_ok (doc data) = true
    /\ stored_ids (doc data) = Some ids.

(** The tool run once per command line, each run on the file the one
    before left: the result and the output of each run, and the file at
    the end. *)
Fixpoint session (cs : list command) (file : option string)
  : list (result unit * list line) * option string :=
  match cs with
  | [] => ([], file)
  | c :: cs' =>
      let (r, w) := invoke c file in
      let (rs, file') := session cs' (DATA_FILE w) in
      ((r, stdout w) :: rs, file')
  end.

(** The ids 1, 2, ..., k. *)
Definition first_ids (k : nat) : list Z := map Z.of_nat (seq 1 k).

(** The list that [setdefault(key, []).append] extends: the one stored
    under [key], or the empty one when the key is absent. *)
Definition list_at (key : string) (d : items) : option (list value) :=
  match lookup key d with
  | Some (VList l) => Some l
  | None => Some []
  | Some _ => None
  end.

(** [d'] is [d] with [item] appended to the list under [key], and nothing
    else: the other keys hold what they held, and the keys stand in the
    order they stood, [key] last if it had to be created. *)
Definition appended_under (key : string) (item : value) (d d' : items) : Prop :=
  exists l,
    list_at key d = Some l /\
    lookup key d' = Some (VList (l ++ [item])%list) /\
    (forall k, k <> key -> lookup k d' = lookup k d) /\
    keys d' = match lookup key d with
              | Some _ => keys d
              | None => (keys d ++ [key])%list
              end.



(** The world holds the text of [data] in its file. *)
Definition written (w : world) (data : value) : Prop :=
  DATA_FILE w = Some (Json.dumps data).

Definition new_task (args : TaskAdd.args) : value :=
  Task.to_dict {| Task.title := TaskAdd.title args;
                  Task.due_date := TaskAdd.due_date args;
                  Task.status := TaskAdd.status args |}.

Definition new_material (args : MaterialAdd.args) : value :=
  Material.to_dict {| Material.name := MaterialAdd.name args;
                      Material.quantity := MaterialAdd.quantity args;
                      Material.unit := MaterialAdd.unit args |}.

Definition material_added (where_ : context) (args : MaterialAdd.args) : line :=
  MaterialAdded where_ (MaterialAdd.quantity args) (MaterialAdd.unit args)
    (MaterialAdd.name args).

(** The projects with the status [x]: under ["status"] they hold the
    str [x], character for character. *)
Definition has_status (x : string) (p : value) : bool :=
  match p with
  | VDict pd =>
      match lookup "status" pd with
      | Some (VStr s) => String.eqb s x
      | _ => false
      end
  | _ => false
  end.

Definition is_dict (v : value) : bool :=
  match v with
  | VDict _ => true
  | _ => false
  end.

(** What [project list] prints for the projects it selected. *)
Definition listing (rows : list line) : list line :=
  match rows with
  | [] => [NoProjectsFound]
  | _ => ListHeader :: ListRule :: rows
  end.

(** The project carries the id [pid]: it is a dict whose ["id"] equals
    [pid] as Python's [==] has it. *)
Definition has_id (pid : Z) (p : value) : bool :=
  match p with
  | VDict pd =>
      match lookup "id" pd with
      | Some v => eq_int v pid
      | None => false
      end
  | _ => false
  end.

(** *** The documents of the data model

    A document as the specification describes it: projects with an int
    id, their strings, their tasks and their materials, and an inventory
    of materials.  An optional field holds a str or [None] or is absent;
    so may the two lists of a project and the two of the document be. *)

Definition is_str (o : option value) : bool :=
  match o with
  | Some (VStr _) => true
  | _ => false
  end.

Definition is_optional_str (o : option value) : bool :=
  match o with
  | Some (VStr _) | Some VNone | None => true
  | _ => false
  end.

Definition is_list_of (ok : value -> bool) (o : option value) : bool :=
  match o with
  | Some (VList l) => forallb ok l
  | None => true
  | _ => false
  end.

Definition valid_task (t : value) : bool :=
  match t with
  | VDict td =>
      is_str (lookup "title" td) && is_optional_str (lookup "due_date" td)
      && is_str (lookup "status" td)
  | _ => false
  end.

Definition valid_material (m : value) : bool :=
  match m with
  | VDict md =>
      is_str (lookup "name" md)
      && match lookup "quantity" md with Some (VFloat _) => true | _ => false end
      && is_str (lookup "unit" md)
  | _ => false
  end.

Definition valid_project (p : value) : bool :=
  match p with
  | VDict pd =>
      match lookup "id" pd with Some (VInt _) => true | _ => false end
      && is_str (lookup "name" pd) && is_str (lookup "customer" pd)
      && is_optional_str (lookup "address" pd)
      && is_optional_str (lookup "due_date" pd)
      && is_str (lookup "status" pd)
      && is_optional_str (lookup "notes" pd)
      && is_list_of valid_task (lookup "tasks" pd)
      && is_list_of valid_material (lookup "materials" pd)
  | _ => false
  end.

(** A valid document has this shape and can be held by the file. *)
Definition valid_document (data : value) : bool :=
  json_ok data
  && match data with
     | VDict d =>
         is_list_of valid_project (lookup "projects" d)
         && is_list_of valid_material (lookup "inventory" d)
     | _ => false
     end.

(** *** What a run leaves behind *)

(** A computation that leaves the file and [DEFAULT_DATA] as they are in
    whatever state it runs. *)
Definition reads_only {A} (m : M A) : Prop :=
  forall w,
    DEFAULT_DATA (snd (m w)) = DEFAULT_DATA w
    /\ DATA_FILE (snd (m w)) = DATA_FILE w.

(** A computation that leaves the file as it is. *)
Definition keeps_file {A} (m : M A) : Prop :=
  forall w, DATA_FILE (snd (m w)) = DATA_FILE w.

(** A computation that leaves [DEFAULT_DATA] as it is. *)
Definition keeps_default {A} (m : M A) : Prop :=
  forall w, DEFAULT_DATA (snd (m w)) = DEFAULT_DATA w.

(** The commands that show the document. *)
Definition shows (c : command) : bool :=
  match c with
  | project_list _ | project_detail _ | inventory_list => true
  | _ => false
  end.

(** A computation that returns normally or else leaves the file as it
    is. *)
Definition settles (m : M unit) : Prop :=
  forall w, fst (m w) = Ok tt \/ DATA_FILE (snd (m w)) = DATA_FILE w.

(** *** What the showing commands print *)

(** The state [w] after the lines [ls] have been printed. *)
Definition printed (w : world) (ls : list line) : world :=
  {| DEFAULT_DATA := DEFAULT_DATA w;
     DATA_FILE := DATA_FILE w;
     stdout := (stdout w ++ ls)%list |}.

(** A computation that prints the lines [ls], returns, and does nothing
    else, in whatever state it runs. *)
Definition prints (m : M unit) (ls : list line) : Prop :=
  forall w, m w = (Ok tt, printed w ls).

(** [d.get(k)] *)
Definition field (k : string) (d : items) : value :=
  match lookup k d with
  | Some v => v
  | None => VNone
  end.

(** [d.get(k, '-')] *)
Definition field_or_dash (k : string) (d : items) : value :=
  match lookup k d with
  | Some v => v
  | None => VStr "-"
  end.

(** The line for a material that is the dict [m]. *)
Definition material_line (l : value -> value -> value -> line) (m : items) : line :=
  l (field "name" m) (field "quantity" m) (field "unit" m).

(** What [inventory list] prints for an inventory of dicts. *)
Definition inventory_listing (inv : list items) : list line :=
  match inv with
  | [] => [NoInventory]
  | _ => InventoryHeader :: map (material_line InventoryRow) inv
  end.

(** A line that is printed only for a value that counts as true. *)
Definition shown (l : value -> line) (v : value) : list line :=
  if truthy v then [l v] else [].

(** The line for the task that is the dict [snd it], numbered [fst it]. *)
Definition task_line (it : Z * items) : line :=
  TaskRow (fst it) (field_or_dash "status" (snd it)) (field "title" (snd it))
    (or_else (field "due_date" (snd it)) (VStr "-")).

Definition task_lines (ts : list items) : list line :=
  match ts with
  | [] => [NoTasks]
  | _ => TasksHeader :: map task_line (enumerate ts 1)
  end.

Definition material_lines (ms : list items) : list line :=
  match ms with
  | [] => [NoMaterials]
  | _ => MaterialsHeader :: map (material_line MaterialRow) ms
  end.

(** What [project detail] prints for the project that is the dict [p],
    with the tasks [ts] and the materials [ms]. *)
Definition detail (id name customer : value) (p : items) (ts ms : list items)
  : list line :=
  ([DetailTitle id name; DetailCustomer customer]
   ++ shown DetailAddress (field "address" p)
   ++ shown DetailDue (field "due_date" p)
   ++ [DetailStatus (field_or_dash "status" p)]
   ++ shown DetailNotes (field "notes" p)
   ++ task_lines ts
   ++ material_lines ms)%list.

(** *** Valid files *)

(** The quantity a command brings can be held by the file (see
    [float_text_ok]). *)
Definition quantity_ok (c : command) : bool :=
  match c with
  | material_add args => float_text_ok (MaterialAdd.quantity args)
  | _ => true
  end.

(** *** Ids that are not numbers *)

(** [p.get("id", 0)], the id as [next_project_id] reads it. *)
Definition id_or_zero (p : items) : value :=
  match lookup "id" p with
  | Some v => v
  | None => VInt 0
  end.

(** The ints, the floats and the bools. *)
Definition is_number (v : value) : bool :=
  match as_num v with
  | Some _ => true
  | None => false
  end.

Definition is_list (v : value) : bool :=
  match v with
  | VList _ => true
  | _ => false
  end.

(** *** Ids in a session *)

(** The stored ids after a command that found [ids]. *)
Definition ids_after (c : command) (ids : list Z) : list Z :=
  match c with
  | project_add _ => (ids ++ [next_id ids])%list
  | _ => ids
  end.

(** The file holds (or, being absent, stands for) a valid document whose
    projects carry the ids [ids], in order. *)
Definition holds_valid_ids (file : option string) (ids : list Z) : Prop :=
  exists data,
    loads_as file data /\ valid_document (doc data) = true
    /\ stored_ids (doc data) = Some ids.

(** The runs [rs] of the commands [cs] all returned, and the runs of
    [project add] among them announced the ids [n], [n + 1], ... in this
    order. *)
Fixpoint counts_up (cs : list command) (rs : list (result unit * list line))
  (n : Z) : Prop :=
  match cs, rs with
  | [], [] => True
  | c :: cs', r :: rs' =>
      fst r = Ok tt
      /\ match c with
         | project_add args =>
             snd r = [ProjectCreated (VInt n) (ProjectAdd.name args)
                        (ProjectAdd.customer args)]
             /\ counts_up cs' rs' (n + 1)
         | _ => counts_up cs' rs' n
         end
  | _, _ => False
  end.

(** The [project add] commands among [cs]. *)
Definition adds (c : command) : bool :=
  match c with
  | project_add _ => true
  | _ => false
  end.

(** *** Commands the program can carry out

    The strs a command brings are written to the file and to the
    output, its quantity to the file. *)

Definition storable_text (o : option string) : bool :=
  match o with
  | Some s => valid_utf8 s
  | None => true
  end.

Definition storable_command (c : command) : bool :=
  match c with
  | project_add a =>
      valid_utf8 (ProjectAdd.name a) && valid_utf8 (ProjectAdd.customer a)
      && storable_text (ProjectAdd.address a)
      && storable_text (ProjectAdd.due_date a)
      && valid_utf8 (ProjectAdd.status a) && storable_text (ProjectAdd.notes a)
  | task_add a =>
      valid_utf8 (TaskAdd.title a) && storable_text (TaskAdd.due_date a)
      && valid_utf8 (TaskAdd.status a)
  | material_add a =>
      valid_utf8 (MaterialAdd.name a)
      && valid_binary prec emax (MaterialAdd.quantity a)
      && valid_utf8 (MaterialAdd.unit a)
  | _ => true
  end.

(** The file holds (or, being absent, stands for) a valid document the
    program can write, with room for [slack] more ids, whose projects
    carry the ids [ids], in order. *)
Definition holds_storable_ids (slack : nat) (file : option string)
  (ids : list Z) : Prop :=
  exists data,
    loads_as file data /\ valid_document (doc data) = true
    /\ storable_with slack (doc data) = true
    /\ stored_ids (doc data) = Some ids.

Definition holds_storable (slack : nat) (file : option string) : Prop :=
  exists ids, holds_storable_ids slack file ids.

(** ** Sample data *)

Module Sample.

Definition two_and_a_half : spec_float := Json.float_of_decimal false 25 (-1).

Definition dach : ProjectAdd.args :=
  {| ProjectAdd.name := "Dach";
     ProjectAdd.customer := "Mueller";
     ProjectAdd.address := None;
     ProjectAdd.due_date := Some "2024-05-01";
     ProjectAdd.status := "offen";
     ProjectAdd.notes := None |}.

Definition bad : ProjectAdd.args :=
  {| ProjectAdd.name := "Bad";
     ProjectAdd.customer := "Schmidt";
     ProjectAdd.address := Some "Hauptstr. 1";
     ProjectAdd.due_date := None;
     ProjectAdd.status := "erledigt";
     ProjectAdd.notes := Some "Fliesen" |}.

Definition fliesen : TaskAdd.args :=
  {| TaskAdd.project_id := 2;
     TaskAdd.title := "Fliesen legen";
     TaskAdd.due_date := None;
     TaskAdd.status := "offen" |}.

Definition holz (project_id : option Z) : MaterialAdd.args :=
  {| MaterialAdd.name := "Holz";
     MaterialAdd.quantity := two_and_a_half;
     MaterialAdd.unit := "Stk";
     MaterialAdd.project_id := project_id |}.

(** Two projects, the second with a task and a material, and one
    material in the inventory. *)
Definition document : value :=
  VDict
    [("projects",
      VList
        [new_project (VInt 1) dach;
         VDict [("id", VInt 2);
                ("name", VStr "Bad");
                ("customer", VStr "Schmidt");
                ("address", VStr "Hauptstr. 1");
                ("due_date", VNone);
                ("status", VStr "erledigt");
                ("notes", VStr "Fliesen");
                ("tasks", VList [new_task fliesen]);
                ("materials", VList [new_material (holz (Some 2))])]]);
     ("inventory", VList [new_material (holz None)])].

Definition file : option string := Some (Json.dumps document).


(** A document whose only project has a negative id. *)
Definition negative_document : value :=
  VDict [("projects", VList [new_project (VInt (-5)) dach]);
         ("inventory", VList [])].

End Sample.

(** ** Facts about the JSON text *)

Module JsonFacts.
Import Json JsonShape.
Local Open Scope string_scope.
Local Open Scope Z_scope.

Lemma append_assoc (a b c : string) : (a ++ b) ++ c = a ++ (b ++ c).
Proof. induction a as [|x a IH]; simpl; [reflexivity | now rewrite IH]. Qed.

Lemma append_nil_r (a : string) : a ++ EmptyString = a.
Proof. induction a as [|x a IH]; simpl; [reflexivity | now rewrite IH]. Qed.

Lemma is_delim_cases c : is_delim c = true -> c = ","%char \/ c = LF.
Proof.
  unfold is_delim. intros H. apply orb_true_iff in H.
  destruct H as [H|H]; apply Ascii.eqb_eq in H; auto.
Qed.

Ltac delim_cases H :=
  apply is_delim_cases in H; destruct H as [H|H]; subst.

Lemma delimited_no_digit rest : delimited rest -> no_digit_head rest.
Proof.
  destruct rest as [|c rest]; simpl; [trivial|].
  intros H. delim_cases H; reflexivity.
Qed.

Lemma scan_digits_head rest :
  no_digit_head rest -> scan_digits rest = (Decimal.Nil, rest).
Proof.
  destruct rest as [|c rest]; simpl; [reflexivity|].
  unfold is_digit. destruct (digit_of_char c); [discriminate | reflexivity].
Qed.

(** Digits read back up to the first character that is not a digit. *)
Lemma scan_digits_ext t d r rest :
  scan_digits t = (d, r) -> no_digit_head rest ->
  scan_digits (t ++ rest) = (d, r ++ rest).
Proof.
  revert d r. induction t as [|c t IH]; intros d r H Hrest.
  - simpl in H. injection H as <- <-. simpl. now apply scan_digits_head.
  - simpl in H |- *. destruct (digit_of_char c) as [k|].
    + destruct (scan_digits t) as [ds r'] eqn:E.
      injection H as <- <-. now rewrite (IH _ _ eq_refl Hrest).
    + injection H as <- <-. reflexivity.
Qed.

Lemma scan_digits_dump d :
  scan_digits (NilEmpty.string_of_uint d) = (d, EmptyString).
Proof.
  induction d; simpl; rewrite ?IHd; reflexivity.
Qed.

Lemma is_digit_dump d c s :
  NilEmpty.string_of_uint d = String c s -> is_digit c = true.
Proof. destruct d; simpl; intros [= <- _]; reflexivity. Qed.

(** [N.to_uint] writes no leading zero. *)
Lemma to_uint_head n :
  N.to_uint n = Decimal.D0 Decimal.Nil \/
  exists c s, dump_nat n = String c s /\ c <> "0"%char.
Proof.
  pose proof (DecimalN.Unsigned.to_of (N.to_uint n)) as H.
  rewrite DecimalN.Unsigned.of_to in H.
  unfold dump_nat. destruct (N.to_uint n) as [|d|d|d|d|d|d|d|d|d|d] eqn:E;
    try (right; simpl; eexists _, _; split; [reflexivity | discriminate]).
  - exfalso. symmetry in H. now apply DecimalFacts.unorm_nonnil in H.
  - left. unfold Decimal.unorm in H. simpl in H.
    destruct (Decimal.nzhead d) eqn:Ed; try discriminate H.
    + now injection H as <-.
    + exfalso. now apply DecimalFacts.nzhead_nonzero in Ed.
Qed.

Lemma scan_int_part_dump n :
  scan_int_part (dump_nat n) = Some (N.to_uint n, EmptyString).
Proof.
  destruct (to_uint_head n) as [H | (c & s & H & Hc)].
  - unfold dump_nat. rewrite H. reflexivity.
  - pose proof (is_digit_dump _ _ _ H) as Hd.
    unfold scan_int_part. rewrite H.
    assert (E : scan_digits (String c s) = (N.to_uint n, EmptyString)).
    { rewrite <- H. apply scan_digits_dump. }
    destruct c as [[] [] [] [] [] [] [] []]; try discriminate Hd;
      try (now rewrite ?Hd, E); now elim Hc.
Qed.

Lemma scan_int_part_ext t d r rest :
  scan_int_part t = Some (d, r) -> no_digit_head rest ->
  scan_int_part (t ++ rest) = Some (d, r ++ rest).
Proof.
  intros H Hrest. destruct t as [|c t]; [discriminate|].
  unfold scan_int_part in H |- *. cbn [append].
  destruct (Ascii.eqb_spec c "0") as [->|Hc].
  - injection H as <- <-. reflexivity.
  - destruct c as [[] [] [] [] [] [] [] []]; try (now elim Hc);
      cbn in H |- *; try discriminate H;
      destruct (scan_digits t) as [ds r'] eqn:E;
      injection H as <- <-;
      now rewrite (scan_digits_ext _ _ _ _ E Hrest).
Qed.
Lemma scan_frac_ext t f r rest :
  scan_frac t = (f, r) -> delimited rest ->
  scan_frac (t ++ rest) = (f, r ++ rest).
Proof.
  intros H Hrest. pose proof (delimited_no_digit _ Hrest) as Hnd.
  unfold scan_frac in H |- *.
  destruct t as [|c t].
  - injection H as <- <-. simpl.
    destruct rest as [|c rest]; [reflexivity|].
    simpl in Hrest. delim_cases Hrest; reflexivity.
  - cbn [append]. destruct (Ascii.eqb_spec c ".") as [->|Hc].
    + destruct t as [|c' t].
      * injection H as <- <-. simpl.
        destruct rest as [|c rest]; [reflexivity|].
        simpl in Hnd. now rewrite Hnd.
      * cbn [append]. destruct (is_digit c') eqn:Ec.
        -- destruct (scan_digits (String c' t)) as [ds r'] eqn:E.
           injection H as <- <-.
           change (String c' (t ++ rest)) with (String c' t ++ rest).
           now rewrite (scan_digits_ext _ _ _ _ E Hnd).
        -- injection H as <- <-. reflexivity.
    + destruct c as [[] [] [] [] [] [] [] []]; try (now elim Hc);
        injection H as <- <-; reflexivity.
Qed.

Lemma scan_exp_digits_ext neg t whole e r rest :
  scan_exp_digits neg t whole = (e, r) -> delimited rest ->
  scan_exp_digits neg (t ++ rest) (whole ++ rest) = (e, r ++ rest).
Proof.
  intros H Hrest. pose proof (delimited_no_digit _ Hrest) as Hnd.
  unfold scan_exp_digits in H |- *.
  destruct t as [|c t].
  - injection H as <- <-. simpl.
    destruct rest as [|c rest]; [reflexivity|].
    simpl in Hnd. now rewrite Hnd.
  - cbn [append]. destruct (is_digit c) eqn:Ec.
    + destruct (scan_digits (String c t)) as [ds r'] eqn:E.
      injection H as <- <-.
      change (String c (t ++ rest)) with (String c t ++ rest).
      now rewrite (scan_digits_ext _ _ _ _ E Hnd).
    + injection H as <- <-. reflexivity.
Qed.

Lemma scan_exp_ext t e r rest :
  scan_exp t = (e, r) -> delimited rest ->
  scan_exp (t ++ rest) = (e, r ++ rest).
Proof.
  intros H Hrest. unfold scan_exp in H |- *.
  destruct t as [|c t].
  - injection H as <- <-. simpl.
    destruct rest as [|c rest]; [reflexivity|].
    simpl in Hrest. delim_cases Hrest; reflexivity.
  - cbn [append]. destruct (Ascii.eqb c "e" || Ascii.eqb c "E")%bool.
    + destruct t as [|c' t].
      * simpl in H. injection H as <- <-. cbn [append].
        destruct rest as [|c2 rest2]; [reflexivity|].
        simpl in Hrest. delim_cases Hrest; reflexivity.
      * cbn [append].
        change (String c (String c' (t ++ rest)))
          with (String c (String c' t) ++ rest).
        destruct (Ascii.eqb_spec c' "-") as [->|Hm].
        -- now apply scan_exp_digits_ext.
        -- destruct (Ascii.eqb_spec c' "+") as [->|Hp].
           ++ now apply scan_exp_digits_ext.
           ++ assert (G : scan_exp_digits false (String c' t ++ rest)
                            (String c (String c' t) ++ rest) = (e, r ++ rest)).
              { apply scan_exp_digits_ext; [|exact Hrest].
                destruct c' as [[] [] [] [] [] [] [] []];
                  try (now elim Hm); try (now elim Hp); exact H. }
              destruct c' as [[] [] [] [] [] [] [] []];
                try (now elim Hm); try (now elim Hp); exact G.
    + injection H as <- <-. reflexivity.
Qed.

Ltac ascii_cases c := destruct c as [[] [] [] [] [] [] [] []].

Lemma scan_number_digit c s :
  is_digit c = true -> scan_number (String c s) = scan_unsigned false (String c s).
Proof. intros H. ascii_cases c; try discriminate H; reflexivity. Qed.

Lemma number_head t tok r :
  scan_number t = Some (tok, r) ->
  exists c t', t = String c t' /\ (c = "-"%char \/ is_digit c = true).
Proof.
  destruct t as [|c t]; [discriminate|].
  intros H. exists c, t. split; [reflexivity|].
  destruct (Ascii.eqb_spec c "-") as [->|Hm]; [now left|right].
  destruct (is_digit c) eqn:E; [reflexivity|].
  exfalso. ascii_cases c; try (now elim Hm); discriminate.
Qed.

Lemma scan_unsigned_ext neg t tok r rest :
  scan_unsigned neg t = Some (tok, r) -> delimited rest ->
  scan_unsigned neg (t ++ rest) = Some (tok, r ++ rest).
Proof.
  intros G Hrest. pose proof (delimited_no_digit _ Hrest) as Hnd.
  unfold scan_unsigned in G |- *.
  destruct (scan_int_part t) as [[int s2]|] eqn:E1; [|discriminate].
  rewrite (scan_int_part_ext _ _ _ _ E1 Hnd).
  destruct (scan_frac s2) as [frac s3] eqn:E2.
  rewrite (scan_frac_ext _ _ _ _ E2 Hrest).
  destruct (scan_exp s3) as [exp s4] eqn:E3.
  rewrite (scan_exp_ext _ _ _ _ E3 Hrest).
  now injection G as <- <-.
Qed.

Lemma scan_number_ext t tok r rest :
  scan_number t = Some (tok, r) -> delimited rest ->
  scan_number (t ++ rest) = Some (tok, r ++ rest).
Proof.
  intros H Hrest.
  destruct (number_head _ _ _ H) as (c & t' & -> & [->|Hd]); cbn [append].
  - now apply (scan_unsigned_ext true).
  - rewrite scan_number_digit in H |- * by exact Hd.
    now apply (scan_unsigned_ext false (String c t')).
Qed.

Lemma dump_nat_cons n : exists c s, dump_nat n = String c s /\ is_digit c = true.
Proof.
  unfold dump_nat.
  destruct (NilEmpty.string_of_uint (N.to_uint n)) as [|c s] eqn:E.
  - exfalso. destruct (N.to_uint n) eqn:En; try discriminate E.
    pose proof (DecimalN.Unsigned.to_of (N.to_uint n)) as H.
    rewrite DecimalN.Unsigned.of_to, En in H. discriminate H.
  - exists c, s. split; [reflexivity|]. now apply (is_digit_dump _ _ _ E).
Qed.

Lemma scan_unsigned_nat neg n :
  scan_unsigned neg (dump_nat n) =
  Some ({| tok_neg := neg; tok_int := N.to_uint n; tok_frac := None;
           tok_exp := None |}, EmptyString).
Proof. unfold scan_unsigned. now rewrite scan_int_part_dump. Qed.

Lemma scan_number_nat (neg : bool) n :
  scan_number ((if neg then "-" else EmptyString) ++ dump_nat n) =
  Some ({| tok_neg := neg; tok_int := N.to_uint n; tok_frac := None;
           tok_exp := None |}, EmptyString).
Proof.
  destruct neg; cbn [append].
  - apply scan_unsigned_nat.
  - destruct (dump_nat_cons n) as (c & s & E & Hd).
    rewrite E, scan_number_digit, <- E by exact Hd. apply scan_unsigned_nat.
Qed.

Lemma dump_int_shape z :
  dump_int z = (if z <? 0 then "-" else EmptyString) ++ dump_nat (Z.to_N (Z.abs z)).
Proof. destruct z; reflexivity. Qed.

(** An int reads back from its digits. *)
Lemma scan_number_int z :
  exists tok, scan_number (dump_int z) = Some (tok, EmptyString) /\
              value_of_token tok = VInt z.
Proof.
  rewrite dump_int_shape. eexists. split; [apply scan_number_nat|].
  unfold value_of_token. cbn [tok_frac tok_exp tok_neg tok_int].
  rewrite DecimalN.Unsigned.of_to. f_equal.
  destruct z; reflexivity.
Qed.

Lemma scan_atom_number t tok rest :
  scan_number t = Some (tok, EmptyString) -> delimited rest ->
  scan_atom (t ++ rest) = Ok (value_of_token tok, rest).
Proof.
  intros H Hrest.
  pose proof (scan_number_ext _ _ _ _ H Hrest) as E. cbn [append] in E.
  destruct (number_head _ _ _ H) as (c & t' & -> & Hc).
  unfold scan_atom.
  assert (N1 : strip_prefix "null" (String c t' ++ rest) = None
               /\ strip_prefix "true" (String c t' ++ rest) = None
               /\ strip_prefix "false" (String c t' ++ rest) = None).
  { destruct Hc as [->|Hd]; [now cbn|].
    ascii_cases c; try discriminate Hd; now cbn. }
  destruct N1 as (-> & -> & ->). now rewrite E.
Qed.

(** A number is neither a string nor a container. *)
Lemma scan_once_number fuel t tok rest :
  scan_number t = Some (tok, EmptyString) -> delimited rest ->
  scan_once (S fuel) (t ++ rest) = Ok (value_of_token tok, rest).
Proof.
  intros H Hrest.
  pose proof (scan_atom_number _ _ _ H Hrest) as E.
  destruct (number_head _ _ _ H) as (c & t' & -> & Hc).
  cbn [append] in *. cbn [scan_once].
  destruct Hc as [->|Hd]; [exact E|].
  ascii_cases c; try discriminate Hd; exact E.
Qed.

Lemma float_same_eq f g : float_same f g = true -> f = g.
Proof.
  destruct f, g; simpl; try discriminate; try reflexivity; intros H.
  - apply Bool.eqb_prop in H. now subst.
  - apply Bool.eqb_prop in H. now subst.
  - apply andb_true_iff in H. destruct H as [H He].
    apply andb_true_iff in H. destruct H as [Hs Hm].
    apply Bool.eqb_prop in Hs. apply Pos.eqb_eq in Hm. apply Z.eqb_eq in He.
    now subst.
Qed.

(** A float whose digits [float] gives back reads back from the text. *)
Lemma scan_once_float fuel f rest :
  float_text_ok f = true -> delimited rest ->
  scan_once (S fuel) (dump_float f ++ rest) = Ok (VFloat f, rest).
Proof.
  intros H Hrest.
  assert (finite : forall g, g = f ->
    match scan_number (float_repr g) with
    | Some (t, EmptyString) =>
        (is_float_token t && float_same (float_of_token t) g)%bool
    | _ => false
    end = true ->
    scan_once (S fuel) (float_repr g ++ rest) = Ok (VFloat g, rest)).
  { intros g _ G.
    destruct (scan_number (float_repr g)) as [[t r]|] eqn:E; [|discriminate].
    destruct r; [|discriminate].
    apply andb_true_iff in G. destruct G as [Gt Gs].
    apply float_same_eq in Gs.
    rewrite (scan_once_number _ _ _ _ E Hrest). f_equal. f_equal.
    unfold value_of_token. unfold is_float_token in Gt.
    destruct (tok_frac t), (tok_exp t); try discriminate Gt; now rewrite Gs. }
  destruct f as [s|s| |s m e].
  - now apply finite.
  - destruct s; reflexivity.
  - reflexivity.
  - now apply finite.
Qed.

(** A string reads back from behind its opening quote. *)
Lemma scan_string_escape s rest :
  scan_string (escape s ++ String quote rest) = Ok (s, rest).
Proof.
  induction s as [|c s IH]; [reflexivity|].
  cbn [escape]. rewrite append_assoc.
  ascii_cases c; cbn; rewrite IH; reflexivity.
Qed.

Lemma scan_once_string fuel s rest :
  scan_once (S fuel) (dump_str s ++ rest) = Ok (VStr s, rest).
Proof.
  unfold dump_str. cbn [append scan_once].
  change (Ascii.eqb quote quote) with true. cbv iota.
  unfold str1. rewrite append_assoc. cbn [append].
  now rewrite scan_string_escape.
Qed.

Lemma skip_ws_spaces n s : skip_ws (spaces n ++ s) = skip_ws s.
Proof. induction n as [|n IH]; [reflexivity | exact IH]. Qed.

Lemma skip_ws_newline_indent level s :
  skip_ws (newline_indent level ++ s) = skip_ws s.
Proof. unfold newline_indent. cbn. apply skip_ws_spaces. Qed.

Lemma head_ok_number t tok r s :
  scan_number t = Some (tok, r) -> head_ok (t ++ s).
Proof.
  intros H. destruct (number_head _ _ _ H) as (c & t' & -> & [->|Hd]).
  - cbn. repeat split; discriminate.
  - cbn. ascii_cases c; try discriminate Hd; repeat split; discriminate.
Qed.

Lemma head_ok_dumps level v s :
  json_ok v = true -> head_ok (dumps_at level v ++ s).
Proof.
  intros H. destruct v as [|b|z|f|t|l|d]; cbn [dumps_at].
  - cbn. repeat split; discriminate.
  - destruct b; cbn; repeat split; discriminate.
  - destruct (scan_number_int z) as (tok & E & _).
    apply (head_ok_number _ _ _ _ E).
  - cbn [json_ok] in H. unfold float_text_ok in H.
    assert (finite : forall g,
      match scan_number (float_repr g) with
      | Some (t, EmptyString) =>
          (is_float_token t && float_same (float_of_token t) g)%bool
      | _ => false
      end = true -> head_ok (float_repr g ++ s)).
    { intros g G.
      destruct (scan_number (float_repr g)) as [[t r]|] eqn:E; [|discriminate].
      apply (head_ok_number _ _ _ _ E). }
    destruct f as [sg|sg| |sg m e]; cbn [dump_float].
    + now apply finite.
    + destruct sg; cbn; repeat split; discriminate.
    + cbn; repeat split; discriminate.
    + now apply finite.
  - cbn. repeat split; discriminate.
  - unfold bracket. destruct (map _ l); cbn; repeat split; discriminate.
  - unfold bracket. destruct (map _ d); cbn; repeat split; discriminate.
Qed.

Lemma skip_ws_head s : head_ok s -> skip_ws s = s.
Proof.
  destruct s as [|c s]; [intros []|]. intros (H & _). cbn. now rewrite H.
Qed.

Lemma value_nested_ind (P : value -> Prop) :
  P VNone -> (forall b, P (VBool b)) -> (forall z, P (VInt z)) ->
  (forall f, P (VFloat f)) -> (forall s, P (VStr s)) ->
  (forall l, Forall P l -> P (VList l)) ->
  (forall d, Forall (fun kv => P (snd kv)) d -> P (VDict d)) ->
  forall v, P v.
Proof.
  intros HN HB HI HF HS HL HD. fix IH 1.
  intros [|b|z|f|s|l|d].
  - exact HN.
  - apply HB.
  - apply HI.
  - apply HF.
  - apply HS.
  - apply HL. induction l as [|x l IHl]; constructor; [apply IH | exact IHl].
  - apply HD. induction d as [|[k x] d IHd]; constructor;
      [apply IH | exact IHd].
Qed.

Lemma delimited_continued level parts s :
  delimited (continued (S level) parts ++ newline_indent level ++ s).
Proof. destruct parts; reflexivity. Qed.

Lemma scan_elements_dumps level rest xs :
  forall x acc fuel,
    Forall reads_back (x :: xs) -> forallb json_ok (x :: xs) = true ->
    (list_sum (map (fun x => S (size x)) (x :: xs)) <= fuel)%nat ->
    scan_elements fuel
      (dumps_at (S level) x
       ++ continued (S level) (map (dumps_at (S level)) xs)
       ++ newline_indent level ++ String "]" rest) acc
    = Ok (VList (acc ++ x :: xs)%list, rest).
Proof.
  induction xs as [|y ys IH]; intros x acc fuel HP Hok Hfuel;
    inversion HP as [|? ? Hx HP']; subst;
    cbn [forallb] in Hok; apply andb_true_iff in Hok; destruct Hok as [Hokx Hok];
    cbn [map list_sum fold_right] in Hfuel;
    (destruct fuel as [|fuel]; [lia|]); cbn [scan_elements].
  - rewrite (Hx Hokx) by (try apply delimited_continued; lia).
    cbn [rbind map continued append].
    rewrite skip_ws_newline_indent. reflexivity.
  - rewrite (Hx Hokx) by (try apply delimited_continued; lia).
    cbn [rbind map continued append]. rewrite !append_assoc.
    change (skip_ws (String "," ?s)) with (String "," s). cbv iota.
    change (Ascii.eqb "," "]") with false. change (Ascii.eqb "," ",") with true.
    cbv iota. rewrite skip_ws_newline_indent.
    cbn [forallb] in Hok.
    pose proof Hok as Hoky. apply andb_true_iff in Hoky. destruct Hoky as [Hoky _].
    rewrite skip_ws_head by now apply head_ok_dumps.
    rewrite (IH y (acc ++ [x])%list fuel HP' Hok)
      by (cbn [map list_sum fold_right]; lia).
    now rewrite <- app_assoc.
Qed.

Lemma distinct_NoDup ks : distinct ks = true -> NoDup ks.
Proof.
  induction ks as [|k ks IH]; intros H; constructor;
    cbn [distinct] in H; apply andb_true_iff in H; destruct H as [Hk H].
  - intros Hin. apply negb_true_iff in Hk.
    assert (E : existsb (String.eqb k) ks = true).
    { apply existsb_exists. exists k. split; [exact Hin | apply String.eqb_refl]. }
    congruence.
  - now apply IH.
Qed.

Lemma store_fresh k v acc :
  ~ In k (keys acc) -> store k v acc = (acc ++ [(k, v)])%list.
Proof.
  induction acc as [|[k' v'] acc IH]; intros H; [reflexivity|].
  cbn [store app]. destruct (String.eqb_spec k k') as [->|Hk].
  - exfalso. apply H. now left.
  - rewrite IH; [reflexivity|]. intros Hin. apply H. now right.
Qed.

Lemma head_ok_dump_str k s : head_ok (dump_str k ++ s).
Proof. cbn. repeat split; discriminate. Qed.

Lemma starts_with_head c s :
  head_ok s -> c = "]"%char \/ c = "}"%char -> starts_with c s = None.
Proof.
  destruct s as [|c' s]; [intros []|]. intros (_ & H1 & H2 & _) Hc. cbn.
  destruct (Ascii.eqb_spec c c') as [<-|]; [|reflexivity].
  destruct Hc; subst; contradiction.
Qed.

Lemma scan_members_step fuel k s acc :
  scan_members (S fuel) (dump_str k ++ String ":" (String " " s)) acc =
  let* (v, rest2) := scan_once fuel (skip_ws s) in
  match skip_ws rest2 with
  | String c rest3 =>
      if Ascii.eqb c "}" then Ok (VDict (store k v acc), rest3)
      else if Ascii.eqb c "," then
        scan_members fuel (skip_ws rest3) (store k v acc)
      else Raise JSONDecodeError
  | EmptyString => Raise JSONDecodeError
  end.
Proof.
  unfold dump_str. cbn [scan_members append].
  change (Ascii.eqb quote quote) with true. cbv iota.
  unfold str1. rewrite !append_assoc. cbn [append].
  rewrite scan_string_escape. reflexivity.
Qed.

Lemma scan_members_dumps level rest ms :
  forall k x acc fuel,
    Forall (fun kv => reads_back (snd kv)) ((k, x) :: ms) ->
    forallb (fun kv => json_ok (snd kv)) ((k, x) :: ms) = true ->
    NoDup (keys (acc ++ (k, x) :: ms)%list) ->
    (list_sum (map (fun kv => S (size (snd kv))) ((k, x) :: ms)) <= fuel)%nat ->
    scan_members fuel
      ((dump_str k ++ ": " ++ dumps_at (S level) x)
       ++ continued (S level)
            (map (fun kv => dump_str (fst kv) ++ ": " ++ dumps_at (S level) (snd kv)) ms)
       ++ newline_indent level ++ String "}" rest) acc
    = Ok (VDict (acc ++ (k, x) :: ms)%list, rest).
Proof.
  induction ms as [|[k' y] ms IH]; intros k x acc fuel HP Hok Hnd Hfuel;
    inversion HP as [|? ? Hx HP']; subst; cbn [snd] in Hx;
    cbn [forallb snd] in Hok; apply andb_true_iff in Hok;
    destruct Hok as [Hokx Hok];
    cbn [map list_sum fold_right snd] in Hfuel;
    (destruct fuel as [|fuel]; [lia|]);
    assert (Hfresh : ~ In k (keys acc))
      by (unfold keys in Hnd |- *; rewrite map_app in Hnd; cbn [map fst] in Hnd;
          apply NoDup_remove_2 in Hnd; intros Hin; apply Hnd;
          apply in_or_app; now left);
    rewrite !append_assoc; cbn [append];
    rewrite scan_members_step;
    rewrite skip_ws_head by now apply head_ok_dumps.
  - rewrite (Hx Hokx)
      by (try apply (delimited_continued level [] (String "}" rest)); lia).
    cbn [rbind map continued append]. rewrite skip_ws_newline_indent.
    cbn. now rewrite store_fresh.
  - rewrite (Hx Hokx)
      by (try apply (delimited_continued level (_ :: _) (String "}" rest)); lia).
    cbn [rbind map continued append fst snd].
    change (skip_ws (String "," ?s)) with (String "," s). cbv iota.
    change (Ascii.eqb "," "}") with false. change (Ascii.eqb "," ",") with true.
    cbv iota. rewrite !append_assoc. rewrite skip_ws_newline_indent.
    rewrite skip_ws_head by apply head_ok_dump_str.
    rewrite store_fresh by exact Hfresh.
    cbn [forallb snd] in Hok.
    pose proof (IH k' y (acc ++ [(k, x)])%list fuel HP') as G.
    cbn [forallb snd] in G. rewrite !append_assoc in G. cbn [append] in G.
    cbn [append]. rewrite G.
    + now rewrite <- app_assoc.
    + exact Hok.
    + now rewrite <- app_assoc.
    + cbn [map list_sum fold_right snd]. lia.
Qed.

(** Every value the file can hold reads back from its text. *)
Lemma scan_once_dumps v : reads_back v.
Proof.
  induction v as [|b|z|f|s|l IHl|d IHd] using value_nested_ind;
    intros Hok level rest fuel Hrest Hfuel;
    (destruct fuel as [|fuel]; [cbn [size] in Hfuel; lia|]).
  - reflexivity.
  - destruct b; reflexivity.
  - destruct (scan_number_int z) as (tok & E & Ev). cbn [dumps_at].
    rewrite (scan_once_number _ _ _ _ E Hrest). now rewrite Ev.
  - now apply scan_once_float.
  - apply scan_once_string.
  - destruct l as [|x xs]; [reflexivity|].
    cbn [dumps_at bracket map]. cbn [append scan_once].
    change (Ascii.eqb "[" quote) with false.
    change (Ascii.eqb "[" "{") with false.
    change (Ascii.eqb "[" "[") with true. cbv iota.
    unfold str1. rewrite !append_assoc. cbn [append].
    rewrite skip_ws_newline_indent.
    cbn [json_ok] in Hok. pose proof Hok as Hx. cbn [forallb] in Hx.
    apply andb_true_iff in Hx. destruct Hx as [Hx _].
    rewrite skip_ws_head by now apply head_ok_dumps.
    rewrite starts_with_head by first [now apply head_ok_dumps | now left].
    cbn [size] in Hfuel.
    rewrite (scan_elements_dumps level rest xs x [] fuel IHl Hok) by lia.
    reflexivity.
  - destruct d as [|[k x] ms]; [reflexivity|].
    cbn [dumps_at bracket map fst snd]. cbn [append scan_once].
    change (Ascii.eqb "{" quote) with false.
    change (Ascii.eqb "{" "{") with true. cbv iota.
    unfold str1. rewrite !append_assoc. cbn [append].
    rewrite skip_ws_newline_indent.
    cbn [json_ok] in Hok. apply andb_true_iff in Hok. destruct Hok as [Hd Hok].
    rewrite skip_ws_head by apply head_ok_dump_str.
    rewrite starts_with_head by first [apply head_ok_dump_str | now right].
    cbn [size] in Hfuel.
    pose proof (scan_members_dumps level rest ms k x [] fuel IHd Hok) as G.
    rewrite !append_assoc in G. cbn [append] in G. rewrite G.
    + reflexivity.
    + now apply distinct_NoDup.
    + lia.
Qed.

Lemma length_append a b :
  String.length (a ++ b) = (String.length a + String.length b)%nat.
Proof. induction a as [|c a IH]; cbn; [reflexivity | now rewrite IH]. Qed.

Lemma head_ok_length s : head_ok s -> (1 <= String.length s)%nat.
Proof. destruct s; [intros [] | cbn; lia]. Qed.

Lemma length_continued level (parts : list string) :
  (list_sum (map (fun p => S (String.length p)) parts)
   <= String.length (continued level parts))%nat.
Proof.
  induction parts as [|p ps IH]; [cbn; lia|].
  cbn [continued map list_sum fold_right String.length].
  rewrite !length_append. fold (list_sum (map (fun p => S (String.length p)) ps)).
  lia.
Qed.

Lemma length_bracket o c level (parts : list string) :
  (S (list_sum (map (fun p => S (String.length p)) parts))
   <= String.length (bracket o c level parts))%nat.
Proof.
  destruct parts as [|p ps]; [cbn; lia|].
  cbn [bracket map list_sum fold_right String.length].
  rewrite !length_append.
  pose proof (length_continued (S level) ps).
  fold (list_sum (map (fun p => S (String.length p)) ps)).
  change (String.length (str1 c)) with 1%nat. lia.
Qed.

Lemma list_sum_le {A} (f g : A -> nat) (l : list A) :
  Forall (fun x => f x <= g x)%nat l ->
  (list_sum (map f l) <= list_sum (map g l))%nat.
Proof.
  induction 1 as [|x l Hx _ IH]; [reflexivity|].
  cbn [map list_sum fold_right].
  fold (list_sum (map f l)). fold (list_sum (map g l)). lia.
Qed.

(** The text of a value is at least as long as the scanner needs calls. *)
Lemma size_le_length v :
  json_ok v = true ->
  forall level, (size v <= String.length (dumps_at level v))%nat.
Proof.
  induction v as [|b|z|f|s|l IHl|d IHd] using value_nested_ind;
    intros Hok level;
    try (rewrite <- (append_nil_r (dumps_at level _));
         apply head_ok_length; now apply head_ok_dumps).
  - cbn [size dumps_at].
    etransitivity; [|apply length_bracket]. rewrite map_map.
    apply le_n_S. apply list_sum_le.
    cbn [json_ok] in Hok. rewrite forallb_forall in Hok.
    rewrite Forall_forall in IHl |- *. intros x Hx.
    apply le_n_S. apply IHl; auto.
  - cbn [size dumps_at].
    etransitivity; [|apply length_bracket]. rewrite map_map.
    apply le_n_S. apply list_sum_le.
    cbn [json_ok] in Hok. apply andb_true_iff in Hok. destruct Hok as [_ Hok].
    rewrite forallb_forall in Hok.
    rewrite Forall_forall in IHd |- *. intros x Hx.
    apply le_n_S. rewrite !length_append.
    specialize (IHd x Hx (Hok x Hx) (S level)). lia.
Qed.

Lemma strip_prefix_BOM s : head_ok s -> strip_prefix BOM s = None.
Proof.
  destruct s as [|c s]; [intros []|]. intros (_ & _ & _ & H).
  change BOM with (String "239" (String "187" (String "191" EmptyString))).
  cbn [strip_prefix].
  destruct (Ascii.eqb_spec "239" c) as [<-|]; [discriminate H | reflexivity].
Qed.

(** [json.loads(json.dumps(v, indent=2, ensure_ascii=False)) == v] *)
Theorem loads_dumps v : json_ok v = true -> loads (dumps v) = Ok v.
Proof.
  intros Hok. unfold loads, dumps.
  pose proof (head_ok_dumps 0 v EmptyString Hok) as Hh. rewrite append_nil_r in Hh.
  rewrite strip_prefix_BOM, skip_ws_head by exact Hh.
  rewrite <- (append_nil_r (dumps_at 0 v)) at 2.
  rewrite (scan_once_dumps v Hok 0%nat EmptyString _ I).
  - reflexivity.
  - pose proof (size_le_length v Hok 0). lia.
Qed.

(** *** The scanner always answers

    [fuel] stands for the fact that the scanner reads on in the text.
    Twice the length of the text (and one) is enough of it: the scanner
    then ends with a value or with [JSONDecodeError]. *)

Lemma skip_ws_length s : (String.length (skip_ws s) <= String.length s)%nat.
Proof.
  induction s as [|c s IH]; [reflexivity|]. cbn [skip_ws].
  destruct (is_ws c); cbn [String.length]; lia.
Qed.

Lemma strip_prefix_length p s r :
  strip_prefix p s = Some r -> (String.length r <= String.length s)%nat.
Proof.
  revert s. induction p as [|a p IH]; intros s H.
  - injection H as <-. reflexivity.
  - destruct s as [|b s]; [discriminate H|]. cbn [strip_prefix] in H.
    destruct (Ascii.eqb a b); [|discriminate H].
    apply IH in H. cbn [String.length]. lia.
Qed.

Lemma strip_prefix_shorter a p s r :
  strip_prefix (String a p) s = Some r ->
  (String.length r < String.length s)%nat.
Proof.
  destruct s as [|b s]; [discriminate|]. cbn [strip_prefix].
  destruct (Ascii.eqb a b); [|discriminate].
  intros H. apply strip_prefix_length in H. cbn [String.length]. lia.
Qed.

Lemma starts_with_length c s r :
  starts_with c s = Some r -> String.length s = S (String.length r).
Proof.
  destruct s as [|c' s]; [discriminate|]. cbn [starts_with].
  destruct (Ascii.eqb c c'); [|discriminate]. now intros [= <-].
Qed.

Lemma scan_digits_length s d r :
  scan_digits s = (d, r) -> (String.length r <= String.length s)%nat.
Proof.
  revert d r. induction s as [|c s IH]; intros d r H; cbn [scan_digits] in H.
  - injection H as <- <-. reflexivity.
  - destruct (digit_of_char c).
    + destruct (scan_digits s) as [ds r'] eqn:E. injection H as <- <-.
      specialize (IH _ _ eq_refl). cbn [String.length]. lia.
    + injection H as <- <-. reflexivity.
Qed.

Lemma scan_int_part_length s d r :
  scan_int_part s = Some (d, r) -> (String.length r < String.length s)%nat.
Proof.
  destruct s as [|c s]; [discriminate|]. unfold scan_int_part.
  destruct (Ascii.eqb_spec c "0") as [->|Hc].
  - intros [= <- <-]. cbn [String.length]. lia.
  - intros H.
    assert (G : (if is_digit c then Some (scan_digits (String c s)) else None)
                = Some (d, r))
      by (ascii_cases c; try (now elim Hc); exact H).
    clear H. destruct (is_digit c) eqn:Ed; [|discriminate G].
    injection G as G. cbn [scan_digits] in G. unfold is_digit in Ed.
    destruct (digit_of_char c); [|discriminate Ed].
    destruct (scan_digits s) as [ds r'] eqn:E. injection G as <- <-.
    apply scan_digits_length in E. cbn [String.length]. lia.
Qed.

Lemma scan_frac_length s f r :
  scan_frac s = (f, r) -> (String.length r <= String.length s)%nat.
Proof.
  unfold scan_frac. destruct s as [|c s]; [now intros [= <- <-]|].
  destruct (Ascii.eqb_spec c ".") as [->|Hc].
  - destruct s as [|c' s]; [now intros [= <- <-]|].
    destruct (is_digit c').
    + destruct (scan_digits (String c' s)) as [ds r'] eqn:E. intros [= <- <-].
      apply scan_digits_length in E. cbn [String.length] in *. lia.
    + now intros [= <- <-].
  - intros H. assert (G : (f, r) = (None, String c s))
      by (ascii_cases c; try (now elim Hc); now rewrite <- H).
    now injection G as -> ->.
Qed.

Lemma scan_exp_digits_length neg s whole e r :
  scan_exp_digits neg s whole = (e, r) ->
  (String.length s <= String.length whole)%nat ->
  (String.length r <= String.length whole)%nat.
Proof.
  unfold scan_exp_digits. destruct s as [|c s]; [now intros [= <- <-]|].
  destruct (is_digit c).
  - destruct (scan_digits (String c s)) as [ds r'] eqn:E. intros [= <- <-] H.
    apply scan_digits_length in E. lia.
  - now intros [= <- <-].
Qed.

Lemma scan_exp_length s e r :
  scan_exp s = (e, r) -> (String.length r <= String.length s)%nat.
Proof.
  unfold scan_exp. destruct s as [|c s]; [now intros [= <- <-]|].
  destruct (Ascii.eqb c "e" || Ascii.eqb c "E")%bool; [|now intros [= <- <-]].
  destruct s as [|c' s].
  - intros H. apply scan_exp_digits_length in H; cbn [String.length] in *; lia.
  - destruct (Ascii.eqb_spec c' "-") as [->|Hm];
      [intros H; apply scan_exp_digits_length in H; cbn [String.length] in *; lia|].
    destruct (Ascii.eqb_spec c' "+") as [->|Hp];
      [intros H; apply scan_exp_digits_length in H; cbn [String.length] in *; lia|].
    intros H.
    assert (G : scan_exp_digits false (String c' s) (String c (String c' s)) = (e, r))
      by (ascii_cases c'; try (now elim Hm); try (now elim Hp); exact H).
    apply scan_exp_digits_length in G; cbn [String.length] in *; lia.
Qed.

Lemma scan_unsigned_length neg s t r :
  scan_unsigned neg s = Some (t, r) -> (String.length r < String.length s)%nat.
Proof.
  unfold scan_unsigned.
  destruct (scan_int_part s) as [[int s2]|] eqn:E1; [|discriminate].
  destruct (scan_frac s2) as [frac s3] eqn:E2.
  destruct (scan_exp s3) as [exp s4] eqn:E3. intros [= <- <-].
  apply scan_int_part_length in E1. apply scan_frac_length in E2.
  apply scan_exp_length in E3. lia.
Qed.

Lemma scan_number_length s t r :
  scan_number s = Some (t, r) -> (String.length r < String.length s)%nat.
Proof.
  intros H. destruct (number_head _ _ _ H) as (c & s' & -> & [->|Hd]).
  - apply scan_unsigned_length in H. cbn [String.length]. lia.
  - rewrite scan_number_digit in H by exact Hd.
    now apply scan_unsigned_length in H.
Qed.

Lemma scan_atom_answers s :
  scan_atom s <> Beyond
  /\ forall v r, scan_atom s = Ok (v, r) ->
                 (String.length r < String.length s)%nat.
Proof.
  unfold scan_atom, scan_constant.
  destruct (strip_prefix "null" s) eqn:E1;
    [split; [discriminate | intros v r [= <- <-]; now apply strip_prefix_shorter in E1]|].
  destruct (strip_prefix "true" s) eqn:E2;
    [split; [discriminate | intros v r [= <- <-]; now apply strip_prefix_shorter in E2]|].
  destruct (strip_prefix "false" s) eqn:E3;
    [split; [discriminate | intros v r [= <- <-]; now apply strip_prefix_shorter in E3]|].
  destruct (scan_number s) as [[t r0]|] eqn:E4;
    [split; [discriminate | intros v r [= <- <-]; now apply scan_number_length in E4]|].
  destruct (strip_prefix "NaN" s) eqn:E5;
    [split; [discriminate | intros v r [= <- <-]; now apply strip_prefix_shorter in E5]|].
  destruct (strip_prefix "Infinity" s) eqn:E6;
    [split; [discriminate | intros v r [= <- <-]; now apply strip_prefix_shorter in E6]|].
  destruct (strip_prefix "-Infinity" s) eqn:E7;
    [split; [discriminate | intros v r [= <- <-]; now apply strip_prefix_shorter in E7]|].
  split; [discriminate | discriminate].
Qed.

Lemma scan_string_rest t (f : string -> string) (bound : nat) :
  (scan_string t <> Beyond
   /\ forall b r, scan_string t = Ok (b, r) ->
                  (String.length r < String.length t)%nat) ->
  (String.length t < bound)%nat ->
  (let* (body, rest) := scan_string t in Ok (f body, rest)) <> Beyond
  /\ forall b r,
       (let* (body, rest) := scan_string t in Ok (f body, rest)) = Ok (b, r) ->
       (String.length r < bound)%nat.
Proof.
  intros [H1 H2] Ht. destruct (scan_string t) as [[body rest]| |];
    cbn [rbind]; [|split; discriminate|contradiction].
  split; [discriminate|]. intros b r [= <- <-].
  specialize (H2 _ _ eq_refl). lia.
Qed.

Ltac string_step IH :=
  match goal with
  | |- (if ?b then _ else _) <> Beyond /\ _ => destruct b
  | |- match ?s with EmptyString => _ | String _ _ => _ end <> Beyond /\ _ =>
      destruct s
  | |- match ?o with Some _ => _ | None => _ end <> Beyond /\ _ => destruct o
  | |- Raise _ <> Beyond /\ _ => split; discriminate
  | |- Ok _ <> Beyond /\ _ =>
      split; [discriminate | intros ? ? [= <- <-]; cbn [String.length]; lia]
  | |- rbind (scan_string ?t) _ <> Beyond /\ _ =>
      apply scan_string_rest;
      [apply IH; cbn [String.length] in *; lia | cbn [String.length]; lia]
  end.

Lemma scan_string_answers_upto n :
  forall s, (String.length s <= n)%nat ->
    scan_string s <> Beyond
    /\ forall b r, scan_string s = Ok (b, r) ->
                   (String.length r < String.length s)%nat.
Proof.
  induction n as [|n IH]; intros s Hn.
  - destruct s; [split; discriminate | cbn in Hn; lia].
  - destruct s as [|c s']; [split; discriminate|].
    cbn [scan_string]. cbn [String.length] in Hn.
    repeat string_step IH.
Qed.

Lemma scan_string_answers s :
  scan_string s <> Beyond
  /\ forall b r, scan_string s = Ok (b, r) ->
                 (String.length r < String.length s)%nat.
Proof. exact (scan_string_answers_upto (String.length s) s (le_n _)). Qed.

Lemma scan_once_answers fuel :
  (forall s,
     ((2 * String.length s < fuel)%nat -> scan_once fuel s <> Beyond)
     /\ forall v r, scan_once fuel s = Ok (v, r) ->
                    (String.length r < String.length s)%nat)
  /\ (forall s acc,
        ((2 * String.length s + 2 <= fuel)%nat ->
         scan_elements fuel s acc <> Beyond)
        /\ forall v r, scan_elements fuel s acc = Ok (v, r) ->
                       (String.length r < String.length s)%nat)
  /\ (forall s acc,
        ((2 * String.length s + 2 <= fuel)%nat ->
         scan_members fuel s acc <> Beyond)
        /\ forall v r, scan_members fuel s acc = Ok (v, r) ->
                       (String.length r < String.length s)%nat).
Proof.
  induction fuel as [|fuel (IHo & IHe & IHm)].
  - repeat split; try (intros; lia); discriminate.
  - split; [|split].
    + intros s. destruct s as [|c s']; [split; [discriminate | discriminate]|].
      cbn [scan_once String.length].
      destruct (Ascii.eqb c quote).
      { destruct (scan_string_answers s') as [H1 H2].
        destruct (scan_string s') as [[body rest]| |]; cbn [rbind];
          [|split; discriminate|contradiction].
        split; [discriminate|]. intros v r [= <- <-].
        specialize (H2 _ _ eq_refl). lia. }
      pose proof (skip_ws_length s') as Hw.
      destruct (Ascii.eqb c "{").
      { destruct (starts_with "}" (skip_ws s')) eqn:E.
        - apply starts_with_length in E.
          split; [discriminate|]. intros v r [= <- <-]. lia.
        - destruct (IHm (skip_ws s') []) as [H1 H2]. split.
          + intros Hf. apply H1. lia.
          + intros v r H. specialize (H2 _ _ H). lia. }
      destruct (Ascii.eqb c "[").
      { destruct (starts_with "]" (skip_ws s')) eqn:E.
        - apply starts_with_length in E.
          split; [discriminate|]. intros v r [= <- <-]. lia.
        - destruct (IHe (skip_ws s') []) as [H1 H2]. split.
          + intros Hf. apply H1. lia.
          + intros v r H. specialize (H2 _ _ H). lia. }
      destruct (scan_atom_answers (String c s')) as [H1 H2].
      split; [intros _; exact H1 | exact H2].
    + intros s acc. cbn [scan_elements].
      destruct (IHo s) as [H1 H2].
      destruct (scan_once fuel s) as [[v rest]| |] eqn:E; cbn [rbind].
      * specialize (H2 _ _ eq_refl). pose proof (skip_ws_length rest) as Hw.
        destruct (skip_ws rest) as [|c rest'] eqn:Er; [split; discriminate|].
        cbn [String.length] in Hw.
        destruct (Ascii.eqb c "]");
          [split; [discriminate | intros ? ? [= <- <-]; lia]|].
        destruct (Ascii.eqb c ","); [|split; discriminate].
        pose proof (skip_ws_length rest') as Hw'.
        destruct (IHe (skip_ws rest') (acc ++ [v])%list) as [G1 G2]. split.
        -- intros Hf. apply G1. lia.
        -- intros v' r H. specialize (G2 _ _ H). lia.
      * split; discriminate.
      * split; [|discriminate]. intros Hf. exfalso. apply H1; [lia | reflexivity].
    + intros s acc. cbn [scan_members].
      destruct s as [|q s1]; [split; discriminate|]. cbn [String.length].
      destruct (Ascii.eqb q quote); [|split; discriminate].
      destruct (scan_string_answers s1) as [S1 S2].
      destruct (scan_string s1) as [[key rest]| |]; cbn [rbind];
        [|split; discriminate|contradiction].
      specialize (S2 _ _ eq_refl). pose proof (skip_ws_length rest) as Hw.
      destruct (starts_with ":" (skip_ws rest)) as [rest1|] eqn:Ec;
        [|split; discriminate].
      apply starts_with_length in Ec.
      pose proof (skip_ws_length rest1) as Hw1.
      destruct (IHo (skip_ws rest1)) as [H1 H2].
      destruct (scan_once fuel (skip_ws rest1)) as [[v rest2]| |] eqn:E;
        cbn [rbind].
      * specialize (H2 _ _ eq_refl). pose proof (skip_ws_length rest2) as Hw2.
        destruct (skip_ws rest2) as [|c rest3] eqn:Er; [split; discriminate|].
        cbn [String.length] in Hw2.
        destruct (Ascii.eqb c "}");
          [split; [discriminate | intros ? ? [= <- <-]; lia]|].
        destruct (Ascii.eqb c ","); [|split; discriminate].
        pose proof (skip_ws_length rest3) as Hw3.
        destruct (IHm (skip_ws rest3) (store key v acc)) as [G1 G2]. split.
        -- intros Hf. apply G1. lia.
        -- intros v' r H. specialize (G2 _ _ H). lia.
      * split; discriminate.
      * split; [|discriminate]. intros Hf. exfalso. apply H1; [lia | reflexivity].
Qed.

(** [json.loads] ends, with a value or with [JSONDecodeError]. *)
Theorem loads_answers s : loads s <> Beyond.
Proof.
  unfold loads. destruct (strip_prefix BOM s); [discriminate|].
  destruct (scan_once_answers (S (2 * String.length s))) as (H & _ & _).
  destruct (H (skip_ws s)) as [H1 _]. pose proof (skip_ws_length s) as Hw.
  destruct (scan_once (S (2 * String.length s)) (skip_ws s)) as [[v rest]| |];
    cbn [rbind].
  - destruct (skip_ws rest); discriminate.
  - discriminate.
  - exfalso. apply H1; [lia | reflexivity].
Qed.

End JsonFacts.

(** ** Facts about floats and their digits

    [float_repr] writes digits from which [float] gives the float back:
    the shortest search ends at seventeen digits at the latest, and the
    text laid out for the digits scans as the decimal they denote. *)

Module FloatFacts.
Import Json JsonShape JsonFacts.
Local Open Scope string_scope.
Local Open Scope Z_scope.

(** *** Binary digits *)

Lemma digits2_log2 p : Zpos (digits2_pos p) = Z.log2 (Zpos p) + 1.
Proof.
  destruct p as [p|p|]; cbn [digits2_pos Z.log2]; try reflexivity;
    rewrite Pos2Z.inj_succ; f_equal;
    (induction p as [p IH|p IH|]; cbn [digits2_pos Pos.size];
     [rewrite !Pos2Z.inj_succ, IH; reflexivity
     |rewrite !Pos2Z.inj_succ, IH; reflexivity
     |reflexivity]).
Qed.

Lemma Zdigits2_log2 m : 0 < m -> Zdigits2 m = Z.log2 m + 1.
Proof.
  destruct m as [|p|p]; try lia. intros _. apply digits2_log2.
Qed.

Lemma Zdigits2_bounds m : 0 < m -> 2 ^ (Zdigits2 m - 1) <= m < 2 ^ Zdigits2 m.
Proof.
  intros H. rewrite (Zdigits2_log2 m H).
  replace (Z.log2 m + 1 - 1) with (Z.log2 m) by lia.
  replace (Z.log2 m + 1) with (Z.succ (Z.log2 m)) by lia.
  now apply Z.log2_spec.
Qed.

Lemma Zdigits2_unique m d : 2 ^ (d - 1) <= m < 2 ^ d -> 0 < d -> Zdigits2 m = d.
Proof.
  intros H Hd.
  assert (0 < m) by (assert (0 < 2 ^ (d - 1)) by (apply Z.pow_pos_nonneg; lia); lia).
  rewrite (Zdigits2_log2 m) by assumption.
  rewrite (Z.log2_unique m (d - 1)); [lia | lia |].
  now replace (Z.succ (d - 1)) with d by lia.
Qed.

Lemma Zdigits2_shift m j : 0 < m -> 0 <= j -> Zdigits2 (m * 2 ^ j) = Zdigits2 m + j.
Proof.
  intros Hm Hj.
  assert (0 < 2 ^ j) by (apply Z.pow_pos_nonneg; lia).
  assert (0 < m * 2 ^ j) by (now apply Z.mul_pos_pos).
  rewrite (Zdigits2_log2 m Hm), (Zdigits2_log2 (m * 2 ^ j)) by assumption.
  rewrite Z.log2_mul_pow2 by lia. lia.
Qed.

Lemma Zdigits2_nonneg m : 0 <= Zdigits2 m.
Proof. destruct m; cbn; lia. Qed.


(** *** Shifting a located ratio *)

Lemma locate_scale c n d : 0 < c -> 0 < d -> locate (c * n) (c * d) = locate n d.
Proof.
  intros Hc Hd. unfold locate.
  rewrite Z.div_mul_cancel_l by lia.
  rewrite Z.mul_mod_distr_l by lia.
  f_equal.
  destruct (Z.eqb_spec (n mod d) 0) as [E|E].
  - rewrite E, Z.mul_0_r. reflexivity.
  - destruct (Z.eqb_spec (c * (n mod d)) 0) as [E'|E']; [exfalso; nia|].
    f_equal. rewrite Z.mul_assoc, (Z.mul_comm 2 c), <- Z.mul_assoc.
    symmetry. apply Zmult_compare_compat_l. lia.
Qed.

Lemma shr_m_of_loc m l : shr_m (shr_record_of_loc m l) = m.
Proof. destruct l as [|[]]; reflexivity. Qed.

Lemma loc_of_shr_of_loc m l : loc_of_shr_record (shr_record_of_loc m l) = l.
Proof. destruct l as [|[]]; reflexivity. Qed.

Lemma locate_double n d q b r :
  0 < d -> n = d * (2 * q + b) + r -> 0 <= r < d -> 0 <= b <= 1 ->
  n / (2 * d) = q /\ n mod (2 * d) = b * d + r.
Proof.
  intros Hd Hn Hr Hb.
  assert (E : n = (2 * d) * q + (b * d + r)) by lia.
  assert (R : 0 <= b * d + r < 2 * d) by nia.
  split.
  - symmetry. apply (Z.div_unique n (2 * d) q (b * d + r)); [left; exact R | exact E].
  - symmetry. apply (Z.mod_unique n (2 * d) q (b * d + r)); [left; exact R | exact E].
Qed.

Lemma shr_1_located n d :
  0 <= n -> 0 < d -> shr_1 (located n d) = located n (2 * d).
Proof.
  intros Hn Hd.
  pose proof (Z.div_mod n d ltac:(lia)) as E.
  pose proof (Z.mod_pos_bound n d Hd) as R.
  assert (Q : 0 <= n / d) by (apply Z.div_pos; lia).
  unfold located, locate. cbn [fst snd].
  set (q := n / d) in *. set (r := n mod d) in *.
  assert (cases : exists q' b, q = 2 * q' + b /\ 0 <= b <= 1 /\ 0 <= q'
     /\ forall rb sb, shr_1 {| shr_m := q; shr_r := rb; shr_s := sb |}
        = {| shr_m := q'; shr_r := (b =? 1); shr_s := rb || sb |}).
  { destruct q as [|[p|p|]|p]; try lia.
    - exists 0, 0. repeat split; try lia.
    - exists (Zpos p), 1. repeat split; try lia.
    - exists (Zpos p), 0. repeat split; try lia.
    - exists 0, 1. repeat split; try lia. }
  destruct cases as (q' & b & Eq & Hb & Hq' & S1).
  destruct (locate_double n d q' b r Hd ltac:(lia) R Hb) as [-> ->].
  assert (B : b = 0 \/ b = 1) by lia.
  destruct (Z.eqb_spec r 0) as [R0|R0].
  - cbn [shr_record_of_loc]. rewrite S1.
    destruct B as [-> | ->]; cbn [Z.eqb orb].
    + replace (0 * d + r) with 0 by lia. reflexivity.
    + replace (1 * d + r) with d by lia.
      destruct (Z.eqb_spec d 0); [lia|].
      rewrite Z.compare_refl. reflexivity.
  - destruct (Z.eqb_spec (b * d + r) 0) as [R1|R1]; [nia|].
    destruct B as [-> | ->].
    + replace (0 * d + r) with r by lia.
      replace (2 * r ?= 2 * d) with Lt by (symmetry; apply Z.compare_lt_iff; lia).
      destruct (2 * r ?= d); cbn [shr_record_of_loc]; rewrite S1; reflexivity.
    + replace (2 * (1 * d + r) ?= 2 * d) with Gt
        by (symmetry; apply Z.compare_gt_iff; lia).
      destruct (2 * r ?= d); cbn [shr_record_of_loc]; rewrite S1; reflexivity.
Qed.

Lemma iter_shr_1_located p : forall n d,
  0 <= n -> 0 < d ->
  iter_pos shr_1 p (located n d) = located n (d * 2 ^ Zpos p).
Proof.
  induction p as [p IH|p IH|]; intros n d Hn Hd; cbn [iter_pos].
  - rewrite shr_1_located by assumption.
    assert (0 < 2 ^ Zpos p) by (apply Z.pow_pos_nonneg; lia).
    rewrite IH by lia. rewrite IH by nia.
    f_equal. replace (Zpos p~1) with (Zpos p + Zpos p + 1) by lia.
    rewrite !Z.pow_add_r by lia. change (2 ^ 1) with 2. ring.
  - assert (0 < 2 ^ Zpos p) by (apply Z.pow_pos_nonneg; lia).
    rewrite IH by lia. rewrite IH by nia.
    f_equal. replace (Zpos p~0) with (Zpos p + Zpos p) by lia.
    rewrite !Z.pow_add_r by lia. ring.
  - rewrite shr_1_located by assumption. f_equal. change (2 ^ 1) with 2. ring.
Qed.

Lemma shr_located n d e k :
  0 <= n -> 0 < d -> 0 <= k ->
  shr (located n d) e k = (located n (d * 2 ^ k), e + k).
Proof.
  intros Hn Hd Hk. destruct k as [|p|p]; try lia.
  - cbn [shr]. now rewrite Z.mul_1_r, Z.add_0_r.
  - cbn [shr]. now rewrite iter_shr_1_located.
Qed.

Lemma binary_round_aux_finish sx mx ex lx :
  binary_round_aux prec emax sx mx ex lx =
  finish sx
    (round_nearest_even (shr_m (fst (shr_fexp prec emax mx ex lx)))
       (loc_of_shr_record (fst (shr_fexp prec emax mx ex lx))))
    (snd (shr_fexp prec emax mx ex lx)).
Proof.
  unfold binary_round_aux, finish.
  destruct (shr_fexp prec emax mx ex lx) as [mrs' e']. reflexivity.
Qed.

(** Rounding a located ratio: the ratio is cut to the precision of the
    format and rounded there. *)
Lemma round_located sx n d e0 k :
  0 <= n -> 0 < d ->
  k = fexp prec emax (Zdigits2 (n / d) + e0) - e0 -> 0 <= k ->
  binary_round_aux prec emax sx (fst (locate n d)) e0 (snd (locate n d)) =
  finish sx (nearest n (d * 2 ^ k)) (e0 + k).
Proof.
  intros Hn Hd Ek Hk. rewrite binary_round_aux_finish.
  unfold shr_fexp. change (fst (locate n d)) with (n / d).
  rewrite <- Ek.
  change (shr_record_of_loc (n / d) (snd (locate n d))) with (located n d).
  rewrite shr_located by assumption. cbn [fst snd].
  unfold located. now rewrite shr_m_of_loc, loc_of_shr_of_loc.
Qed.

Lemma mul_lt_cancel a b d : 0 < d -> a * d < b * d -> a < b.
Proof. intros Hd H. now apply (Z.mul_lt_mono_pos_r d). Qed.

Lemma mul_le_cancel a b d : 0 < d -> a * d <= b * d -> a <= b.
Proof. intros Hd H. now apply (Z.mul_le_mono_pos_r _ _ d). Qed.

Lemma nearest_spec n d c :
  0 < d -> (2 * c - 1) * d < 2 * n < (2 * c + 1) * d -> nearest n d = c.
Proof.
  intros Hd H.
  pose proof (Z.div_mod n d ltac:(lia)) as E.
  pose proof (Z.mod_pos_bound n d Hd) as R.
  unfold nearest, locate. cbn [fst snd].
  set (q := n / d) in *. set (r := n mod d) in *.
  destruct (Z.eqb_spec r 0) as [R0|R0]; cbn [round_nearest_even].
  - assert (2 * c - 1 < 2 * q) by (apply (mul_lt_cancel _ _ d Hd); lia).
    assert (2 * q < 2 * c + 1) by (apply (mul_lt_cancel _ _ d Hd); lia).
    lia.
  - destruct (Z.compare_spec (2 * r) d) as [C|C|C].
    + exfalso.
      assert (2 * c - 1 < 2 * q + 1) by (apply (mul_lt_cancel _ _ d Hd); lia).
      assert (2 * q + 1 < 2 * c + 1) by (apply (mul_lt_cancel _ _ d Hd); lia).
      lia.
    + assert (2 * c - 1 < 2 * q + 1) by (apply (mul_lt_cancel _ _ d Hd); lia).
      assert (2 * q < 2 * c + 1) by (apply (mul_lt_cancel _ _ d Hd); lia).
      lia.
    + assert (2 * c - 1 < 2 * q + 2) by (apply (mul_lt_cancel _ _ d Hd); lia).
      assert (2 * q + 1 < 2 * c + 1) by (apply (mul_lt_cancel _ _ d Hd); lia).
      lia.
Qed.


(** *** A ratio near a float rounds to it *)

Lemma bounded_spec m e :
  bounded prec emax m e = true ->
  -1074 <= e <= 971 /\ Zpos m < 2 ^ 53 /\ (2 ^ 52 <= Zpos m \/ e = -1074).
Proof.
  unfold bounded, canonical_mantissa, fexp, emin, prec, emax.
  intros B. apply andb_true_iff in B. destruct B as [C L].
  apply Z.eqb_eq in C. apply Z.leb_le in L.
  pose proof (Zdigits2_bounds (Zpos m) eq_refl) as D. cbn [Zdigits2] in D.
  set (g := Zpos (digits2_pos m)) in *.
  assert (G : g = 53 \/ (g <= 53 /\ e = -1074)) by lia.
  destruct G as [G | [G E]].
  - rewrite G in D. change (2 ^ (53 - 1)) with (2 ^ 52) in D. lia.
  - assert (2 ^ g <= 2 ^ 53) by (apply Z.pow_le_mono_r; lia).
    repeat split; lia.
Qed.

Lemma finish_fits sx m e :
  bounded prec emax m e = true -> finish sx (Zpos m) e = S754_finite sx m e.
Proof.
  intros B. unfold finish, shr_fexp.
  unfold bounded in B. apply andb_true_iff in B. destruct B as [C L].
  unfold canonical_mantissa in C. apply Z.eqb_eq in C.
  cbn [Zdigits2]. rewrite C, Z.sub_diag.
  cbn [shr shr_record_of_loc shr_m]. now rewrite L.
Qed.

(** Rounding up to [2^53] gives the first number of the next binade. *)
Lemma finish_carry sx e :
  -1074 < e <= 971 ->
  finish sx (2 ^ 53) (e - 1) = S754_finite sx (2 ^ 52)%positive e.
Proof.
  intros He. unfold finish, shr_fexp.
  replace (Zdigits2 (2 ^ 53)) with 54 by reflexivity.
  replace (fexp prec emax (54 + (e - 1)) - (e - 1)) with 1
    by (unfold fexp, emin, prec, emax; lia).
  cbn [shr iter_pos].
  replace (shr_1 (shr_record_of_loc (2 ^ 53) loc_Exact))
    with {| shr_m := 2 ^ 52; shr_r := false; shr_s := false |} by reflexivity.
  cbn [shr_m]. replace (e - 1 + 1) with e by lia.
  replace (2 ^ 52) with (Zpos (2 ^ 52)) by reflexivity.
  replace (e <=? emax - prec) with true; [reflexivity|].
  symmetry. apply Z.leb_le. unfold emax, prec. lia.
Qed.

Lemma div_digits n d g :
  0 < d -> 0 < g -> 2 ^ (g - 1) * d <= n < 2 ^ g * d -> Zdigits2 (n / d) = g.
Proof.
  intros Hd Hg [L U]. apply Zdigits2_unique; [|exact Hg]. split.
  - apply Z.div_le_lower_bound; [exact Hd | lia].
  - apply Z.div_lt_upper_bound; [exact Hd | lia].
Qed.

Lemma div_digits_le n d g :
  0 < d -> 0 <= g -> 0 <= n < 2 ^ g * d -> Zdigits2 (n / d) <= g.
Proof.
  intros Hd Hg [L U].
  assert (Q : 0 <= n / d) by (apply Z.div_pos; lia).
  assert (QU : n / d < 2 ^ g) by (apply Z.div_lt_upper_bound; [exact Hd | lia]).
  destruct (Z.eq_dec (n / d) 0) as [E|E]; [rewrite E; exact Hg|].
  pose proof (Zdigits2_bounds (n / d) ltac:(lia)) as B.
  destruct (Z_le_gt_dec (Zdigits2 (n / d)) g) as [G|G]; [exact G|exfalso].
  assert (2 ^ g <= 2 ^ (Zdigits2 (n / d) - 1)) by (apply Z.pow_le_mono_r; lia).
  lia.
Qed.

(** A ratio [n/d], counted in units of [2^-1074], that lies less than
    half a step away from the float [m * 2^e] rounds to it.  Below the
    first number of a binade the steps are half as wide. *)
Lemma round_near sx m e n d :
  bounded prec emax m e = true -> 0 < n -> 0 < d ->
  2 * n < (2 * Zpos m + 1) * (2 ^ (e + 1074) * d) ->
  (2 * Zpos m - 1) * (2 ^ (e + 1074) * d) < 2 * n ->
  (Zpos m = 2 ^ 52 -> -1074 < e ->
   (4 * Zpos m - 1) * (2 ^ (e + 1074) * d) < 4 * n) ->
  binary_round_aux prec emax sx (fst (locate n d)) (-1074) (snd (locate n d))
  = S754_finite sx m e.
Proof.
  intros B Hn Hd Up Lo Edge.
  destruct (bounded_spec m e B) as (He & Hm & Hnorm).
  destruct (Z.eq_dec e (-1074)) as [E0|E0].
  - (* the finest steps: no bit is cut *)
    subst e. change (2 ^ (-1074 + 1074)) with 1 in *.
    rewrite Z.mul_1_l in Up, Lo.
    assert (K : Zdigits2 (n / d) <= 53).
    { apply div_digits_le; [exact Hd | lia |]. split; [lia|].
      assert (Zpos m * d < 2 ^ 53 * d) by (apply Z.mul_lt_mono_pos_r; lia).
      assert (d <= 2 ^ 53 * d - Zpos m * d) by nia. lia. }
    rewrite (round_located sx n d (-1074) 0); try lia.
    + rewrite Z.mul_1_r, Z.add_0_r.
      rewrite (nearest_spec n d (Zpos m)) by (try exact Hd; lia).
      now apply finish_fits.
    + pose proof (Zdigits2_nonneg (n / d)).
      unfold fexp, emin, prec, emax. lia.
  - assert (Hnm : 2 ^ 52 <= Zpos m) by lia. clear Hnorm.
    set (s := e + 1074) in *.
    assert (Hs : 1 <= s) by (unfold s; lia).
    set (h := 2 ^ s * d) in *.
    assert (Hh : 0 < h).
    { unfold h. apply Z.mul_pos_pos; [apply Z.pow_pos_nonneg; lia | exact Hd]. }
    assert (M1 : 2 ^ 52 * h <= Zpos m * h) by (apply Z.mul_le_mono_nonneg_r; lia).
    assert (M2 : Zpos m * h + h <= 2 ^ 53 * h).
    { replace (Zpos m * h + h) with ((Zpos m + 1) * h) by ring.
      apply Z.mul_le_mono_nonneg_r; lia. }
    destruct (Z_le_gt_dec (2 ^ 52 * h) n) as [In|Out].
    + (* inside the binade of the float *)
      assert (K : Zdigits2 (n / d) = 53 + s).
      { apply div_digits; [exact Hd | lia |].
        replace (53 + s - 1) with (52 + s) by lia.
        rewrite !Z.pow_add_r by lia. fold h.
        rewrite <- !Z.mul_assoc. fold h. lia. }
      rewrite (round_located sx n d (-1074) s); try lia.
      * fold h. replace (d * 2 ^ s) with h by (unfold h; ring).
        rewrite (nearest_spec n h (Zpos m)) by (try exact Hh; lia).
        replace (-1074 + s) with e by (unfold s; lia).
        now apply finish_fits.
      * rewrite K. unfold fexp, emin, prec, emax. lia.
    + (* just below the binade: the float is its first number *)
      assert (Em : Zpos m = 2 ^ 52).
      { assert ((2 * Zpos m - 1) * h < 2 ^ 53 * h) by lia.
        assert (2 * Zpos m - 1 < 2 ^ 53) by (now apply (mul_lt_cancel _ _ h)).
        lia. }
      specialize (Edge Em ltac:(lia)). rewrite Em in Edge.
      set (g := 2 ^ (s - 1) * d).
      assert (Hg : 0 < g).
      { unfold g. apply Z.mul_pos_pos; [apply Z.pow_pos_nonneg; lia | exact Hd]. }
      assert (Eh : h = 2 * g).
      { unfold h, g. replace s with (1 + (s - 1)) at 1 by lia.
        rewrite Z.pow_add_r by lia. change (2 ^ 1) with 2. ring. }
      assert (K : Zdigits2 (n / d) = 52 + s).
      { apply div_digits; [exact Hd | lia |].
        replace (52 + s - 1) with (52 + (s - 1)) by lia.
        replace (52 + s) with (53 + (s - 1)) by lia.
        rewrite !Z.pow_add_r by lia. rewrite <- !Z.mul_assoc. fold g. lia. }
      rewrite (round_located sx n d (-1074) (s - 1)); try lia.
      * replace (d * 2 ^ (s - 1)) with g by (unfold g; ring).
        rewrite (nearest_spec n g (2 ^ 53)) by (try exact Hg; lia).
        replace (-1074 + (s - 1)) with (e - 1) by (unfold s; lia).
        rewrite finish_carry by lia. f_equal.
        change (2 ^ 52) with (Zpos (2 ^ 52)) in Em. now injection Em.
      * rewrite K. unfold fexp, emin, prec, emax. lia.
Qed.


(** *** Decimals as ratios *)

Lemma pow_pos_2 k : 0 <= k -> 0 < 2 ^ k.
Proof. intros H. apply Z.pow_pos_nonneg; lia. Qed.

Lemma pow_pos_10 k : 0 <= k -> 0 < 10 ^ k.
Proof. intros H. apply Z.pow_pos_nonneg; lia. Qed.

Lemma dec_den_pos k : 0 < dec_den k.
Proof.
  unfold dec_den. destruct (Z.leb_spec 0 k); [lia | apply pow_pos_10; lia].
Qed.

Lemma dec_num_pos d k : 0 < d -> 0 < dec_num d k.
Proof.
  intros Hd. unfold dec_num. destruct (Z.leb_spec 0 k); [|exact Hd].
  apply Z.mul_pos_pos; [exact Hd | now apply pow_pos_10].
Qed.

Lemma nearest_scale c n d : 0 < c -> 0 < d -> nearest (c * n) (c * d) = nearest n d.
Proof. intros Hc Hd. unfold nearest. now rewrite locate_scale. Qed.

Lemma round_ratio_scale neg c n d :
  0 < c -> 0 < d -> round_ratio neg (c * n) (c * d) = round_ratio neg n d.
Proof.
  intros Hc Hd. unfold round_ratio.
  rewrite <- Z.mul_assoc. now rewrite locate_scale.
Qed.

(** Equal ratios round alike. *)
Lemma round_ratio_cross neg a b a' b' :
  0 < b -> 0 < b' -> a * b' = a' * b ->
  round_ratio neg a b = round_ratio neg a' b'.
Proof.
  intros Hb Hb' E.
  rewrite <- (round_ratio_scale neg b' a b) by assumption.
  rewrite <- (round_ratio_scale neg b a' b') by assumption.
  f_equal; lia.
Qed.

Lemma iter_xO m d : Zpos (Pos.iter xO m d) = Zpos m * 2 ^ Zpos d.
Proof.
  induction d as [|d IH] using Pos.peano_ind.
  - cbn [Pos.iter]. change (2 ^ 1) with 2. lia.
  - rewrite Pos.iter_succ, Pos2Z.inj_succ, Z.pow_succ_r by lia.
    rewrite Pos2Z.inj_xO, IH. ring.
Qed.

Lemma locate_whole n : locate n 1 = (n, loc_Exact).
Proof. unfold locate. now rewrite Z.div_1_r, Z.mod_1_r. Qed.

(** [binary_round] of an integer is the rounding of the ratio over 1. *)
Lemma binary_round_ratio neg m :
  binary_round prec emax neg m 0 = round_ratio neg (Zpos m) 1.
Proof.
  pose proof (Zdigits2_bounds (Zpos m) eq_refl) as G.
  assert (G1 : 1 <= Zdigits2 (Zpos m)) by (cbn [Zdigits2]; lia).
  set (g := Zdigits2 (Zpos m)) in *.
  assert (A : exists mz j, 0 <= j <= 52 /\ Zpos mz = Zpos m * 2 ^ j
              /\ shl_align m 0 (fexp prec emax (Zpos (digits2_pos m) + 0))
                 = (mz, - j) /\ 53 <= g + j).
  { change (Zpos (digits2_pos m)) with g. unfold shl_align.
    rewrite Z.add_0_r, Z.sub_0_r.
    assert (F : fexp prec emax g = g - 53)
      by (unfold fexp, emin, prec, emax; lia).
    rewrite F. destruct (g - 53) as [|p|p] eqn:E.
    - exists m, 0. rewrite Z.mul_1_r. repeat split; lia.
    - exists m, 0. rewrite Z.mul_1_r. repeat split; lia.
    - exists (Pos.iter xO m p), (Zpos p). rewrite iter_xO.
      repeat split; lia. }
  destruct A as (mz & j & Hj & Ez & Es & Hg).
  unfold binary_round. rewrite Es.
  assert (P : 0 < 2 ^ j) by (apply pow_pos_2; lia).
  assert (Dz : Zdigits2 (Zpos mz) = g + j).
  { rewrite Ez. apply Zdigits2_shift; lia. }
  pose proof (round_located neg (Zpos mz) 1 (- j) (g - 53 + j)) as L.
  rewrite locate_whole, Z.div_1_r in L. cbn [fst snd] in L.
  rewrite L; try lia.
  2:{ rewrite Dz. unfold fexp, emin, prec, emax. lia. }
  unfold round_ratio.
  assert (Dr : Zdigits2 (Zpos m * 2 ^ 1074) = g + 1074)
    by (apply Zdigits2_shift; lia).
  pose proof (round_located neg (Zpos m * 2 ^ 1074) 1 (-1074) (g - 53 + 1074))
    as R.
  rewrite Z.div_1_r in R. rewrite R; try lia.
  2:{ rewrite Dr. unfold fexp, emin, prec, emax. lia. }
  f_equal; [|lia].
  rewrite !Z.mul_1_l.
  replace (2 ^ (g - 53 + 1074)) with (2 ^ (1074 - j) * 2 ^ (g - 53 + j))
    by (rewrite <- Z.pow_add_r by lia; f_equal; lia).
  replace (Zpos m * 2 ^ 1074) with (2 ^ (1074 - j) * Zpos mz).
  - symmetry. apply nearest_scale; apply pow_pos_2; lia.
  - rewrite Ez. replace 1074 with (1074 - j + j) at 2 by lia.
    rewrite (Z.pow_add_r 2 (1074 - j) j) by lia. ring.
Qed.

Lemma float_of_decimal_ratio neg d k :
  0 < d ->
  float_of_decimal neg (Z.to_N d) k = round_ratio neg (dec_num d k) (dec_den k).
Proof.
  intros Hd. destruct d as [|p|p]; try lia. cbn [Z.to_N].
  unfold float_of_decimal, dec_num, dec_den, pow10.
  destruct (Z.leb_spec 0 k) as [Hk|Hk].
  - pose proof (pow_pos_10 k Hk) as P.
    destruct (Zpos p * 10 ^ k) as [|q|q] eqn:E; try lia.
    apply binary_round_ratio.
  - reflexivity.
Qed.

(** A decimal written with more zeros and a smaller exponent is the same
    number. *)
Lemma dec_cross d k j :
  0 <= j ->
  dec_num (d * 10 ^ j) (k - j) * dec_den k = dec_num d k * dec_den (k - j).
Proof.
  intros Hj. unfold dec_num, dec_den.
  destruct (Z.leb_spec 0 k) as [Hk|Hk], (Z.leb_spec 0 (k - j)) as [Hkj|Hkj];
    try lia.
  - replace k with (j + (k - j)) at 2 by lia.
    rewrite (Z.pow_add_r 10 j (k - j)) by lia. ring.
  - replace j with (k + - (k - j)) at 1 by lia.
    rewrite (Z.pow_add_r 10 k (- (k - j))) by lia. ring.
  - replace (- (k - j)) with (j + - k) by lia.
    rewrite (Z.pow_add_r 10 j (- k)) by lia. ring.
Qed.

Lemma float_of_decimal_zeros neg d k j :
  0 < d -> 0 <= j ->
  float_of_decimal neg (Z.to_N (d * 10 ^ j)) (k - j)
  = float_of_decimal neg (Z.to_N d) k.
Proof.
  intros Hd Hj. pose proof (pow_pos_10 j Hj) as P.
  rewrite !float_of_decimal_ratio by (try apply Z.mul_pos_pos; lia).
  apply round_ratio_cross; try apply dec_den_pos.
  now apply dec_cross.
Qed.

Lemma binary_round_aux_sign mx ex lx :
  binary_round_aux prec emax true mx ex lx
  = SFopp (binary_round_aux prec emax false mx ex lx).
Proof.
  rewrite !binary_round_aux_finish. unfold finish.
  destruct (shr_fexp prec emax _ _ loc_Exact) as [mrs e'].
  destruct (shr_m mrs); try reflexivity.
  destruct (e' <=? emax - prec); reflexivity.
Qed.

Lemma float_of_decimal_sign d k :
  float_of_decimal true d k = SFopp (float_of_decimal false d k).
Proof.
  unfold float_of_decimal. destruct d as [|p]; [reflexivity|].
  destruct (0 <=? k).
  - destruct (Zpos p * pow10 k); try reflexivity.
    unfold binary_round.
    destruct (shl_align _ _ _) as [mz ez]. apply binary_round_aux_sign.
  - apply binary_round_aux_sign.
Qed.


(** *** The digits of a number *)

Lemma list_value_app l1 : forall acc l2,
  list_value acc (l1 ++ l2)%list = list_value (list_value acc l1) l2.
Proof. induction l1 as [|d l1 IH]; intros acc l2; [reflexivity | apply IH]. Qed.

Lemma list_value_acc l : forall acc,
  list_value acc l = acc * 10 ^ Z.of_nat (List.length l) + list_value 0 l.
Proof.
  induction l as [|d l IH]; intros acc.
  - cbn. lia.
  - cbn [list_value List.length]. rewrite IH, (IH (10 * 0 + digit_value d)).
    rewrite Nat2Z.inj_succ, Z.pow_succ_r by lia. ring.
Qed.

Lemma list_value_nonneg l : forall acc, 0 <= acc -> 0 <= list_value acc l.
Proof.
  induction l as [|d l IH]; intros acc H; [exact H|].
  cbn [list_value]. apply IH. destruct d; cbn [digit_value]; lia.
Qed.

Lemma of_uint_acc_value u : forall acc,
  Zpos (Pos.of_uint_acc u acc) = list_value (Zpos acc) (DecimalFacts.to_list u).
Proof.
  induction u; intros acc; cbn [Pos.of_uint_acc DecimalFacts.to_list list_value];
    [reflexivity | rewrite IHu; f_equal; cbn [digit_value]; lia ..].
Qed.

Lemma of_uint_value u :
  Z.of_N (N.of_uint u) = list_value 0 (DecimalFacts.to_list u).
Proof.
  unfold N.of_uint.
  induction u; cbn [Pos.of_uint DecimalFacts.to_list list_value];
    [reflexivity | exact IHu | cbn [Z.of_N]; rewrite of_uint_acc_value; reflexivity ..].
Qed.

(** [N.to_uint] writes no leading zero. *)
Lemma to_uint_first n :
  n <> 0%N ->
  exists d l, DecimalFacts.to_list (N.to_uint n) = d :: l /\ 1 <= digit_value d.
Proof.
  intros Hn.
  pose proof (DecimalN.Unsigned.to_of (N.to_uint n)) as H.
  rewrite DecimalN.Unsigned.of_to in H.
  destruct (N.to_uint n) as [|u|u|u|u|u|u|u|u|u|u] eqn:E;
    try (eexists _, _; split; [reflexivity | cbn; lia]).
  - exfalso. symmetry in H. now apply DecimalFacts.unorm_nonnil in H.
  - exfalso. unfold Decimal.unorm in H. simpl in H.
    destruct (Decimal.nzhead u) eqn:Eu; try discriminate H.
    + injection H as ->. apply Hn.
      rewrite <- (DecimalN.Unsigned.of_to n), E. reflexivity.
    + now apply DecimalFacts.nzhead_nonzero in Eu.
Qed.

Lemma ndigits_lower n :
  n <> 0%N -> 10 ^ (Z.of_nat (ndigits n) - 1) <= Z.of_N n.
Proof.
  intros Hn. unfold ndigits, uint_length.
  rewrite DecimalFacts.nb_digits_spec.
  rewrite <- (DecimalN.Unsigned.of_to n) at 2. rewrite of_uint_value.
  destruct (to_uint_first n Hn) as (d & l & -> & Hd).
  cbn [List.length list_value]. rewrite list_value_acc.
  pose proof (list_value_nonneg l 0 ltac:(lia)).
  replace (Z.of_nat (S (List.length l)) - 1) with (Z.of_nat (List.length l)) by lia.
  pose proof (pow_pos_10 (Z.of_nat (List.length l)) ltac:(lia)). nia.
Qed.

(** *** The position of the decimal point *)

Lemma decpt_below_spec fuel : forall n den p,
  0 < n -> 0 < den -> (1 <= fuel)%nat ->
  den <= n * 10 ^ (Z.of_nat fuel - 1) ->
  decpt_below fuel n den p <= p
  /\ den <= n * 10 ^ (p - decpt_below fuel n den p).
Proof.
  induction fuel as [|fuel IH]; intros n den p Hn Hden Hf H; [lia|].
  cbn [decpt_below]. destruct (Z.leb_spec den n) as [L|L].
  - rewrite Z.sub_diag. cbn. lia.
  - destruct fuel as [|fuel'].
    + change (Z.of_nat 1 - 1) with 0 in H. cbn in H. lia.
    + destruct (IH (n * 10) den (p - 1)) as [A B]; try lia.
      * replace (Z.of_nat (S (S fuel')) - 1)
          with (Z.succ (Z.of_nat (S fuel') - 1)) in H by lia.
        rewrite Z.pow_succ_r in H by lia. lia.
      * split; [lia|].
        replace (p - decpt_below (S fuel') (n * 10) den (p - 1))
          with (Z.succ (p - 1 - decpt_below (S fuel') (n * 10) den (p - 1)))
          by lia.
        rewrite Z.pow_succ_r by lia. lia.
Qed.

Lemma dec_num_1 d k : dec_num d k = d * dec_num 1 k.
Proof. unfold dec_num. destruct (0 <=? k); ring. Qed.

(** [10^(decpt - 1)] is at most the ratio. *)
Lemma decpt_of_lower num den :
  0 < num -> 0 < den -> den <= num * 10 ^ 400 ->
  dec_num 1 (decpt_of num den - 1) * den <= num * dec_den (decpt_of num den - 1).
Proof.
  intros Hn Hd H. unfold decpt_of.
  destruct (Z.leb_spec den num) as [L|L].
  - assert (W : 1 <= num / den).
    { apply Z.div_le_lower_bound; lia. }
    pose proof (ndigits_lower (Z.to_N (num / den)) ltac:(lia)) as G.
    rewrite Z2N.id in G by lia.
    set (p := Z.of_nat (ndigits (Z.to_N (num / den)))) in *.
    assert (Hp : 0 <= p - 1).
    { destruct (Z_le_gt_dec 0 (p - 1)) as [Y|Y]; [exact Y|exfalso].
      unfold p in Y. assert (E : ndigits (Z.to_N (num / den)) = 0%nat) by lia.
      unfold ndigits, uint_length in E.
      apply DecimalFacts.nb_digits_0 in E.
      pose proof (DecimalN.Unsigned.of_to (Z.to_N (num / den))) as T.
      rewrite E in T. cbn in T. lia. }
    unfold dec_num, dec_den.
    destruct (Z.leb_spec 0 (p - 1)) as [_|]; [|lia].
    pose proof (Z.mul_div_le num den Hd).
    assert (10 ^ (p - 1) * den <= num / den * den)
      by (apply Z.mul_le_mono_nonneg_r; lia).
    lia.
  - destruct (decpt_below_spec 400 (num * 10) den 0) as [A B]; try lia.
    set (p := decpt_below 400 (num * 10) den 0) in *.
    unfold dec_num, dec_den.
    destruct (Z.leb_spec 0 (p - 1)) as [|_]; [lia|].
    replace (- (p - 1)) with (Z.succ (0 - p)) by lia.
    rewrite Z.pow_succ_r by lia. lia.
Qed.


(** *** Seventeen digits are enough *)

Lemma SFcompare_refl m e :
  SFcompare (S754_finite false m e) (S754_finite false m e) = Some Eq.
Proof. cbn. now rewrite Z.compare_refl, Pos.compare_cont_refl. Qed.

Lemma SFcompare_eq g m e :
  SFcompare g (S754_finite false m e) = Some Eq -> g = S754_finite false m e.
Proof.
  destruct g as [s|s| |s m' e']; cbn; try discriminate;
    try (destruct s; discriminate).
  destruct s; [discriminate|].
  destruct (Z.compare_spec e' e) as [E|E|E]; try discriminate.
  intros H. injection H as H. apply Pos.compare_eq in H. now subst.
Qed.

(** A decimal at most half of its last place away from a float of at
    least sixteen more digits rounds to the float:
    [2^53 < 10^16]. *)
Lemma candidate_rounds m e num den k c :
  bounded prec emax m e = true ->
  0 < den -> num * 2 ^ 1074 = Zpos m * 2 ^ (e + 1074) * den ->
  10 ^ 16 * (den * dec_num 1 k) <= num * dec_den k ->
  0 < c ->
  - (den * dec_num 1 k) <= 2 * (c * (den * dec_num 1 k) - num * dec_den k)
    <= den * dec_num 1 k ->
  float_of_decimal false (Z.to_N c) k = S754_finite false m e.
Proof.
  intros B Hden R A Hc C.
  rewrite float_of_decimal_ratio by exact Hc.
  unfold round_ratio. rewrite dec_num_1.
  destruct (bounded_spec m e B) as (He & Hm & _).
  pose proof (dec_num_pos 1 k ltac:(lia)) as HP.
  pose proof (dec_den_pos k) as HQ.
  pose proof (pow_pos_2 1074 ltac:(lia)) as HT.
  pose proof (pow_pos_2 (e + 1074) ltac:(lia)) as HS.
  set (P := dec_num 1 k) in *. set (Q := dec_den k) in *.
  set (T := 2 ^ 1074) in *. set (S2 := 2 ^ (e + 1074)) in *.
  set (M := Zpos m) in *.
  assert (HW : 0 < P * T) by (now apply Z.mul_pos_pos).
  assert (Hh : 0 < S2 * Q) by (now apply Z.mul_pos_pos).
  assert (RQ : num * Q * T = (M * (S2 * Q)) * den) by (rewrite <- Z.mul_assoc, (Z.mul_comm Q T), Z.mul_assoc, R; ring).
  assert (A' : 10 ^ 16 * (P * T) <= M * (S2 * Q)).
  { apply (mul_le_cancel _ _ den Hden).
    assert (10 ^ 16 * (den * P) * T <= num * Q * T)
      by (apply Z.mul_le_mono_nonneg_r; lia).
    rewrite <- RQ. lia. }
  assert (C1 : - (P * T) <= 2 * (c * (P * T) - M * (S2 * Q))).
  { apply (mul_le_cancel _ _ den Hden).
    assert (- (den * P) * T <= 2 * (c * (den * P) - num * Q) * T)
      by (apply Z.mul_le_mono_nonneg_r; lia).
    lia. }
  assert (C2 : 2 * (c * (P * T) - M * (S2 * Q)) <= P * T).
  { apply (mul_le_cancel _ _ den Hden).
    assert (2 * (c * (den * P) - num * Q) * T <= den * P * T)
      by (apply Z.mul_le_mono_nonneg_r; lia).
    lia. }
  assert (Mh : M * (S2 * Q) + S2 * Q <= 2 ^ 53 * (S2 * Q)).
  { replace (M * (S2 * Q) + S2 * Q) with ((M + 1) * (S2 * Q)) by ring.
    apply Z.mul_le_mono_nonneg_r; lia. }
  set (W := P * T) in *. set (h := S2 * Q) in *.
  apply round_near; try assumption.
  - replace (c * P * T) with (c * W) by (unfold W; ring).
    now apply Z.mul_pos_pos.
  - fold S2. fold h. replace (c * P * T) with (c * W) by (unfold W; ring). lia.
  - fold S2. fold h. replace (c * P * T) with (c * W) by (unfold W; ring). lia.
  - intros Em _. fold S2. fold h.
    replace (c * P * T) with (c * W) by (unfold W; ring).
    fold M in Em. rewrite Em in *. lia.
Qed.

Lemma shortest_at_none f num den decpt n :
  0 < num -> 0 < den ->
  shortest_at f num den decpt n = None ->
  SFcompare
    (float_of_decimal false
       (Z.to_N (num * dec_den (decpt - n) / (den * dec_num 1 (decpt - n))))
       (decpt - n)) f <> Some Eq
  /\ SFcompare
       (float_of_decimal false
          (Z.to_N (num * dec_den (decpt - n) / (den * dec_num 1 (decpt - n)) + 1))
          (decpt - n)) f <> Some Eq.
Proof.
  intros Hn Hd. unfold shortest_at. cbv zeta.
  pose proof (dec_num_pos 1 (decpt - n) ltac:(lia)) as HP.
  pose proof (dec_den_pos (decpt - n)) as HQ.
  set (k := decpt - n) in *.
  assert (Ex : (if 0 <=? k then num else num * pow10 (- k)) = num * dec_den k).
  { unfold dec_den, pow10. destruct (0 <=? k); ring. }
  assert (Ey : (if 0 <=? k then den * pow10 k else den) = den * dec_num 1 k).
  { unfold dec_num, pow10. destruct (0 <=? k); ring. }
  rewrite Ex, Ey.
  set (x := num * dec_den k). set (y := den * dec_num 1 k).
  assert (Q : 0 <= x / y).
  { apply Z.div_pos; unfold x, y; [apply Z.lt_le_incl|]; now apply Z.mul_pos_pos. }
  replace (Z.to_N (x / y + 1)) with (N.succ (Z.to_N (x / y)))
    by (rewrite <- Z2N.inj_succ by exact Q; reflexivity).
  destruct (SFcompare (float_of_decimal false (Z.to_N (x / y)) k) f)
    as [[]|];
  destruct (SFcompare (float_of_decimal false (N.succ (Z.to_N (x / y))) k) f)
    as [[]|];
  try destruct (2 * (x mod y) ?= y); intros H; try discriminate H;
  split; discriminate.
Qed.

Lemma shortest_at_some f num den decpt n d k :
  shortest_at f num den decpt n = Some (d, k) ->
  SFcompare (float_of_decimal false d k) f = Some Eq.
Proof.
  unfold shortest_at. cbv zeta.
  set (x := if 0 <=? decpt - n then num else num * pow10 (- (decpt - n))).
  set (y := if 0 <=? decpt - n then den * pow10 (decpt - n) else den).
  destruct (SFcompare (float_of_decimal false (Z.to_N (x / y)) (decpt - n)) f)
    as [[]|] eqn:E1;
  destruct (SFcompare (float_of_decimal false (N.succ (Z.to_N (x / y))) (decpt - n)) f)
    as [[]|] eqn:E2;
  try destruct (2 * (x mod y) ?= y); try destruct (N.even (Z.to_N (x / y)));
  intros H; try discriminate H; injection H as <- <-; assumption.
Qed.

Lemma shortest_from_some fuel f num den decpt : forall n d k,
  shortest_from fuel f num den decpt n = Some (d, k) ->
  SFcompare (float_of_decimal false d k) f = Some Eq.
Proof.
  induction fuel as [|fuel IH]; intros n d k; [discriminate|].
  cbn [shortest_from].
  destruct (shortest_at f num den decpt n) as [[d' k']|] eqn:E.
  - intros H. injection H as <- <-. now apply shortest_at_some in E.
  - apply IH.
Qed.

Lemma shortest_from_reaches fuel f num den decpt : forall n j,
  (j < fuel)%nat ->
  shortest_at f num den decpt (n + Z.of_nat j) <> None ->
  shortest_from fuel f num den decpt n <> None.
Proof.
  induction fuel as [|fuel IH]; intros n j Hj H; [lia|].
  cbn [shortest_from].
  destruct (shortest_at f num den decpt n) as [r|] eqn:E; [discriminate|].
  destruct j as [|j].
  - rewrite Z.add_0_r in H. contradiction.
  - apply (IH (n + 1) j); [lia|].
    replace (n + 1 + Z.of_nat j) with (n + Z.of_nat (S j)) by lia. exact H.
Qed.

(** The ratio the shortest search works on. *)
Lemma repr_ratio m e :
  -1074 <= e ->
  let num := if 0 <=? e then Zpos m * 2 ^ e else Zpos m in
  let den := if 0 <=? e then 1 else 2 ^ (- e) in
  0 < num /\ 0 < den /\ den <= num * 10 ^ 400
  /\ num * 2 ^ 1074 = Zpos m * 2 ^ (e + 1074) * den.
Proof.
  intros He. cbv zeta. destruct (Z.leb_spec 0 e) as [E|E].
  - pose proof (pow_pos_2 e E). pose proof (pow_pos_10 400 ltac:(lia)).
    assert (0 < Zpos m * 2 ^ e) by (apply Z.mul_pos_pos; lia).
    assert (0 < Zpos m * 2 ^ e * 10 ^ 400) by (apply Z.mul_pos_pos; lia).
    split; [lia|]. split; [lia|]. split; [lia|].
    rewrite Z.pow_add_r by lia. ring.
  - pose proof (pow_pos_2 (- e) ltac:(lia)).
    split; [lia|]. split; [lia|]. split.
    + assert (2 ^ (- e) <= 2 ^ 1074) by (apply Z.pow_le_mono_r; lia).
      assert (2 ^ 1074 <= 10 ^ 400) by (apply Z.leb_le; vm_compute; reflexivity).
      assert (1 * 10 ^ 400 <= Zpos m * 10 ^ 400)
        by (apply Z.mul_le_mono_nonneg_r; lia).
      lia.
    + rewrite <- Z.mul_assoc, <- Z.pow_add_r by lia.
      do 2 f_equal. lia.
Qed.

Lemma shortest_at_17 m e :
  bounded prec emax m e = true ->
  let num := if 0 <=? e then Zpos m * 2 ^ e else Zpos m in
  let den := if 0 <=? e then 1 else 2 ^ (- e) in
  shortest_at (S754_finite false m e) num den (decpt_of num den) 17 <> None.
Proof.
  intros B num den.
  destruct (bounded_spec m e B) as (He & _ & _).
  destruct (repr_ratio m e ltac:(lia)) as (Hn & Hd & H400 & R).
  fold num in Hn, H400, R. fold den in Hd, H400, R.
  pose proof (decpt_of_lower num den Hn Hd H400) as L.
  set (p := decpt_of num den) in *.
  intros None17.
  destruct (shortest_at_none _ _ _ _ _ Hn Hd None17) as [Nlo Nhi].
  set (k := p - 17) in *.
  pose proof (dec_num_pos 1 k ltac:(lia)) as HP.
  pose proof (dec_den_pos k) as HQ.
  pose proof (dec_num_pos 1 (p - 1) ltac:(lia)) as HP16.
  pose proof (dec_den_pos (p - 1)) as HQ16.
  pose proof (dec_cross 1 (p - 1) 16 ltac:(lia)) as X.
  replace (p - 1 - 16) with k in X by (unfold k; lia).
  rewrite (dec_num_1 (1 * 10 ^ 16) k) in X.
  set (P := dec_num 1 k) in *. set (Q := dec_den k) in *.
  set (P16 := dec_num 1 (p - 1)) in *. set (Q16 := dec_den (p - 1)) in *.
  assert (A : 10 ^ 16 * (den * P) <= num * Q).
  { apply (mul_le_cancel _ _ Q16 HQ16).
    assert (P16 * den * Q <= num * Q16 * Q)
      by (apply Z.mul_le_mono_nonneg_r; lia).
    replace (10 ^ 16 * (den * P) * Q16) with (1 * 10 ^ 16 * P * Q16 * den) by ring.
    rewrite X. lia. }
  set (x := num * Q) in *. set (y := den * P) in *.
  assert (Hy : 0 < y) by (now apply Z.mul_pos_pos).
  assert (Hlo : 10 ^ 16 <= x / y) by (apply Z.div_le_lower_bound; lia).
  pose proof (Z.div_mod x y ltac:(lia)) as D.
  pose proof (Z.mod_pos_bound x y Hy) as Rb.
  destruct (Z_le_gt_dec (2 * (x mod y)) y) as [Near|Far].
  - apply Nlo. fold P Q x y.
    rewrite (candidate_rounds m e num den k (x / y) B Hd R A); try lia.
    apply SFcompare_refl.
  - apply Nhi. fold P Q x y.
    rewrite (candidate_rounds m e num den k (x / y + 1) B Hd R A); try lia.
    apply SFcompare_refl.
Qed.


(** *** Trailing zeros *)

Lemma strip_zeros_same neg fuel : forall d k d' k',
  strip_zeros fuel d k = (d', k') -> d <> 0%N ->
  d' <> 0%N /\ float_of_decimal neg d' k' = float_of_decimal neg d k.
Proof.
  induction fuel as [|fuel IH]; intros d k d' k' H Hd; cbn [strip_zeros] in H.
  - injection H as <- <-. now split.
  - destruct (N.eqb_spec d 0) as [E|_]; [contradiction|]. cbn [negb andb] in H.
    destruct (N.eqb_spec (d mod 10) 0) as [E|E].
    + assert (D : d = (10 * (d / 10))%N).
      { rewrite (N.div_mod d 10) at 1 by discriminate. rewrite E. lia. }
      assert (Q : (d / 10)%N <> 0%N) by lia.
      destruct (IH _ _ _ _ H Q) as [A B]. split; [exact A|].
      rewrite B.
      pose proof (float_of_decimal_zeros neg (Z.of_N (d / 10)) (k + 1) 1
                    ltac:(lia) ltac:(lia)) as Z.
      rewrite N2Z.id in Z. rewrite <- Z. f_equal; [|lia].
      change (10 ^ 1) with 10. lia.
    + injection H as <- <-. now split.
Qed.

(** *** The text of a float *)


Lemma text_app u v : NilEmpty.string_of_uint (Decimal.app u v) = NilEmpty.string_of_uint u ++ NilEmpty.string_of_uint v.
Proof.
  rewrite <- (DecimalFacts.of_list_to_list (Decimal.app u v)),
    DecimalFacts.app_spec.
  rewrite <- (DecimalFacts.of_list_to_list u) at 2.
  rewrite <- (DecimalFacts.of_list_to_list v) at 2.
  induction (DecimalFacts.to_list u) as [|d l IH]; [reflexivity|].
  destruct d; cbn; now rewrite IH.
Qed.

Lemma text_length u : String.length (NilEmpty.string_of_uint u) = Decimal.nb_digits u.
Proof. induction u; cbn; congruence. Qed.

Lemma scan_digits_text u rest :
  no_digit_head rest -> scan_digits (NilEmpty.string_of_uint u ++ rest) = (u, rest).
Proof.
  intros H.
  now rewrite (scan_digits_ext (NilEmpty.string_of_uint u) u EmptyString rest (scan_digits_dump u) H).
Qed.

Lemma scan_int_part_text u rest :
  head_nonzero u = true -> no_digit_head rest ->
  scan_int_part (NilEmpty.string_of_uint u ++ rest) = Some (u, rest).
Proof.
  intros H Hr.
  destruct u; try discriminate H; cbn [NilEmpty.string_of_uint append];
    unfold scan_int_part; cbn; now rewrite scan_digits_text.
Qed.

Lemma scan_frac_text u rest :
  u <> Decimal.Nil -> no_digit_head rest ->
  scan_frac (String "." (NilEmpty.string_of_uint u ++ rest)) = (Some u, rest).
Proof.
  intros H Hr.
  destruct u; try contradiction; cbn [NilEmpty.string_of_uint append];
    unfold scan_frac; cbn; now rewrite scan_digits_text.
Qed.

Lemma scan_exp_digits_text neg u whole :
  u <> Decimal.Nil ->
  scan_exp_digits neg (NilEmpty.string_of_uint u) whole = (Some (neg, u), EmptyString).
Proof.
  intros H.
  destruct u; try contradiction; cbn [NilEmpty.string_of_uint];
    unfold scan_exp_digits; cbn; now rewrite scan_digits_dump.
Qed.

Lemma to_uint_not_nil n : N.to_uint n <> Decimal.Nil.
Proof.
  intros E. pose proof (DecimalN.Unsigned.to_of (N.to_uint n)) as H.
  rewrite DecimalN.Unsigned.of_to, E in H. discriminate H.
Qed.

(** The exponent [repr] writes reads back. *)
Lemma scan_exp_text z :
  exists ue,
    scan_exp (String "e" (dump_exponent z)) = (Some (z <? 0, ue), EmptyString)
    /\ cond_Zopp (z <? 0) (Z.of_N (N.of_uint ue)) = z.
Proof.
  unfold dump_exponent.
  set (a := N.to_uint (Z.to_N (Z.abs z))).
  set (ub := if Z.abs z <? 10 then Decimal.D0 a else a).
  assert (Eb : (if Z.abs z <? 10 then "0" ++ dump_nat (Z.to_N (Z.abs z))
                else dump_nat (Z.to_N (Z.abs z))) = NilEmpty.string_of_uint ub).
  { unfold ub, dump_nat. fold a. destruct (Z.abs z <? 10); reflexivity. }
  rewrite Eb.
  assert (Hub : ub <> Decimal.Nil).
  { unfold ub. destruct (Z.abs z <? 10); [discriminate | apply to_uint_not_nil]. }
  assert (Vb : N.of_uint ub = Z.to_N (Z.abs z)).
  { unfold ub. destruct (Z.abs z <? 10);
      [change (N.of_uint (Decimal.D0 a)) with (N.of_uint a)|];
      apply DecimalN.Unsigned.of_to. }
  exists ub. split.
  - destruct (z <? 0); cbn [append]; unfold scan_exp; cbn;
      now apply scan_exp_digits_text.
  - rewrite Vb, Z2N.id by lia.
    destruct (Z.ltb_spec z 0); cbn [cond_Zopp]; lia.
Qed.

Lemma app_cons_list u v :
  Decimal.app u v
  = DecimalFacts.of_list (DecimalFacts.to_list u ++ DecimalFacts.to_list v)%list.
Proof.
  apply DecimalFacts.to_list_inj.
  now rewrite DecimalFacts.app_spec, DecimalFacts.to_list_of_list.
Qed.

Lemma substring_all s : String.substring 0 (String.length s) s = s.
Proof. induction s as [|c s IH]; cbn; [reflexivity | now rewrite IH]. Qed.

Lemma substring_none s : String.substring 0 0 s = EmptyString.
Proof. destruct s; reflexivity. Qed.

(** Cutting the digits at a place cuts their text there. *)
Lemma text_split u : forall a,
  (a <= Decimal.nb_digits u)%nat ->
  exists u1 u2,
    Decimal.app u1 u2 = u
    /\ Decimal.nb_digits u1 = a
    /\ Decimal.nb_digits u2 = (Decimal.nb_digits u - a)%nat
    /\ String.substring 0 a (NilEmpty.string_of_uint u) = NilEmpty.string_of_uint u1
    /\ String.substring a (String.length (NilEmpty.string_of_uint u) - a) (NilEmpty.string_of_uint u) = NilEmpty.string_of_uint u2.
Proof.
  induction u as [|u IHu|u IHu|u IHu|u IHu|u IHu|u IHu|u IHu|u IHu|u IHu|u IHu];
    intros a Ha;
    (destruct a as [|a];
     [ match goal with
       | |- exists u1 u2, Decimal.app u1 u2 = ?U /\ _ => exists Decimal.Nil, U
       end;
       rewrite !Nat.sub_0_r, substring_none, substring_all;
       repeat split; reflexivity
     | try (cbn in Ha; lia) ]);
    (cbn [Decimal.nb_digits] in Ha;
     destruct (IHu a ltac:(lia)) as (u1 & u2 & E & N1 & N2 & S1 & S2));
    match goal with
       | |- context [NilEmpty.string_of_uint (?D u)] =>
           exists (D u1), u2; repeat split;
           [ rewrite app_cons_list; cbn [DecimalFacts.to_list List.app DecimalFacts.of_list];
             rewrite <- app_cons_list; now rewrite E
           | cbn [Decimal.nb_digits]; now rewrite N1
           | cbn [Decimal.nb_digits Nat.sub]; exact N2
           | cbn [NilEmpty.string_of_uint String.substring]; now rewrite S1
           | cbn [NilEmpty.string_of_uint String.substring String.length Nat.sub];
             exact S2 ]
       end.
Qed.

Lemma head_nonzero_left u1 u2 :
  head_nonzero (Decimal.app u1 u2) = true -> u1 <> Decimal.Nil ->
  head_nonzero u1 = true.
Proof.
  intros H Hn. destruct u1; try contradiction; try reflexivity.
  rewrite app_cons_list in H. discriminate H.
Qed.

Lemma head_nonzero_app u v :
  head_nonzero u = true -> head_nonzero (Decimal.app u v) = true.
Proof.
  intros H. rewrite app_cons_list. destruct u; try discriminate H; reflexivity.
Qed.

Lemma nb_digits_not_nil u : (1 <= Decimal.nb_digits u)%nat -> u <> Decimal.Nil.
Proof. intros H ->. cbn in H. lia. Qed.

Lemma to_uint_head_nonzero n : n <> 0%N -> head_nonzero (N.to_uint n) = true.
Proof.
  intros Hn. destruct (to_uint_first n Hn) as (d & l & E & Hd).
  destruct (N.to_uint n); try discriminate E; try reflexivity.
  cbn in E. injection E as <- _. cbn in Hd. lia.
Qed.

Lemma zeros_text n : zeros n = NilEmpty.string_of_uint (Nat.iter (Z.to_nat n) Decimal.D0 Decimal.Nil).
Proof.
  unfold zeros. induction (Z.to_nat n) as [|j IH]; [reflexivity|].
  change (Nat.iter (S j) Decimal.D0 Decimal.Nil)
    with (Decimal.D0 (Nat.iter j Decimal.D0 Decimal.Nil)).
  change (repeat "0" (S j)) with ("0" :: repeat "0" j)%list.
  cbn [NilEmpty.string_of_uint]. rewrite <- IH.
  destruct j; reflexivity.
Qed.

Lemma to_list_zeros j :
  DecimalFacts.to_list (Nat.iter j Decimal.D0 Decimal.Nil)
  = repeat DecimalFacts.d0 j.
Proof.
  induction j as [|j IH]; [reflexivity|].
  change (Nat.iter (S j) Decimal.D0 Decimal.Nil)
    with (Decimal.D0 (Nat.iter j Decimal.D0 Decimal.Nil)).
  cbn [DecimalFacts.to_list repeat]. now rewrite IH.
Qed.

Lemma list_value_zeros j : forall acc,
  list_value acc (repeat DecimalFacts.d0 j) = acc * 10 ^ Z.of_nat j.
Proof.
  induction j as [|j IH]; intros acc.
  - cbn. lia.
  - cbn [repeat list_value digit_value]. rewrite IH.
    rewrite Nat2Z.inj_succ, Z.pow_succ_r by lia. ring.
Qed.

Lemma of_uint_to_N u : N.of_uint u = Z.to_N (list_value 0 (DecimalFacts.to_list u)).
Proof. now rewrite <- of_uint_value, N2Z.id. Qed.

Lemma to_uint_value n :
  list_value 0 (DecimalFacts.to_list (N.to_uint n)) = Z.of_N n.
Proof. now rewrite <- of_uint_value, DecimalN.Unsigned.of_to. Qed.

Lemma scan_unsigned_head neg t tok r :
  scan_unsigned neg t = Some (tok, r) ->
  exists c t', t = String c t' /\ is_digit c = true.
Proof.
  destruct t as [|c t]; [discriminate|].
  intros H. exists c, t. split; [reflexivity|].
  destruct (is_digit c) eqn:E; [reflexivity|].
  exfalso. unfold scan_unsigned, scan_int_part in H.
  ascii_cases c; try discriminate E; discriminate H.
Qed.

Lemma scan_number_signed (neg : bool) t tok :
  scan_unsigned neg t = Some (tok, EmptyString) ->
  scan_number ((if neg then "-" else EmptyString) ++ t) = Some (tok, EmptyString).
Proof.
  intros H. destruct neg; cbn [append]; [exact H|].
  destruct (scan_unsigned_head _ _ _ _ H) as (c & t' & -> & Hc).
  now rewrite scan_number_digit.
Qed.


Lemma nb_digits_app u v :
  Decimal.nb_digits (Decimal.app u v)
  = (Decimal.nb_digits u + Decimal.nb_digits v)%nat.
Proof.
  now rewrite !DecimalFacts.nb_digits_spec, DecimalFacts.app_spec, List.length_app.
Qed.

Lemma nb_digits_zeros j :
  Decimal.nb_digits (Nat.iter j Decimal.D0 Decimal.Nil) = j.
Proof.
  now rewrite DecimalFacts.nb_digits_spec, to_list_zeros, List.repeat_length.
Qed.

Lemma scan_frac_text_end u :
  u <> Decimal.Nil ->
  scan_frac (String "." (NilEmpty.string_of_uint u)) = (Some u, EmptyString).
Proof.
  intros H. rewrite <- (append_nil_r (NilEmpty.string_of_uint u)).
  now apply scan_frac_text.
Qed.

(** What [repr] lays out for the digits [d] and the exponent [k] reads
    back as a float token for the decimal [d * 10^k]. *)
Lemma layout_reads neg d k :
  d <> 0%N ->
  exists t,
    scan_unsigned neg
      (layout (dump_nat d) (Z.of_nat (String.length (dump_nat d)) + k))
    = Some (t, EmptyString)
    /\ is_float_token t = true
    /\ float_of_token t = float_of_decimal neg d k.
Proof.
  intros Hd. unfold dump_nat. set (u := N.to_uint d).
  pose proof (to_uint_head_nonzero d Hd) as Hu. fold u in Hu.
  pose proof (to_uint_value d) as Vu. fold u in Vu.
  pose proof (DecimalN.Unsigned.of_to d) as Ou. fold u in Ou.
  unfold layout. rewrite !text_length. set (n := Decimal.nb_digits u).
  assert (Hn : (1 <= n)%nat).
  { unfold n. destruct u; try discriminate Hu; cbn; lia. }
  set (dp := Z.of_nat n + k).
  destruct ((dp <=? -4) || (16 <? dp))%bool eqn:Eexp.
  - (* exponent form *)
    destruct (text_split u 1 Hn) as (u1 & u2 & E & N1 & N2 & S1 & S2).
    rewrite text_length in S2. fold n in S2, N2. rewrite S1.
    destruct (scan_exp_text (dp - 1)) as (ue & Ex & Ve).
    assert (H1 : head_nonzero u1 = true).
    { apply (head_nonzero_left u1 u2); [now rewrite E|].
      apply nb_digits_not_nil. lia. }
    destruct (Z.ltb_spec 1 (Z.of_nat n)) as [L|L].
    + rewrite S2. cbn [append]. unfold scan_unsigned.
      rewrite scan_int_part_text by (try exact H1; reflexivity).
      rewrite scan_frac_text
        by (try reflexivity; apply nb_digits_not_nil; lia).
      rewrite Ex. eexists. split; [reflexivity|]. split; [reflexivity|].
      unfold float_of_token. cbn [tok_neg tok_int tok_frac tok_exp].
      rewrite E, Ou, Ve. unfold uint_length. rewrite N2. f_equal. lia.
    + assert (U2 : u2 = Decimal.Nil)
        by (apply DecimalFacts.nb_digits_0; lia).
      subst u2. rewrite DecimalFacts.app_nil_r in E. subst u1.
      cbn [append]. unfold scan_unsigned.
      rewrite scan_int_part_text by (try exact Hu; reflexivity).
      replace (scan_frac (String "e" (dump_exponent (dp - 1))))
        with (@None Decimal.uint, String "e" (dump_exponent (dp - 1)))
        by reflexivity.
      rewrite Ex. eexists. split; [reflexivity|]. split; [reflexivity|].
      unfold float_of_token. cbn [tok_neg tok_int tok_frac tok_exp].
      rewrite DecimalFacts.app_nil_r, Ou, Ve. f_equal.
      cbn [uint_length Decimal.nb_digits]. lia.
  - apply orb_false_iff in Eexp. destruct Eexp as [E4 E16].
    apply Z.leb_gt in E4. apply Z.ltb_ge in E16.
    destruct (Z.leb_spec dp 0) as [L0|L0].
    + (* zeros behind the point *)
      rewrite zeros_text, <- text_app. cbn [append].
      set (zs := Nat.iter (Z.to_nat (- dp)) Decimal.D0 Decimal.Nil).
      unfold scan_unsigned.
      replace (scan_int_part
                 (String "0" (String "." (NilEmpty.string_of_uint (Decimal.app zs u)))))
        with (Some (Decimal.D0 Decimal.Nil,
                    String "." (NilEmpty.string_of_uint (Decimal.app zs u))))
        by reflexivity.
      rewrite scan_frac_text_end.
      2:{ apply nb_digits_not_nil. rewrite nb_digits_app. fold n. lia. }
      eexists. split; [reflexivity|]. split; [reflexivity|].
      unfold float_of_token. cbn [tok_neg tok_int tok_frac tok_exp].
      f_equal.
      * rewrite of_uint_to_N, !DecimalFacts.app_spec.
        unfold zs. rewrite to_list_zeros. cbn [DecimalFacts.to_list List.app].
        cbn [list_value digit_value]. change (10 * 0 + 0) with 0.
        rewrite list_value_app, list_value_zeros, Z.mul_0_l, Vu.
        now rewrite N2Z.id.
      * unfold uint_length. rewrite nb_digits_app. unfold zs.
        rewrite nb_digits_zeros. fold n. lia.
    + destruct (Z.ltb_spec dp (Z.of_nat n)) as [Ln|Ln].
      * (* the point between the digits *)
        destruct (text_split u (Z.to_nat dp) ltac:(fold n; lia))
          as (u1 & u2 & E & N1 & N2 & S1 & S2).
        rewrite text_length in S2. fold n in S2, N2. rewrite S1, S2.
        cbn [append]. unfold scan_unsigned.
        rewrite scan_int_part_text; try reflexivity.
        2:{ apply (head_nonzero_left u1 u2); [now rewrite E|].
            apply nb_digits_not_nil. lia. }
        rewrite scan_frac_text_end by (apply nb_digits_not_nil; lia).
        eexists. split; [reflexivity|]. split; [reflexivity|].
        unfold float_of_token. cbn [tok_neg tok_int tok_frac tok_exp].
        rewrite E, Ou. unfold uint_length. rewrite N2. f_equal. lia.
      * (* zeros before the point *)
        rewrite zeros_text.
        set (zs := Nat.iter (Z.to_nat (dp - Z.of_nat n)) Decimal.D0 Decimal.Nil).
        rewrite <- append_assoc, <- text_app. cbn [append].
        unfold scan_unsigned.
        rewrite scan_int_part_text;
          [|now apply head_nonzero_app|reflexivity].
        replace (scan_frac ".0")
          with (Some (Decimal.D0 Decimal.Nil), EmptyString) by reflexivity.
        eexists. split; [reflexivity|]. split; [reflexivity|].
        unfold float_of_token. cbn [tok_neg tok_int tok_frac tok_exp].
        rewrite of_uint_to_N, !DecimalFacts.app_spec.
        unfold zs. rewrite to_list_zeros.
        rewrite !list_value_app, Vu, list_value_zeros.
        cbn [DecimalFacts.to_list list_value digit_value uint_length Decimal.nb_digits].
        rewrite Z2Nat.id by lia.
        replace (0 - Z.of_nat 1) with (k - (k + 1)) by lia.
        replace (10 * (Z.of_N d * 10 ^ (dp - Z.of_nat n)) + 0)
          with (Z.of_N d * 10 ^ (k + 1)).
        -- rewrite float_of_decimal_zeros by lia. now rewrite N2Z.id.
        -- replace (dp - Z.of_nat n) with k by (unfold dp; lia).
           rewrite Z.pow_add_r by (unfold dp in *; lia).
           change (10 ^ 1) with 10. ring.
Qed.


(** *** Every float reads back from its [repr] *)

Lemma float_same_refl f : float_same f f = true.
Proof.
  destruct f as [s|s| |s m e]; cbn; try reflexivity;
    rewrite ?Bool.eqb_reflx, ?Pos.eqb_refl, ?Z.eqb_refl; reflexivity.
Qed.

(** [float_repr] finds digits, and [float] gives the float back from
    the text it lays out for them. *)
Lemma float_text_ok_finite s m e :
  bounded prec emax m e = true -> float_text_ok (S754_finite s m e) = true.
Proof.
  intros B. unfold float_text_ok, float_repr.
  set (num := if 0 <=? e then Zpos m * 2 ^ e else Zpos m).
  set (den := if 0 <=? e then 1 else 2 ^ (- e)).
  destruct (shortest_from 17 (S754_finite false m e) num den
              (decpt_of num den) 1) as [[d k]|] eqn:E.
  - apply shortest_from_some, SFcompare_eq in E.
    assert (Hd : d <> 0%N) by (intros ->; discriminate E).
    destruct (strip_zeros 17 d k) as [d' k'] eqn:Es.
    destruct (strip_zeros_same s 17 d k d' k' Es Hd) as [Hd' Same].
    assert (F : float_of_decimal s d' k' = S754_finite s m e).
    { rewrite Same. destruct s; [|exact E].
      now rewrite float_of_decimal_sign, E. }
    destruct (layout_reads s d' k' Hd') as (t & Scan & Tok & Val).
    rewrite (scan_number_signed s _ t Scan), Tok, Val, F.
    apply float_same_refl.
  - exfalso. revert E.
    apply (shortest_from_reaches 17 _ num den (decpt_of num den) 1 16);
      [lia|].
    now apply shortest_at_17.
Qed.

(** Every binary64 number reads back from the text [json.dump] writes
    for it. *)
Lemma float_text_ok_valid f :
  valid_binary prec emax f = true -> float_text_ok f = true.
Proof.
  destruct f as [s|s| |s m e]; intros H.
  - destruct s; reflexivity.
  - reflexivity.
  - reflexivity.
  - now apply float_text_ok_finite.
Qed.

End FloatFacts.

(** ** Facts about the values the program can write *)

Lemma storable_at_json_ok v : forall slack room,
  storable_at slack room v = true -> json_ok v = true.
Proof.
  induction v as [|b|z|f|s|l IHl|d IHd] using JsonFacts.value_nested_ind;
    intros slack room H; try reflexivity.
  - cbn [storable_at] in H. cbn [json_ok].
    now apply FloatFacts.float_text_ok_valid.
  - destruct room as [|room]; [discriminate H|]. cbn [storable_at] in H.
    cbn [json_ok]. revert H.
    induction IHl as [|x l Px Pl IH]; intros H; [reflexivity|].
    cbn [forallb] in H |- *. apply andb_true_iff in H. destruct H as [Hx H].
    rewrite (Px _ _ Hx). exact (IH H).
  - destruct room as [|room]; [discriminate H|]. cbn [storable_at] in H.
    apply andb_true_iff in H. destruct H as [Hk H].
    cbn [json_ok]. rewrite Hk. cbn [andb]. clear Hk. revert H.
    induction IHd as [|[k x] d Px Pd IH]; intros H; [reflexivity|].
    cbn [forallb fst snd] in H, Px |- *. apply andb_true_iff in H.
    destruct H as [Hx H]. apply andb_true_iff in Hx. destruct Hx as [_ Hx].
    rewrite (Px _ _ Hx). exact (IH H).
Qed.

Lemma storable_json_ok v : storable v = true -> json_ok v = true.
Proof. apply storable_at_json_ok. Qed.

(** ** Facts about the commands *)

Local Open Scope string_scope.
Local Open Scope Z_scope.

Lemma load_data_world w : snd (load_data w) = w.
Proof. unfold load_data. now destruct (DATA_FILE w). Qed.

Lemma loads_as_run file data :
  loads_as file data -> load_data (start file) = (Ok data, start file).
Proof.
  unfold loads_as. intros H.
  rewrite (surjective_pairing (load_data (start file))).
  now rewrite H, load_data_world.
Qed.

(** A lookup that finds nothing: the command prints its message and
    returns; the file, the module global and the exit status are those
    of a run that did nothing else. *)
Lemma not_found_run c file data pid :
  looks_up c = Some pid -> loads_as file data ->
  find_project (doc data) pid = Ok None ->
  invoke c file =
  (Ok tt, {| DEFAULT_DATA := DEFAULT_DATA (start file);
             DATA_FILE := file;
             stdout := [ProjectNotFound pid] |}).
Proof.
  intros Hc Hl Hf. apply loads_as_run in Hl.
  destruct c as [a|a|a|a|a|]; cbn [looks_up] in Hc; try discriminate Hc;
    unfold invoke, main.
  - injection Hc as <-.
    unfold cmd_project_detail, bind. rewrite Hl. unfold lift. now rewrite Hf.
  - injection Hc as <-.
    unfold cmd_task_add, bind. rewrite Hl. unfold lift. now rewrite Hf.
  - unfold cmd_material_add, bind. rewrite Hl, Hc. unfold lift. now rewrite Hf.
Qed.

(** *** Dictionaries *)

Lemma lookup_store_same k v d : lookup k (store k v d) = Some v.
Proof.
  induction d as [|[k' v'] d IH]; cbn [store lookup].
  - now rewrite String.eqb_refl.
  - destruct (String.eqb_spec k k') as [->|Hk]; cbn [lookup].
    + now rewrite String.eqb_refl.
    + destruct (String.eqb_spec k k'); [contradiction | exact IH].
Qed.

Lemma lookup_store_other k k' v d :
  k' <> k -> lookup k' (store k v d) = lookup k' d.
Proof.
  intros Hk. induction d as [|[k0 v0] d IH]; cbn [store lookup].
  - destruct (String.eqb_spec k' k); [contradiction | reflexivity].
  - destruct (String.eqb_spec k k0) as [->|H0]; cbn [lookup].
    + destruct (String.eqb_spec k' k0); [contradiction | reflexivity].
    + now rewrite IH.
Qed.

Lemma lookup_in k d : lookup k d = None -> ~ In k (keys d).
Proof.
  induction d as [|[k' v'] d IH]; cbn [lookup keys map fst]; [tauto|].
  destruct (String.eqb_spec k k') as [->|Hk]; [discriminate|].
  intros H [E|Hin]; [now subst | now apply IH].
Qed.

Lemma lookup_some_in k d v : lookup k d = Some v -> In (k, v) d.
Proof.
  induction d as [|[k' v'] d IH]; cbn [lookup]; [discriminate|].
  destruct (String.eqb_spec k k') as [->|Hk].
  - intros [= ->]. now left.
  - intros H. right. now apply IH.
Qed.

(** Storing under a key that is there keeps the keys as they are. *)
Lemma keys_store_present k v d x :
  lookup k d = Some x -> keys (store k v d) = keys d.
Proof.
  induction d as [|[k' v'] d IH]; cbn [lookup store]; [discriminate|].
  destruct (String.eqb_spec k k') as [->|Hk]; [reflexivity|].
  intros H. cbn [keys map fst]. f_equal. now apply IH.
Qed.

Lemma store_absent k v d :
  lookup k d = None -> store k v d = (d ++ [(k, v)])%list.
Proof. intros H. apply JsonFacts.store_fresh. now apply lookup_in. Qed.

Lemma distinct_app_fresh ks k :
  distinct ks = true -> ~ In k ks -> distinct (ks ++ [k]) = true.
Proof.
  induction ks as [|k' ks IH]; intros Hd Hk; [reflexivity|].
  cbn [distinct app] in Hd |- *. apply andb_true_iff in Hd.
  destruct Hd as [Hh Hd]. apply andb_true_iff. split.
  - apply negb_true_iff. apply negb_true_iff in Hh.
    rewrite existsb_app, Hh. cbn.
    destruct (String.eqb_spec k' k) as [->|]; [|reflexivity].
    exfalso. apply Hk. now left.
  - apply IH; [exact Hd|]. intros Hin. apply Hk. now right.
Qed.

Lemma json_ok_lookup k d v :
  json_ok (VDict d) = true -> lookup k d = Some v -> json_ok v = true.
Proof.
  cbn [json_ok]. intros H Hl. apply andb_true_iff in H. destruct H as [_ H].
  rewrite forallb_forall in H. apply lookup_some_in in Hl. exact (H _ Hl).
Qed.

Lemma forallb_store (ok : value -> bool) k v d :
  forallb (fun kv => ok (snd kv)) d = true -> ok v = true ->
  forallb (fun kv => ok (snd kv)) (store k v d) = true.
Proof.
  intros Hd Hv. induction d as [|[k' v'] d IH]; cbn [store forallb snd].
  - now rewrite Hv.
  - cbn [forallb snd] in Hd. apply andb_true_iff in Hd. destruct Hd as [H1 H2].
    destruct (String.eqb_spec k k'); cbn [forallb snd].
    + now rewrite Hv, H2.
    + now rewrite H1, IH.
Qed.

(** Replacing or adding a value that the file can hold leaves a dict
    that the file can hold. *)
Lemma json_ok_store k v d :
  json_ok (VDict d) = true -> json_ok v = true ->
  json_ok (VDict (store k v d)) = true.
Proof.
  cbn [json_ok]. intros H Hv. apply andb_true_iff in H. destruct H as [Hk Hd].
  apply andb_true_iff. split; [|now apply forallb_store].
  destruct (lookup k d) as [x|] eqn:E.
  - now rewrite (keys_store_present _ _ _ _ E).
  - rewrite (store_absent _ _ _ E). unfold keys. rewrite map_app.
    apply distinct_app_fresh; [exact Hk | now apply lookup_in].
Qed.

Lemma json_ok_snoc l v :
  json_ok (VList l) = true -> json_ok v = true ->
  json_ok (VList (l ++ [v])) = true.
Proof.
  cbn [json_ok]. intros Hl Hv. rewrite forallb_app, Hl. cbn. now rewrite Hv.
Qed.

(** *** Project ids *)

Lemma max_from_ints ps ids cur :
  int_ids ps = Some ids ->
  max_from (fun p => get p "id" (VInt 0)) ps (VInt cur)
  = Ok (VInt (fold_left Z.max ids cur)).
Proof.
  revert ids cur. induction ps as [|p ps IH]; intros ids cur H.
  - injection H as <-. reflexivity.
  - cbn [int_ids] in H.
    destruct (int_id p) as [z|] eqn:Ep; [|discriminate].
    destruct (int_ids ps) as [zs|] eqn:Eps; [|discriminate].
    injection H as <-. cbn [max_from fold_left].
    assert (G : get p "id" (VInt 0) = Ok (VInt z)).
    { destruct p as [| | | | | |pd]; try discriminate Ep. cbn in Ep |- *.
      destruct (lookup "id" pd) as [[| |z'| | | |]|]; try discriminate Ep;
        now injection Ep as <-. }
    rewrite G. cbn [rbind gt as_num num_compare].
    replace (if match z ?= cur with Gt => true | _ => false end
             then VInt z else VInt cur) with (VInt (Z.max cur z))
      by (destruct (Z.compare_spec z cur); f_equal; lia).
    now apply IH.
Qed.

(** [next_project_id] on int ids. *)
Lemma next_project_id_ints data ids :
  stored_ids data = Some ids ->
  next_project_id data = Ok (VInt (next_id ids)).
Proof.
  unfold stored_ids, projects_of, next_project_id. intros H.
  destruct data as [| | | | | |d]; try discriminate H. cbn [get].
  assert (G : exists ps,
    match lookup "projects" d with Some v => v | None => VList [] end = VList ps
    /\ int_ids ps = Some ids).
  { destruct (lookup "projects" d) as [[| | | | |ps|]|]; try discriminate H;
      eexists; split; try reflexivity; exact H. }
  destruct G as (ps & -> & Hids). cbn [rbind iter].
  destruct ps as [|p ps].
  - injection Hids as <-. reflexivity.
  - cbn [int_ids] in Hids.
    destruct (int_id p) as [z|] eqn:Ep; [|discriminate].
    destruct (int_ids ps) as [zs|] eqn:Eps; [|discriminate].
    injection Hids as <-. cbn [max_default].
    assert (G : get p "id" (VInt 0) = Ok (VInt z)).
    { destruct p as [| | | | | |pd]; try discriminate Ep. cbn in Ep |- *.
      destruct (lookup "id" pd) as [[| |z'| | | |]|]; try discriminate Ep;
        now injection Ep as <-. }
    rewrite G. cbn [rbind]. rewrite (max_from_ints _ _ _ Eps). reflexivity.
Qed.

Lemma fold_right_max_swap l a b :
  Z.max b (fold_right Z.max a l) = Z.max a (fold_right Z.max b l).
Proof. induction l as [|x l IH]; cbn [fold_right]; lia. Qed.

Lemma fold_left_max_right ids cur :
  fold_left Z.max ids cur = fold_right Z.max cur ids.
Proof.
  revert cur. induction ids as [|i ids IH]; intros cur;
    cbn [fold_left fold_right]; [reflexivity|].
  rewrite IH. pose proof (fold_right_max_swap ids cur (Z.max cur i)).
  pose proof (fold_right_max_swap ids cur i).
  assert (cur <= fold_right Z.max cur ids)
    by (clear; induction ids; cbn [fold_right]; lia).
  assert (Z.max cur i <= fold_right Z.max (Z.max cur i) ids)
    by (clear; induction ids; cbn [fold_right]; lia).
  lia.
Qed.

Lemma fold_right_max_ge l a x :
  In x (a :: l) -> x <= fold_right Z.max a l.
Proof.
  induction l as [|y l IH]; cbn [fold_right].
  - intros [->|[]]. lia.
  - intros [->|[->|H]].
    + specialize (IH (or_introl eq_refl)). lia.
    + lia.
    + specialize (IH (or_intror H)). lia.
Qed.

(** Where the code and the specification's formula agree. *)
Lemma next_id_spec ids :
  ids = [] \/ (exists i, In i ids /\ 0 <= i) -> next_id ids = spec_next_id ids.
Proof.
  unfold next_id, spec_next_id. intros [->|(i & Hin & Hi)]; [reflexivity|].
  destruct ids as [|j ids]; [destruct Hin|].
  cbn [fold_right]. rewrite fold_left_max_right.
  pose proof (fold_right_max_ge ids j i Hin).
  pose proof (fold_right_max_swap ids j 0). lia.
Qed.

(** *** Adding projects *)

Lemma json_ok_opt_str o : json_ok (opt_str o) = true.
Proof. now destruct o. Qed.

Lemma json_ok_new_project id args :
  json_ok id = true -> json_ok (new_project id args) = true.
Proof.
  intros H. unfold new_project, Project.to_dict. cbn.
  now rewrite H, !json_ok_opt_str.
Qed.

Lemma int_ids_snoc ps ids p z :
  int_ids ps = Some ids -> int_id p = Some z ->
  int_ids (ps ++ [p]) = Some (ids ++ [z])%list.
Proof.
  revert ids. induction ps as [|q ps IH]; intros ids H Hp.
  - injection H as <-. cbn. now rewrite Hp.
  - cbn [int_ids app] in H |- *.
    destruct (int_id q) as [y|]; [|discriminate].
    destruct (int_ids ps) as [ys|]; [|discriminate].
    injection H as <-. now rewrite (IH ys eq_refl Hp).
Qed.

Lemma loads_as_saved data :
  json_ok data = true ->
  loads_as (Some (Json.dumps data)) {| doc := data; aliased := false |}.
Proof.
  intros H. unfold loads_as, load_data. cbn.
  now rewrite JsonFacts.loads_dumps.
Qed.

(** One [project add] on a document with int ids. *)
Lemma project_add_run args file data ids :
  loads_as file data -> stored_ids (doc data) = Some ids ->
  exists d ps,
    doc data = VDict d /\ projects_of (doc data) = Some ps /\
    invoke (project_add args) file =
    (Ok tt,
     {| DEFAULT_DATA :=
          match aliased data, lookup "projects" d with
          | true, Some _ =>
              store "projects"
                (VList (ps ++ [new_project (VInt (next_id ids)) args])) d
          | _, _ => DEFAULT_DATA (start file)
          end;
        DATA_FILE :=
          Some (Json.dumps
                  (VDict (store "projects"
                            (VList (ps ++ [new_project (VInt (next_id ids)) args]))
                            d)));
        stdout := [ProjectCreated (VInt (next_id ids))
                     (ProjectAdd.name args) (ProjectAdd.customer args)] |}).
Proof.
  intros Hl Hids. pose proof (next_project_id_ints _ _ Hids) as Hn.
  apply loads_as_run in Hl.
  unfold stored_ids in Hids.
  destruct (projects_of (doc data)) as [ps|] eqn:Hps; [|discriminate].
  unfold projects_of in Hps.
  destruct (doc data) as [| | | | | |d] eqn:Hd; try discriminate Hps.
  exists d, ps. split; [reflexivity|]. split; [reflexivity|].
  unfold invoke, main, cmd_project_add, bind. rewrite Hl. unfold lift.
  rewrite Hd, Hn. unfold setdefault_append. rewrite Hd. unfold bind, lift.
  fold (new_project (VInt (next_id ids)) args).
  destruct (lookup "projects" d) as [[| | | | |ps'|]|] eqn:E;
    try discriminate Hps; injection Hps as <-.
  - cbn [appended]. unfold mutated, save_data, print. cbn.
    destruct (aliased data); reflexivity.
  - cbn [appended]. unfold ret, save_data, print. cbn.
    destruct (aliased data); reflexivity.
Qed.

Lemma projects_of_store d ps :
  projects_of (VDict (store "projects" (VList ps) d)) = Some ps.
Proof. unfold projects_of. now rewrite lookup_store_same. Qed.

Lemma json_ok_projects d ps :
  json_ok (VDict d) = true -> projects_of (VDict d) = Some ps ->
  json_ok (VList ps) = true.
Proof.
  intros H Hps. unfold projects_of in Hps.
  destruct (lookup "projects" d) as [[| | | | |ps'|]|] eqn:E;
    try discriminate Hps; injection Hps as <-; [|reflexivity].
  exact (json_ok_lookup _ _ _ H E).
Qed.


Lemma fold_left_max_first_ids n a :
  fold_left Z.max (map Z.of_nat (seq (S a) n)) (Z.of_nat a)
  = Z.of_nat (a + n).
Proof.
  revert a. induction n as [|n IH]; intros a; cbn [seq map fold_left].
  - now rewrite Nat.add_0_r.
  - replace (Z.max (Z.of_nat a) (Z.of_nat (S a))) with (Z.of_nat (S a)) by lia.
    rewrite IH. f_equal. lia.
Qed.

Lemma next_id_first_ids k : next_id (first_ids k) = Z.of_nat k + 1.
Proof.
  unfold first_ids. destruct k as [|k]; [reflexivity|].
  cbn [seq map next_id]. rewrite (fold_left_max_first_ids k 1). lia.
Qed.

Lemma first_ids_succ k :
  (first_ids k ++ [Z.of_nat k + 1])%list = first_ids (S k).
Proof.
  unfold first_ids. rewrite seq_S, map_app. cbn [map]. do 2 f_equal. lia.
Qed.


(** *** Finding a project *)

Lemma appended_list_at key d l item :
  list_at key d = Some l ->
  appended (lookup key d) item = Ok (VList (l ++ [item])%list).
Proof.
  unfold list_at. destruct (lookup key d) as [[| | | | |l'|]|];
    intros [= <-]; reflexivity.
Qed.

Lemma store_appended_under key item d l :
  list_at key d = Some l ->
  appended_under key item d (store key (VList (l ++ [item])%list) d).
Proof.
  intros H. exists l. split; [exact H|]. split; [apply lookup_store_same|].
  split; [intros k Hk; now apply lookup_store_other|].
  destruct (lookup key d) eqn:E.
  - exact (keys_store_present _ _ _ _ E).
  - rewrite (store_absent _ _ _ E). unfold keys. now rewrite map_app.
Qed.



Lemma first_with_id_some ps pid :
  forall n i project,
    first_with_id ps pid n = Ok (Some (i, project)) ->
    exists j p idv,
      i = (n + j)%nat /\ nth_error ps j = Some project /\ project = VDict p
      /\ lookup "id" p = Some idv /\ eq_int idv pid = true.
Proof.
  induction ps as [|q ps IH]; intros n i project H; [discriminate H|].
  cbn [first_with_id] in H.
  destruct q as [| | | | | |qd]; try discriminate H. cbn [get rbind] in H.
  destruct (eq_int match lookup "id" qd with Some v => v | None => VNone end pid)
    eqn:E.
  - injection H as <- <-. exists 0%nat, qd.
    destruct (lookup "id" qd) as [idv|]; [|discriminate E].
    exists idv. rewrite Nat.add_0_r. now repeat split.
  - destruct (IH _ _ _ H) as (j & p & idv & -> & Hj & Hp & Hid & He).
    exists (S j), p, idv. repeat split; try assumption. lia.
Qed.

(** What a successful lookup tells: the document is a dict, its projects
    are a list, and the result is the dict at the position that comes
    with it, whose id equals the one asked for. *)
Lemma find_project_some data pid i project :
  find_project data pid = Ok (Some (i, project)) ->
  exists d ps p idv,
    data = VDict d /\ lookup "projects" d = Some (VList ps)
    /\ nth_error ps i = Some project /\ project = VDict p
    /\ lookup "id" p = Some idv /\ eq_int idv pid = true.
Proof.
  unfold find_project. intros H.
  destruct data as [| | | | | |d]; try discriminate H. cbn [get rbind] in H.
  destruct (lookup "projects" d) as [v|] eqn:E; [|discriminate H].
  destruct v as [| | | |s|ps|pd]; try discriminate H; cbn [iter rbind] in H.
  - exfalso. destruct (chars s) as [|c cs]; discriminate H.
  - destruct (first_with_id_some _ _ _ _ _ H) as (j & p & idv & -> & Hj & Hp & Hid & He).
    exists d, ps, p, idv. now repeat split.
  - exfalso. destruct pd as [|[k v] pd]; discriminate H.
Qed.

Lemma truthy_found p idv : lookup "id" p = Some idv -> truthy (VDict p) = true.
Proof. destruct p; [discriminate | reflexivity]. Qed.


(** *** Adding tasks and materials *)



Lemma material_add_inventory_run file data args d inv :
  loads_as file data ->
  given_id (MaterialAdd.project_id args) = None ->
  doc data = VDict d -> list_at "inventory" d = Some inv ->
  exists defaults,
    invoke (material_add args) file =
    (Ok tt, {| DEFAULT_DATA := defaults;
               DATA_FILE :=
                 Some (Json.dumps
                         (VDict (store "inventory"
                                   (VList (inv ++ [new_material args])%list) d)));
               stdout := [material_added OfInventory args] |}).
Proof.
  intros Hl Hg Hd Hk. apply loads_as_run in Hl.
  unfold invoke, main, cmd_material_add, bind. rewrite Hl, Hg.
  fold (new_material args). unfold setdefault_append. rewrite Hd.
  unfold bind, lift. rewrite (appended_list_at _ _ _ _ Hk).
  unfold list_at in Hk.
  destruct (lookup "inventory" d) as [v|]; unfold mutated, ret, save_data, print;
    cbn; destruct (aliased data); eexists; reflexivity.
Qed.

(** *** Listing projects *)

Lemma with_status_filter ps x :
  forallb is_dict ps = true -> with_status ps x = Ok (filter (has_status x) ps).
Proof.
  induction ps as [|p ps IH]; intros H; [reflexivity|].
  cbn [forallb] in H. apply andb_true_iff in H. destruct H as [Hp H].
  cbn [with_status filter]. destruct p as [| | | | | |pd]; try discriminate Hp.
  cbn [get rbind]. rewrite (IH H). cbn [rbind].
  unfold has_status, eq_str.
  destruct (lookup "status" pd) as [[| | | |s| |]|]; reflexivity.
Qed.

Lemma for_each_rows ps rows w :
  Forall2 (fun p l => row p = Ok l) ps rows ->
  for_each ps list_row w =
  (Ok tt, {| DEFAULT_DATA := DEFAULT_DATA w; DATA_FILE := DATA_FILE w;
             stdout := (stdout w ++ rows)%list |}).
Proof.
  intros H. revert w. induction H as [|p l ps rows Hp _ IH]; intros w.
  - cbn. rewrite List.app_nil_r. now destruct w.
  - cbn [for_each]. unfold bind at 1. unfold list_row, bind, lift. rewrite Hp.
    unfold print at 1. rewrite IH. cbn. now rewrite <- app_assoc.
Qed.

Lemma listing_run sel rows file :
  Forall2 (fun p l => row p = Ok l) sel rows ->
  (if negb (truthy (VList sel)) then print NoProjectsFound
   else
     print ListHeader ;;
     print ListRule ;;
     ps <- lift (iter (VList sel)) ;;
     for_each ps list_row) (start file) =
  (Ok tt, {| DEFAULT_DATA := DEFAULT_DATA (start file);
             DATA_FILE := file;
             stdout := listing rows |}).
Proof.
  intros [|p l sel' rows' Hp Hrows]; [reflexivity|].
  cbn [truthy negb]. unfold bind, print at 1 2, lift. cbn [listing iter].
  rewrite (for_each_rows (p :: sel') (l :: rows')) by now constructor.
  reflexivity.
Qed.

Lemma project_list_run file data ps status rows :
  loads_as file data -> projects_of (doc data) = Some ps ->
  forallb is_dict ps = true ->
  Forall2 (fun p l => row p = Ok l)
    (match given_status status with
     | Some x => filter (has_status x) ps
     | None => ps
     end) rows ->
  invoke (project_list {| ProjectList.status := status |}) file =
  (Ok tt, {| DEFAULT_DATA := DEFAULT_DATA (start file);
             DATA_FILE := file;
             stdout := listing rows |}).
Proof.
  intros Hl Hps Hd Hrows. apply loads_as_run in Hl.
  unfold projects_of in Hps.
  destruct (doc data) as [| | | | | |d] eqn:Ed; try discriminate Hps.
  unfold invoke, main, cmd_project_list. unfold bind at 1. rewrite Hl.
  unfold bind at 1. unfold lift at 1. rewrite Ed. cbn [get ProjectList.status].
  assert (G : match lookup "projects" d with Some v => v | None => VList [] end
              = VList ps).
  { destruct (lookup "projects" d) as [[| | | | |ps'|]|]; try discriminate Hps;
      now injection Hps as <-. }
  rewrite G. clear G. unfold bind at 1.
  destruct (given_status status) as [x|].
  - unfold lift at 1. cbn [iter rbind]. rewrite with_status_filter by exact Hd.
    cbn [rbind]. now apply listing_run.
  - unfold ret. now apply listing_run.
Qed.

(** *** Matching ids *)

Lemma first_with_id_none ps pid n :
  forallb is_dict ps = true -> existsb (has_id pid) ps = false ->
  first_with_id ps pid n = Ok None.
Proof.
  revert n. induction ps as [|p ps IH]; intros n Hd He; [reflexivity|].
  cbn [forallb existsb] in Hd, He. apply andb_true_iff in Hd.
  apply orb_false_iff in He. destruct Hd as [Hp Hd], He as [Hi He].
  destruct p as [| | | | | |pd]; try discriminate Hp.
  cbn [first_with_id get rbind]. cbn [has_id] in Hi.
  destruct (lookup "id" pd) as [v|].
  - rewrite Hi. now apply IH.
  - cbn. now apply IH.
Qed.

(** No stored project carries the id: the lookup finds nothing. *)
Lemma find_project_none data ps pid :
  projects_of data = Some ps -> forallb is_dict ps = true ->
  existsb (has_id pid) ps = false ->
  find_project data pid = Ok None.
Proof.
  unfold projects_of, find_project. intros Hps Hd He.
  destruct data as [| | | | | |d]; try discriminate Hps. cbn [get rbind].
  destruct (lookup "projects" d) as [[| | | | |ps'|]|]; try discriminate Hps;
    injection Hps as <-; cbn [iter rbind]; [|reflexivity].
  now apply first_with_id_none.
Qed.



(** *** Valid documents

    What the statements below ask of a document holds of every valid
    one. *)

Lemma valid_document_json_ok data :
  valid_document data = true -> json_ok data = true.
Proof. unfold valid_document. intros H. now apply andb_true_iff in H. Qed.

Lemma valid_project_is_dict p : valid_project p = true -> is_dict p = true.
Proof. now destruct p. Qed.

Lemma forallb_impl {A} (f g : A -> bool) l :
  (forall x, f x = true -> g x = true) ->
  forallb f l = true -> forallb g l = true.
Proof.
  intros H. induction l as [|x l IH]; [reflexivity|]. cbn [forallb].
  intros Hl. apply andb_true_iff in Hl. destruct Hl as [Hx Hl].
  now rewrite (H _ Hx), IH.
Qed.

Lemma valid_document_projects data :
  valid_document data = true ->
  exists d ps,
    data = VDict d /\ projects_of data = Some ps
    /\ forallb valid_project ps = true /\ forallb is_dict ps = true.
Proof.
  unfold valid_document. intros H. apply andb_true_iff in H. destruct H as [_ H].
  destruct data as [| | | | | |d]; try discriminate H.
  apply andb_true_iff in H. destruct H as [H _]. unfold projects_of.
  destruct (lookup "projects" d) as [[| | | | |ps|]|]; try discriminate H.
  - exists d, ps. repeat split; [exact H|].
    exact (forallb_impl _ _ _ valid_project_is_dict H).
  - exists d, []. repeat split.
Qed.

Lemma valid_project_int_id p : valid_project p = true -> exists z, int_id p = Some z.
Proof.
  destruct p as [| | | | | |pd]; try discriminate. cbn [valid_project int_id].
  destruct (lookup "id" pd) as [[| |z| | | |]|]; try discriminate. now exists z.
Qed.

Lemma valid_document_stored_ids data :
  valid_document data = true -> exists ids, stored_ids data = Some ids.
Proof.
  intros H. destruct (valid_document_projects _ H) as (d & ps & _ & Hps & Hv & _).
  unfold stored_ids. rewrite Hps. clear Hps H.
  induction ps as [|p ps IH]; [now exists []|].
  cbn [forallb] in Hv. apply andb_true_iff in Hv. destruct Hv as [Hp Hv].
  destruct (valid_project_int_id _ Hp) as (z & Hz). destruct (IH Hv) as (zs & Hzs).
  exists (z :: zs). cbn [int_ids]. now rewrite Hz, Hzs.
Qed.

Lemma is_list_of_list_at ok key d :
  is_list_of ok (lookup key d) = true -> exists l, list_at key d = Some l.
Proof.
  unfold is_list_of, list_at.
  destruct (lookup key d) as [[| | | | |l|]|]; try discriminate; eauto.
Qed.

Lemma valid_document_inventory d :
  valid_document (VDict d) = true -> exists inv, list_at "inventory" d = Some inv.
Proof.
  unfold valid_document. intros H. apply andb_true_iff in H. destruct H as [_ H].
  apply andb_true_iff in H. destruct H as [_ H].
  exact (is_list_of_list_at _ _ _ H).
Qed.

Lemma valid_project_lists p :
  valid_project (VDict p) = true ->
  (exists ts, list_at "tasks" p = Some ts)
  /\ (exists ms, list_at "materials" p = Some ms).
Proof.
  cbn [valid_project]. intros H.
  repeat (apply andb_true_iff in H; let G := fresh "G" in destruct H as [H G]).
  split; eapply is_list_of_list_at; eassumption.
Qed.

(** A valid project has its row in the table. *)
Lemma valid_project_row p : valid_project p = true -> exists l, row p = Ok l.
Proof.
  destruct p as [| | | | | |pd]; try discriminate. cbn [valid_project]. intros H.
  repeat (apply andb_true_iff in H; let G := fresh "G" in destruct H as [H G]).
  unfold row. cbn [get].
  destruct (lookup "id" pd) as [[| |z| | | |]|]; try discriminate H.
  destruct (lookup "name" pd) as [[| | | |n| |]|]; try discriminate G6.
  destruct (lookup "customer" pd) as [[| | | |c| |]|]; try discriminate G5.
  destruct (lookup "status" pd) as [[| | | |st| |]|]; try discriminate G2.
  cbn. eauto.
Qed.

Lemma valid_projects_rows ps :
  forallb valid_project ps = true ->
  exists rows, Forall2 (fun p l => row p = Ok l) ps rows.
Proof.
  induction ps as [|p ps IH]; intros H; [exists []; constructor|].
  cbn [forallb] in H. apply andb_true_iff in H. destruct H as [Hp H].
  destruct (valid_project_row _ Hp) as (l & Hl). destruct (IH H) as (rows & Hr).
  exists (l :: rows). now constructor.
Qed.

(** ** The model at work *)

(** [float] and [repr] on some well-known cases. *)
Example float_of_one_tenth :
  Json.float_of_decimal false 1 (-1) = S754_finite false 7205759403792794 (-56).
Proof. vm_compute. reflexivity. Qed.

Example float_repr_cases :
  map (fun dk : N * Z => Json.float_repr (Json.float_of_decimal false (fst dk) (snd dk)))
    [(1%N, -1); (25%N, -1); (3%N, 0); (1%N, 16); (1%N, 15); (1%N, 23);
     (1%N, -4); (1%N, -5); (5%N, -324); (17976931348623157%N, 292);
     (9007199254740993%N, 0); (30000000000000004%N, -17);
     (123456789012345678%N, 0)]
  = ["0.1"; "2.5"; "3.0"; "1e+16"; "1000000000000000.0"; "1e+23"; "0.0001";
     "1e-05"; "5e-324"; "1.7976931348623157e+308"; "9007199254740992.0";
     "0.30000000000000004"; "1.2345678901234568e+17"].
Proof. vm_compute. reflexivity. Qed.

Example float_repr_sum :
  Json.float_repr
    (SFadd prec emax (Json.float_of_decimal false 1 (-1))
       (Json.float_of_decimal false 2 (-1)))
  = "0.30000000000000004".
Proof. vm_compute. reflexivity. Qed.

(** The layout of [json.dump] with [indent=2]. *)
Example dumps_layout :
  Json.dumps (VList [VInt 1; VFloat Sample.two_and_a_half; VNone; VList [];
                     VList [VBool true; VInt (-7)]])
  = "[
  1,
  2.5,
  null,
  [],
  [
    true,
    -7
  ]
]".
Proof. vm_compute. reflexivity. Qed.

(** What the scanner accepts and refuses. *)
Example loads_cases :
  Json.loads " [1, 2.50, -0, 1e2, NaN, true, {}] "
  = Ok (VList [VInt 1; VFloat Sample.two_and_a_half; VInt 0;
               VFloat (Json.float_of_decimal false 100 0); VFloat S754_nan;
               VBool true; VDict []])
  /\ Json.loads "01" = Raise JSONDecodeError
  /\ Json.loads "[1,]" = Raise JSONDecodeError
  /\ Json.loads "1.e5" = Raise JSONDecodeError
  /\ Json.loads EmptyString = Raise JSONDecodeError.
Proof. repeat split; vm_compute; reflexivity. Qed.

Example sample_document_is_valid : valid_document Sample.document = true.
Proof. vm_compute. reflexivity. Qed.

(** What the tool writes can be read back, when the quantity can. *)
Lemma json_ok_new_task args : json_ok (new_task args) = true.
Proof. unfold new_task, Task.to_dict. cbn. now rewrite json_ok_opt_str. Qed.

Lemma json_ok_new_material args :
  json_ok (new_material args) = float_text_ok (MaterialAdd.quantity args).
Proof.
  unfold new_material, Material.to_dict. cbn.
  now rewrite andb_true_r.
Qed.

(** A lone surrogate, an int of 4301 digits and a float that is no
    binary64 number are not storable; text with an umlaut is. *)
Example lone_surrogate_is_not_storable :
  storable (VStr (Json.utf8 55296)) = false.
Proof. reflexivity. Qed.

Example umlaut_is_storable : storable (VStr "für") = true.
Proof. reflexivity. Qed.

Example long_int_is_not_storable : storable (VInt (10 ^ 4300)) = false.
Proof. vm_compute. reflexivity. Qed.

Example odd_float_is_not_storable :
  storable (VFloat (S754_finite false 1 2000)) = false.
Proof. reflexivity. Qed.

(** ** The properties of the specification *)

Lemma holds_ids_absent : holds_ids None [].
Proof. eexists. repeat split; reflexivity. Qed.

(** The empty document, as the tool writes it and as the two braces. *)
Lemma holds_ids_empty_document :
  holds_ids (Some (Json.dumps (VDict [("projects", VList []);
                                      ("inventory", VList [])]))) []
  /\ holds_ids (Some "{}") [].
Proof. repeat split; eexists; repeat split; vm_compute; reflexivity. Qed.



(** C3.  [next_project_id] is one more than the largest stored id.  For
    every document whose projects carry int ids (a project without an
    ["id"] counts as 0) the result is 1 when there is no project and one
    more than the largest id otherwise; this is the specification's
    [max(existing ids, 0) + 1] whenever there is no project or some id
    is not negative. *)
Theorem next_project_id_one_more_than_largest (data : value) (ids : list Z) :
  stored_ids data = Some ids ->
  next_project_id data = Ok (VInt (next_id ids))
  /\ (ids = [] \/ (exists i, In i ids /\ 0 <= i) ->
      next_id ids = spec_next_id ids).
Proof.
  intros H. split; [now apply next_project_id_ints | apply next_id_spec].
Qed.

Lemma next_project_id_one_more_than_largest_witness :
  stored_ids Sample.document = Some [1; 2]
  /\ next_project_id Sample.document = Ok (VInt 3)
  /\ spec_next_id [1; 2] = 3.
Proof.
  split; [reflexivity|].
  destruct (next_project_id_one_more_than_largest Sample.document [1; 2] eq_refl)
    as [H1 H2].
  split; [exact H1|]. symmetry. apply H2.
  right. exists 1. split; [now left | lia].
Defined.

(** C3, as stated, fails on a document whose ids are all negative: with
    the single id -5 the code returns -4, where the formula
    [max(existing ids, 0) + 1] gives 1. *)
Lemma next_project_id_negative_ids :
  stored_ids Sample.negative_document = Some [-5]
  /\ next_project_id Sample.negative_document = Ok (VInt (-4))
  /\ spec_next_id [-5] = 1.
Proof. repeat split; reflexivity. Qed.

(** C5.  Saving and loading give the document back.  A document the
    program can write ([storable]: its strs and keys are well-formed
    text, its floats binary64 numbers, its ints within the digit limit,
    the keys of each dict different, its nesting bounded) reads back from
    the file [save_data] wrote as the very same value: every key, in its
    order, with the same str, number, [None], list or dict under it,
    whichever optional fields are set or absent.  Every float reads back
    from the digits [repr] wrote for it
    ([FloatFacts.float_text_ok_valid]). *)
Theorem save_then_load (data : value) (w : world) :
  storable data = true ->
  load_data (snd (save_data data w))
  = (Ok {| doc := data; aliased := false |}, snd (save_data data w)).
Proof.
  intros H. unfold save_data, load_data. cbn.
  now rewrite JsonFacts.loads_dumps by (now apply storable_json_ok).
Qed.

Lemma save_then_load_witness :
  storable Sample.document = true
  /\ load_data (snd (save_data Sample.document (start None)))
     = (Ok {| doc := Sample.document; aliased := false |},
        snd (save_data Sample.document (start None))).
Proof.
  split; [vm_compute; reflexivity|].
  apply (save_then_load Sample.document (start None)).
  vm_compute; reflexivity.
Defined.


(** C2.  A lookup that finds no project changes nothing.  For every
    document whose projects are dicts none of which carries the id:
    [task add] with that id, and [material add] with that id given and
    not zero, print the not-found message and return; the file is the one
    they found (absent if it was absent), and [DEFAULT_DATA] is as it
    was. *)
Theorem not_found_changes_nothing
  (file : option string) (data : loaded) (ps : list value) (pid : Z) :
  loads_as file data -> projects_of (doc data) = Some ps ->
  forallb is_dict ps = true -> existsb (has_id pid) ps = false ->
  let unchanged :=
    (Ok tt, {| DEFAULT_DATA := DEFAULT_DATA (start file);
               DATA_FILE := file;
               stdout := [ProjectNotFound pid] |}) in
  (forall args, TaskAdd.project_id args = pid ->
                invoke (task_add args) file = unchanged)
  /\ (forall args, MaterialAdd.project_id args = Some pid -> pid <> 0 ->
                   invoke (material_add args) file = unchanged).
Proof.
  intros Hl Hps Hd He unchanged.
  pose proof (find_project_none _ _ _ Hps Hd He) as Hf. split.
  - intros args <-. now apply (not_found_run (task_add args) file data).
  - intros args Ha Hz. apply (not_found_run (material_add args) file data);
      try assumption.
    cbn [looks_up]. rewrite Ha. unfold given_id. cbn [truthy].
    destruct (Z.eqb_spec pid 0); [contradiction | reflexivity].
Qed.

Lemma not_found_changes_nothing_witness :
  loads_as Sample.file {| doc := Sample.document; aliased := false |}
  /\ invoke (task_add {| TaskAdd.project_id := 7; TaskAdd.title := "t";
                         TaskAdd.due_date := None; TaskAdd.status := "offen" |})
       Sample.file
     = (Ok tt, {| DEFAULT_DATA := DEFAULT_DATA (start Sample.file);
                  DATA_FILE := Sample.file;
                  stdout := [ProjectNotFound 7] |})
  /\ invoke (material_add (Sample.holz (Some 7))) Sample.file
     = (Ok tt, {| DEFAULT_DATA := DEFAULT_DATA (start Sample.file);
                  DATA_FILE := Sample.file;
                  stdout := [ProjectNotFound 7] |}).
Proof.
  assert (Hl : loads_as Sample.file {| doc := Sample.document; aliased := false |})
    by (vm_compute; reflexivity).
  split; [exact Hl|].
  destruct (not_found_changes_nothing Sample.file _ _ 7 Hl eq_refl eq_refl eq_refl)
    as [Ht Hm].
  split; [now apply Ht | apply Hm; [reflexivity | discriminate]].
Defined.

(** C2, as stated, fails for [material add --project-id 0]: no stored
    project carries the id 0, and yet nothing is reported; the material
    goes to the inventory and the file, absent before, is written. *)
Lemma material_add_zero_id_saves :
  existsb (has_id 0) [] = false
  /\ stdout (snd (invoke (material_add (Sample.holz (Some 0))) None))
     = [material_added OfInventory (Sample.holz (Some 0))]
  /\ DATA_FILE (snd (invoke (material_add (Sample.holz (Some 0))) None))
     = Some (Json.dumps
               (VDict [("projects", VList []);
                       ("inventory", VList [new_material (Sample.holz (Some 0))])])).
Proof. repeat split; reflexivity. Qed.

(** C8.  Not finding a project is no failure.  For every document whose
    projects are dicts none of which carries the id, every command that
    looks a project up ([project detail], [task add], and [material add]
    with an id that is given and not zero) reports the miss on standard
    output and returns: [main] ends without an exception, which is exit
    status 0. *)
Theorem not_found_exits_zero
  (c : command) (file : option string) (data : loaded)
  (ps : list value) (pid : Z) :
  looks_up c = Some pid ->
  loads_as file data -> projects_of (doc data) = Some ps ->
  forallb is_dict ps = true -> existsb (has_id pid) ps = false ->
  exit_status (fst (invoke c file)) = Some 0
  /\ fst (invoke c file) = Ok tt
  /\ stdout (snd (invoke c file)) = [ProjectNotFound pid].
Proof.
  intros Hc Hl Hps Hd He.
  pose proof (find_project_none _ _ _ Hps Hd He) as Hf.
  rewrite (not_found_run c file data pid Hc Hl Hf). repeat split.
Qed.

Lemma not_found_exits_zero_witness :
  loads_as Sample.file {| doc := Sample.document; aliased := false |}
  /\ exit_status
       (fst (invoke (project_detail {| ProjectDetail.project_id := 7 |})
               Sample.file)) = Some 0
  /\ stdout
       (snd (invoke (project_detail {| ProjectDetail.project_id := 7 |})
               Sample.file)) = [ProjectNotFound 7].
Proof.
  assert (Hl : loads_as Sample.file {| doc := Sample.document; aliased := false |})
    by (vm_compute; reflexivity).
  split; [exact Hl|].
  destruct (not_found_exits_zero
              (project_detail {| ProjectDetail.project_id := 7 |})
              Sample.file _ _ 7 eq_refl Hl eq_refl eq_refl eq_refl)
    as (H0 & _ & Ho).
  split; [exact H0 | exact Ho].
Defined.








(** C4.  What [project list] selects.  For every document whose projects
    are dicts, with [rows] the table rows of the selected projects, one
    for each, in stored order, the command prints the table of [rows]
    (or that nothing was found when there are none), where the selected
    projects are
    - with [--status x] for a non-empty [x]: exactly the projects whose
      ["status"] is the string [x], character for character;
    - without the option, or with the empty string: all projects. *)
Theorem project_list_selects
  (file : option string) (data : loaded) (ps : list value) :
  loads_as file data -> projects_of (doc data) = Some ps ->
  forallb is_dict ps = true ->
  let prints status rows :=
    invoke (project_list {| ProjectList.status := status |}) file
    = (Ok tt, {| DEFAULT_DATA := DEFAULT_DATA (start file);
                 DATA_FILE := file;
                 stdout := listing rows |}) in
  (forall x rows,
     x <> EmptyString ->
     Forall2 (fun p l => row p = Ok l) (filter (has_status x) ps) rows ->
     prints (Some x) rows)
  /\ (forall status rows,
        status = None \/ status = Some EmptyString ->
        Forall2 (fun p l => row p = Ok l) ps rows ->
        prints status rows).
Proof.
  intros Hl Hps Hd prints. split.
  - intros x rows Hx Hrows. apply (project_list_run file data ps); try assumption.
    assert (E : given_status (Some x) = Some x).
    { unfold given_status. cbn [truthy].
      destruct (String.eqb_spec x EmptyString); [contradiction | reflexivity]. }
    now rewrite E.
  - intros status rows Hs Hrows.
    apply (project_list_run file data ps); try assumption.
    assert (E : given_status status = None) by (destruct Hs; subst; reflexivity).
    now rewrite E.
Qed.

Lemma project_list_selects_witness :
  loads_as Sample.file {| doc := Sample.document; aliased := false |}
  /\ stdout (snd (invoke (project_list {| ProjectList.status := Some "erledigt" |})
                    Sample.file))
     = [ListHeader; ListRule;
        ListRow (VInt 2) (VStr "Bad") (VStr "Schmidt") (VStr "erledigt") (VStr "-")]
  /\ stdout (snd (invoke (project_list {| ProjectList.status := Some "Erledigt" |})
                    Sample.file))
     = [NoProjectsFound].
Proof.
  assert (Hl : loads_as Sample.file {| doc := Sample.document; aliased := false |})
    by (vm_compute; reflexivity).
  split; [exact Hl|].
  destruct (project_list_selects Sample.file _ _ Hl eq_refl eq_refl) as [Hx _].
  split.
  - rewrite (Hx "erledigt"
               [ListRow (VInt 2) (VStr "Bad") (VStr "Schmidt") (VStr "erledigt")
                  (VStr "-")]).
    + reflexivity.
    + discriminate.
    + repeat constructor.
  - rewrite (Hx "Erledigt" []).
    + reflexivity.
    + discriminate.
    + constructor.
Defined.

(** C4, as stated, fails for the empty string: no stored project has the
    status [""], and [project list --status ""] lists them all. *)
Lemma project_list_empty_status_lists_all :
  filter (has_status EmptyString)
    [new_project (VInt 1) Sample.dach] = []
  /\ stdout (snd (invoke (project_list {| ProjectList.status := Some EmptyString |})
                    (Some (Json.dumps
                             (VDict [("projects",
                                      VList [new_project (VInt 1) Sample.dach]);
                                     ("inventory", VList [])])))))
     = [ListHeader; ListRule;
        ListRow (VInt 1) (VStr "Dach") (VStr "Mueller") (VStr "offen")
          (VStr "2024-05-01")].
Proof. split; vm_compute; reflexivity. Qed.

(** ** More facts about the commands *)

(** *** What a run leaves behind *)

Lemma reads_only_ret {A} (a : A) : reads_only (ret a).
Proof. now intros w. Qed.

Lemma reads_only_lift {A} (r : result A) : reads_only (lift r).
Proof. now intros w. Qed.

Lemma reads_only_print l : reads_only (print l).
Proof. now intros w. Qed.

Lemma reads_only_load_data : reads_only load_data.
Proof. intros w. now rewrite load_data_world. Qed.

Lemma reads_only_bind {A B} (c : M A) (k : A -> M B) :
  reads_only c -> (forall a, reads_only (k a)) -> reads_only (bind c k).
Proof.
  intros Hc Hk w. unfold bind. specialize (Hc w).
  destruct (c w) as [[a|e|] w']; cbn [snd] in Hc; [|exact Hc|exact Hc].
  destruct (Hk a w') as [H1 H2]. destruct Hc as [G1 G2].
  split; congruence.
Qed.

Lemma reads_only_for_each {A} (xs : list A) (body : A -> M unit) :
  (forall x, reads_only (body x)) -> reads_only (for_each xs body).
Proof.
  intros H. induction xs as [|x xs IH]; cbn [for_each].
  - apply reads_only_ret.
  - apply reads_only_bind; [apply H | intros _; exact IH].
Qed.

Ltac reads_only_step :=
  first
    [ apply reads_only_ret
    | apply reads_only_lift
    | apply reads_only_print
    | apply reads_only_load_data
    | apply reads_only_for_each; intros ?
    | apply reads_only_bind; [|intros ?]
    | match goal with
      | |- reads_only (if ?b then _ else _) => destruct b
      | |- reads_only (match ?x with _ => _ end) => destruct x
      end ].

Lemma reads_only_material_row l mat : reads_only (material_row l mat).
Proof. unfold material_row. repeat reads_only_step. Qed.

Lemma reads_only_task_row it : reads_only (task_row it).
Proof. unfold task_row. repeat reads_only_step. Qed.

Lemma reads_only_print_if_set p k l : reads_only (print_if_set p k l).
Proof. unfold print_if_set. repeat reads_only_step. Qed.

Lemma reads_only_list_row p : reads_only (list_row p).
Proof. unfold list_row. repeat reads_only_step. Qed.

Lemma reads_only_shows c : shows c = true -> reads_only (main c).
Proof.
  destruct c as [a|a|a|a|a|]; try discriminate; intros _; cbn [main].
  - unfold cmd_project_list. repeat reads_only_step; apply reads_only_list_row.
  - unfold cmd_project_detail.
    repeat first [ apply reads_only_print_if_set | apply reads_only_task_row
                 | apply reads_only_material_row | reads_only_step ].
  - unfold cmd_inventory_list.
    repeat first [apply reads_only_material_row | reads_only_step].
Qed.

Lemma reads_only_keeps_file {A} (m : M A) : reads_only m -> keeps_file m.
Proof. intros H w. apply H. Qed.

Lemma keeps_file_mutated data doc' : keeps_file (mutated data doc').
Proof.
  intros w. unfold mutated. cbn [snd].
  destruct (aliased data); [destruct doc'|]; reflexivity.
Qed.

Lemma keeps_file_bind {A B} (c : M A) (k : A -> M B) :
  keeps_file c -> (forall a, keeps_file (k a)) -> keeps_file (bind c k).
Proof.
  intros Hc Hk w. unfold bind. specialize (Hc w).
  destruct (c w) as [[a|e|] w']; cbn [snd] in Hc; [|exact Hc|exact Hc].
  now rewrite Hk.
Qed.

Lemma keeps_file_lift {A} (r : result A) : keeps_file (lift r).
Proof. now intros w. Qed.

Lemma keeps_file_ret {A} (a : A) : keeps_file (ret a).
Proof. now intros w. Qed.

Lemma keeps_file_setdefault_append data key item :
  keeps_file (setdefault_append data key item).
Proof.
  unfold setdefault_append. destruct (doc data); try apply keeps_file_lift.
  apply keeps_file_bind; [apply keeps_file_lift|]. intros l.
  destruct (lookup key d); [apply keeps_file_mutated | apply keeps_file_ret].
Qed.

Lemma keeps_file_project_setdefault_append data i project key item :
  keeps_file (project_setdefault_append data i project key item).
Proof.
  unfold project_setdefault_append. destruct project; try apply keeps_file_lift.
  apply keeps_file_bind; [apply keeps_file_lift|]. intros l.
  apply keeps_file_bind; [apply keeps_file_mutated|]. intros data'.
  apply keeps_file_ret.
Qed.

(** The project that [setdefault(key, []).append] leaves is the one it
    got, with a value stored under [key]. *)
Lemma project_setdefault_append_project data i project key item w data' project' w' :
  project_setdefault_append data i project key item w = (Ok (data', project'), w') ->
  exists p l, project = VDict p /\ project' = VDict (store key l p).
Proof.
  unfold project_setdefault_append. destruct project as [| | | | | |p];
    try discriminate. unfold bind, lift.
  destruct (appended (lookup key p) item) as [l| |]; try discriminate.
  unfold mutated, ret. intros [= _ <- _]. now exists p, l.
Qed.

Lemma settles_bind {A} (c : M A) (k : A -> M unit) :
  keeps_file c ->
  (forall w a w', c w = (Ok a, w') ->
     fst (k a w') = Ok tt \/ DATA_FILE (snd (k a w')) = DATA_FILE w') ->
  settles (bind c k).
Proof.
  intros Hc Hk w. unfold bind. specialize (Hc w). specialize (Hk w).
  destruct (c w) as [[a|e|] w']; cbn [snd] in Hc; [|now right|now right].
  destruct (Hk a w' eq_refl) as [H|H]; [now left | right; congruence].
Qed.

Lemma lift_run {A} (r : result A) w a w' : lift r w = (Ok a, w') -> r = Ok a.
Proof. unfold lift. now intros [= -> _]. Qed.

Lemma settles_project_add args : settles (cmd_project_add args).
Proof.
  unfold cmd_project_add.
  apply settles_bind; [apply reads_only_keeps_file, reads_only_load_data|].
  intros w data w' _.
  apply settles_bind; [apply keeps_file_lift|]. intros w1 id w1' _.
  apply settles_bind; [apply keeps_file_setdefault_append|]. intros w2 data' w2' _.
  now left.
Qed.

(** What is saved through a found project can name it afterwards: the
    project has an ["id"]. *)
Lemma settles_project_append data pid i project key item (l : value -> line) :
  find_project (doc data) pid = Ok (Some (i, project)) -> key <> "id" ->
  settles
    (r <- project_setdefault_append data i project key item ;;
     let (data, project) := r in
     save_data (doc data) ;;
     id <- lift (getitem project "id") ;;
     print (l id)).
Proof.
  intros Hf Hk.
  destruct (find_project_some _ _ _ _ Hf) as (d & ps & p & idv & _ & _ & _ & -> & Hid & _).
  apply settles_bind; [apply keeps_file_project_setdefault_append|].
  intros w [data' project'] w' Hr.
  destruct (project_setdefault_append_project _ _ _ _ _ _ _ _ _ Hr)
    as (p0 & v & [= <-] & ->).
  left. unfold bind, save_data, lift. cbn [getitem].
  rewrite lookup_store_other by (intros E; apply Hk; now symmetry).
  now rewrite Hid.
Qed.

Lemma settles_task_add args : settles (cmd_task_add args).
Proof.
  unfold cmd_task_add.
  apply settles_bind; [apply reads_only_keeps_file, reads_only_load_data|].
  intros w data w' _.
  apply settles_bind; [apply keeps_file_lift|]. intros w1 found w1' Hf.
  apply lift_run in Hf. destruct found as [[i project]|]; [|now left].
  destruct (negb (truthy project)); [now left|].
  apply (settles_project_append data _ i project "tasks" _
           (fun id => TaskSaved id (TaskAdd.title args)) Hf).
  discriminate.
Qed.

Lemma settles_material_add args : settles (cmd_material_add args).
Proof.
  unfold cmd_material_add.
  apply settles_bind; [apply reads_only_keeps_file, reads_only_load_data|].
  intros w data w' _.
  destruct (given_id (MaterialAdd.project_id args)) as [pid|].
  - apply settles_bind; [apply keeps_file_lift|]. intros w1 found w1' Hf.
    apply lift_run in Hf. destruct found as [[i project]|]; [|now left].
    destruct (negb (truthy project)); [now left|].
    destruct (find_project_some _ _ _ _ Hf) as (d & ps & p & idv & _ & _ & _ & -> & Hid & _).
    apply settles_bind; [apply keeps_file_project_setdefault_append|].
    intros w2 [data' project'] w2' Hr.
    destruct (project_setdefault_append_project _ _ _ _ _ _ _ _ _ Hr)
      as (p0 & v & [= <-] & ->).
    left. unfold bind, lift. cbn [getitem].
    rewrite lookup_store_other by discriminate. now rewrite Hid.
  - apply settles_bind; [apply keeps_file_setdefault_append|].
    intros w2 data' w2' _. now left.
Qed.

Lemma settles_main c : settles (main c).
Proof.
  destruct c as [a|a|a|a|a|]; cbn [main].
  - apply settles_project_add.
  - intros w. right. now apply (reads_only_shows (project_list a)).
  - intros w. right. now apply (reads_only_shows (project_detail a)).
  - apply settles_task_add.
  - apply settles_material_add.
  - intros w. right. now apply (reads_only_shows inventory_list).
Qed.

(** *** More on ids *)

Lemma int_ids_dicts ps ids : int_ids ps = Some ids -> forallb is_dict ps = true.
Proof.
  revert ids. induction ps as [|p ps IH]; intros ids H; [reflexivity|].
  cbn [int_ids] in H.
  destruct (int_id p) as [z|] eqn:Ep; [|discriminate].
  destruct (int_ids ps) as [zs|]; [|discriminate].
  cbn [forallb]. rewrite (IH zs eq_refl).
  destruct p; try discriminate Ep. reflexivity.
Qed.


Lemma eq_int_int z n : eq_int (VInt z) n = (z =? n).
Proof.
  unfold eq_int. cbn [as_num num_compare]. rewrite Z.eqb_compare.
  now destruct (z ?= n).
Qed.

Lemma has_id_int_id p z n : int_id p = Some z -> z <> n -> has_id n p = false.
Proof.
  destruct p as [| | | | | |pd]; try discriminate. cbn [int_id has_id].
  destruct (lookup "id" pd) as [[| |z'| | | |]|]; try discriminate.
  - intros [= ->] Hz. rewrite eq_int_int. now apply Z.eqb_neq.
  - reflexivity.
Qed.

(** An id that differs from every stored id is carried by no project. *)
Lemma existsb_has_id_other ps ids n :
  int_ids ps = Some ids -> (forall i, In i ids -> i <> n) ->
  existsb (has_id n) ps = false.
Proof.
  revert ids. induction ps as [|p ps IH]; intros ids H Hn; [reflexivity|].
  cbn [int_ids] in H.
  destruct (int_id p) as [z|] eqn:Ep; [|discriminate].
  destruct (int_ids ps) as [zs|] eqn:Eps; [|discriminate].
  injection H as <-. cbn [existsb].
  rewrite (has_id_int_id _ _ _ Ep) by (apply Hn; now left).
  apply (IH zs eq_refl). intros i Hi. apply Hn. now right.
Qed.

Lemma next_id_above ids i : In i ids -> i < next_id ids.
Proof.
  destruct ids as [|j ids]; [intros []|]. intros H. unfold next_id.
  rewrite fold_left_max_right.
  pose proof (fold_right_max_ge ids j i H). lia.
Qed.

Lemma first_with_id_spec ps pid :
  forall n,
    forallb is_dict ps = true ->
    match first_with_id ps pid n with
    | Ok None => existsb (has_id pid) ps = false
    | Ok (Some (i, p)) =>
        exists j, i = (n + j)%nat /\ nth_error ps j = Some p
                  /\ has_id pid p = true
                  /\ existsb (has_id pid) (firstn j ps) = false
    | _ => False
    end.
Proof.
  induction ps as [|p ps IH]; intros n Hd; [reflexivity|].
  cbn [forallb] in Hd. apply andb_true_iff in Hd. destruct Hd as [Hp Hd].
  destruct p as [| | | | | |pd]; try discriminate Hp.
  cbn [first_with_id get rbind existsb has_id].
  destruct (lookup "id" pd) as [v|] eqn:Ev.
  - destruct (eq_int v pid) eqn:E.
    + exists 0%nat. rewrite Nat.add_0_r. repeat split.
      cbn [has_id]. now rewrite Ev.
    + specialize (IH (S n) Hd).
      destruct (first_with_id ps pid (S n)) as [[[i q]|]| |]; try exact IH.
      destruct IH as (j & -> & Hj & Hq & Hb). exists (S j).
      repeat split; try assumption; [lia|].
      cbn [firstn existsb has_id]. now rewrite Ev, E.
  - cbn [eq_int as_num]. specialize (IH (S n) Hd).
    destruct (first_with_id ps pid (S n)) as [[[i q]|]| |]; try exact IH.
    destruct IH as (j & -> & Hj & Hq & Hb). exists (S j).
    repeat split; try assumption; [lia|].
    cbn [firstn existsb has_id]. now rewrite Ev.
Qed.

Lemma projects_of_get data ps :
  projects_of data = Some ps ->
  exists d, data = VDict d /\ get data "projects" (VList []) = Ok (VList ps).
Proof.
  unfold projects_of. destruct data as [| | | | | |d]; try discriminate.
  intros H. exists d. split; [reflexivity|]. cbn [get].
  destruct (lookup "projects" d) as [[| | | | |ps'|]|]; try discriminate H;
    now injection H as <-.
Qed.

(** *** Printing *)

Lemma printed_nil w : printed w [] = w.
Proof. unfold printed. rewrite List.app_nil_r. now destruct w. Qed.

Lemma printed_app w a b : printed (printed w a) b = printed w (a ++ b).
Proof. unfold printed. cbn. now rewrite <- app_assoc. Qed.

Lemma prints_ret : prints (ret tt) [].
Proof. intros w. unfold ret. now rewrite printed_nil. Qed.

Lemma prints_print l : prints (print l) [l].
Proof. now intros w. Qed.

Lemma prints_seq (c k : M unit) a b :
  prints c a -> prints k b -> prints (c ;; k) (a ++ b).
Proof.
  intros Hc Hk w. unfold bind. rewrite Hc, Hk. now rewrite printed_app.
Qed.

Lemma prints_lift {A} (r : result A) (k : A -> M unit) v ls :
  r = Ok v -> prints (k v) ls -> prints (x <- lift r ;; k x) ls.
Proof. intros -> Hk w. unfold bind, lift. apply Hk. Qed.

Lemma prints_for_each {A B} (f : A -> B) (body : B -> M unit) (l : A -> line) xs :
  (forall x, prints (body (f x)) [l x]) ->
  prints (for_each (map f xs) body) (map l xs).
Proof.
  intros H. induction xs as [|x xs IH]; cbn [map for_each].
  - apply prints_ret.
  - exact (prints_seq _ _ [l x] _ (H x) IH).
Qed.

Lemma prints_material_row l m :
  prints (material_row l (VDict m)) [material_line l m].
Proof.
  unfold material_row.
  eapply prints_lift; [reflexivity|]. eapply prints_lift; [reflexivity|].
  eapply prints_lift; [reflexivity|]. apply prints_print.
Qed.

Lemma enumerate_map {A B} (f : A -> B) xs n :
  enumerate (map f xs) n = map (fun it => (fst it, f (snd it))) (enumerate xs n).
Proof.
  revert n. induction xs as [|x xs IH]; intros n; cbn [map enumerate];
    [reflexivity | now rewrite IH].
Qed.

Lemma prints_task_row (it : Z * items) :
  prints (task_row (fst it, VDict (snd it))) [task_line it].
Proof.
  unfold task_row.
  eapply prints_lift; [reflexivity|]. eapply prints_lift; [reflexivity|].
  eapply prints_lift; [reflexivity|]. apply prints_print.
Qed.

Lemma prints_print_if_set p k l :
  prints (print_if_set (VDict p) k l) (shown l (field k p)).
Proof.
  unfold print_if_set, shown, field. eapply prints_lift; [reflexivity|]. cbn beta.
  destruct (lookup k p) as [v|] eqn:E; cbn [truthy].
  - destruct (truthy v); [|apply prints_ret].
    eapply prints_lift; [cbn [getitem]; now rewrite E | apply prints_print].
  - apply prints_ret.
Qed.

Lemma list_at_get key d l :
  list_at key d = Some l -> get (VDict d) key (VList []) = Ok (VList l).
Proof.
  unfold list_at. cbn [get].
  destruct (lookup key d) as [[| | | | |l'|]|]; try discriminate;
    now intros [= <-].
Qed.

Lemma prints_tasks ts :
  prints
    (if truthy (VList (map VDict ts)) then
       print TasksHeader ;;
       xs <- lift (iter (VList (map VDict ts))) ;;
       for_each (enumerate xs 1) task_row
     else print NoTasks)
    (task_lines ts).
Proof.
  destruct ts as [|t ts]; [apply prints_print|].
  cbn [map truthy task_lines].
  apply (prints_seq _ _ [TasksHeader]); [apply prints_print|].
  eapply prints_lift; [reflexivity|].
  change (VDict t :: map VDict ts) with (map VDict (t :: ts)).
  rewrite enumerate_map.
  apply (prints_for_each (fun it : Z * items => (fst it, VDict (snd it)))
           task_row task_line (enumerate (t :: ts) 1)).
  intros it. apply prints_task_row.
Qed.

Lemma prints_materials header empty l ms :
  prints
    (if truthy (VList (map VDict ms)) then
       print header ;;
       xs <- lift (iter (VList (map VDict ms))) ;;
       for_each xs (material_row l)
     else print empty)
    (match ms with
     | [] => [empty]
     | _ => header :: map (material_line l) ms
     end).
Proof.
  destruct ms as [|m ms]; [apply prints_print|].
  cbn [map truthy].
  apply (prints_seq _ _ [header]); [apply prints_print|].
  eapply prints_lift; [reflexivity|].
  change (VDict m :: map VDict ms) with (map VDict (m :: ms)).
  apply (prints_for_each VDict (material_row l) (material_line l) (m :: ms)).
  intros x. apply prints_material_row.
Qed.

Lemma prints_run (m : M unit) ls file :
  prints m ls ->
  m (start file) =
  (Ok tt, {| DEFAULT_DATA := DEFAULT_DATA (start file);
             DATA_FILE := file; stdout := ls |}).
Proof. intros H. now rewrite H. Qed.

(** [inventory list] on a document with an inventory of dicts. *)
Lemma inventory_list_run file data d inv :
  loads_as file data -> doc data = VDict d ->
  list_at "inventory" d = Some (map VDict inv) ->
  invoke inventory_list file =
  (Ok tt, {| DEFAULT_DATA := DEFAULT_DATA (start file);
             DATA_FILE := file;
             stdout := inventory_listing inv |}).
Proof.
  intros Hl Hd Hi. apply loads_as_run in Hl.
  unfold invoke, main, cmd_inventory_list. unfold bind at 1. rewrite Hl.
  apply prints_run. rewrite Hd.
  eapply prints_lift; [exact (list_at_get _ _ _ Hi)|].
  destruct inv as [|m inv]; [apply prints_print|].
  exact (prints_materials InventoryHeader NoInventory InventoryRow (m :: inv)).
Qed.

(** [project detail] on a project that was found. *)
Lemma project_detail_run file data pid i p name customer ts ms :
  loads_as file data ->
  find_project (doc data) pid = Ok (Some (i, VDict p)) ->
  lookup "name" p = Some name -> lookup "customer" p = Some customer ->
  list_at "tasks" p = Some (map VDict ts) ->
  list_at "materials" p = Some (map VDict ms) ->
  exists id,
    lookup "id" p = Some id /\
    invoke (project_detail {| ProjectDetail.project_id := pid |}) file =
    (Ok tt, {| DEFAULT_DATA := DEFAULT_DATA (start file);
               DATA_FILE := file;
               stdout := detail id name customer p ts ms |}).
Proof.
  intros Hl Hf Hn Hc Ht Hm.
  destruct (find_project_some _ _ _ _ Hf) as (d & ps & p0 & id & _ & _ & _ & Hp0 & Hid & _).
  injection Hp0 as <-. exists id. split; [exact Hid|].
  apply loads_as_run in Hl.
  unfold invoke, main, cmd_project_detail. unfold bind at 1. rewrite Hl.
  cbn [ProjectDetail.project_id]. unfold bind at 1, lift at 1. rewrite Hf.
  rewrite (truthy_found _ _ Hid). cbn [negb].
  apply prints_run. unfold detail.
  eapply prints_lift; [cbn [getitem]; now rewrite Hid|].
  eapply prints_lift; [cbn [getitem]; now rewrite Hn|].
  apply (prints_seq _ _ [DetailTitle id name]); [apply prints_print|].
  eapply prints_lift; [cbn [getitem]; now rewrite Hc|].
  apply (prints_seq _ _ [DetailCustomer customer]); [apply prints_print|].
  apply prints_seq; [apply prints_print_if_set|].
  apply prints_seq; [apply prints_print_if_set|].
  eapply prints_lift; [reflexivity|].
  apply (prints_seq _ _ [DetailStatus (field_or_dash "status" p)]);
    [apply prints_print|].
  apply prints_seq; [apply prints_print_if_set|].
  eapply prints_lift; [exact (list_at_get _ _ _ Ht)|].
  apply prints_seq; [apply prints_tasks|].
  eapply prints_lift; [exact (list_at_get _ _ _ Hm)|].
  exact (prints_materials MaterialsHeader NoMaterials MaterialRow ms).
Qed.

(** *** The document after an append to a project *)

Lemma first_with_id_split ps pid :
  forall n i p,
    first_with_id ps pid n = Ok (Some (i, p)) ->
    exists before after,
      ps = (before ++ p :: after)%list /\ i = (n + List.length before)%nat
      /\ forallb is_dict before = true
      /\ existsb (has_id pid) before = false
      /\ has_id pid p = true.
Proof.
  induction ps as [|q ps IH]; intros n i p H; [discriminate H|].
  cbn [first_with_id] in H.
  destruct q as [| | | | | |qd]; try discriminate H. cbn [get rbind] in H.
  destruct (eq_int match lookup "id" qd with Some v => v | None => VNone end pid)
    eqn:E.
  - injection H as <- <-. exists [], ps. cbn [app List.length].
    rewrite Nat.add_0_r. repeat split. cbn [has_id].
    destruct (lookup "id" qd); [exact E | discriminate E].
  - destruct (IH _ _ _ H) as (before & after & -> & -> & Hd & He & Hp).
    exists (VDict qd :: before), after. cbn [app List.length forallb existsb].
    repeat split; try assumption; [lia|].
    rewrite He, orb_false_r. cbn [has_id].
    destruct (lookup "id" qd); [exact E | reflexivity].
Qed.

(** A successful lookup splits the stored projects at the project it
    returns: the ones before are dicts that do not carry the id. *)
Lemma find_project_split data pid i p :
  find_project data pid = Ok (Some (i, p)) ->
  exists d before after,
    data = VDict d
    /\ lookup "projects" d = Some (VList (before ++ p :: after)%list)
    /\ i = List.length before
    /\ forallb is_dict before = true
    /\ existsb (has_id pid) before = false
    /\ has_id pid p = true.
Proof.
  intros H.
  destruct (find_project_some _ _ _ _ H) as (d & ps & p0 & idv & -> & Hps & _).
  unfold find_project in H. cbn [get rbind] in H. rewrite Hps in H.
  cbn [iter rbind] in H.
  destruct (first_with_id_split _ _ _ _ _ H) as (b & a & -> & -> & Hd & He & Hp).
  exists d, b, a. now repeat split.
Qed.

Lemma replace_nth_app {A} (before after : list A) x y :
  replace_nth (List.length before) y (before ++ x :: after)
  = (before ++ y :: after)%list.
Proof.
  induction before as [|b before IH]; cbn [List.length app replace_nth];
    [reflexivity | now rewrite IH].
Qed.

(** [project.setdefault(key, []).append(item)] on a project that was
    found, with the document it leaves written out. *)
Lemma project_append_file file data pid i p key item l :
  loads_as file data ->
  find_project (doc data) pid = Ok (Some (i, VDict p)) ->
  list_at key p = Some l ->
  exists d before after defaults,
    doc data = VDict d
    /\ lookup "projects" d = Some (VList (before ++ VDict p :: after)%list)
    /\ i = List.length before
    /\ forallb is_dict before = true
    /\ existsb (has_id pid) before = false
    /\ has_id pid (VDict p) = true
    /\ project_setdefault_append data i (VDict p) key item (start file) =
       (Ok ({| doc :=
                 VDict (store "projects"
                          (VList (before
                                  ++ VDict (store key (VList (l ++ [item])) p)
                                  :: after)) d);
               aliased := aliased data |},
            VDict (store key (VList (l ++ [item])%list) p)),
        {| DEFAULT_DATA := defaults; DATA_FILE := file; stdout := [] |}).
Proof.
  intros Hl Hf Hk.
  destruct (find_project_split _ _ _ _ Hf) as (d & b & a & Hd & Hps & -> & Hb & He & Hp).
  exists d, b, a.
  assert (G : exists defaults,
    project_setdefault_append data (List.length b) (VDict p) key item (start file) =
    (Ok ({| doc :=
              VDict (store "projects"
                       (VList (b ++ VDict (store key (VList (l ++ [item])) p) :: a)) d);
            aliased := aliased data |},
         VDict (store key (VList (l ++ [item])%list) p)),
     {| DEFAULT_DATA := defaults; DATA_FILE := file; stdout := [] |})).
  { unfold project_setdefault_append, bind, lift.
    rewrite (appended_list_at _ _ _ item Hk). unfold mutated, ret.
    rewrite Hd. unfold with_project. rewrite Hps, replace_nth_app.
    destruct (aliased data); eexists; reflexivity. }
  destruct G as (defaults & G). exists defaults. now repeat split.
Qed.

Lemma has_id_lookup pid p : has_id pid (VDict p) = true -> exists v, lookup "id" p = Some v.
Proof. cbn [has_id]. destruct (lookup "id" p); [eauto | discriminate]. Qed.

Lemma task_add_file file data args i p ts :
  loads_as file data ->
  find_project (doc data) (TaskAdd.project_id args) = Ok (Some (i, VDict p)) ->
  list_at "tasks" p = Some ts ->
  exists d before after idv defaults,
    doc data = VDict d
    /\ lookup "projects" d = Some (VList (before ++ VDict p :: after)%list)
    /\ i = List.length before
    /\ forallb is_dict before = true
    /\ existsb (has_id (TaskAdd.project_id args)) before = false
    /\ lookup "id" p = Some idv
    /\ eq_int idv (TaskAdd.project_id args) = true
    /\ invoke (task_add args) file =
       (Ok tt,
        {| DEFAULT_DATA := defaults;
           DATA_FILE :=
             Some (Json.dumps
                     (VDict (store "projects"
                               (VList (before
                                       ++ VDict (store "tasks"
                                                   (VList (ts ++ [new_task args])) p)
                                       :: after)) d)));
           stdout := [TaskSaved idv (TaskAdd.title args)] |}).
Proof.
  intros Hl Hf Hk.
  destruct (project_append_file file data _ i p "tasks" (new_task args) ts Hl Hf Hk)
    as (d & b & a & defaults & Hd & Hps & Hi & Hb & He & Hp & Hrun).
  destruct (has_id_lookup _ _ Hp) as (idv & Hid).
  exists d, b, a, idv, defaults. repeat split; try assumption.
  - cbn [has_id] in Hp. now rewrite Hid in Hp.
  - apply loads_as_run in Hl.
    unfold invoke, main, cmd_task_add, bind. rewrite Hl. unfold lift. rewrite Hf.
    rewrite (truthy_found _ _ Hid). cbn [negb].
    fold (new_task args). rewrite Hrun. unfold save_data, print.
    cbn [doc getitem]. rewrite lookup_store_other by discriminate.
    rewrite Hid. reflexivity.
Qed.

Lemma material_add_project_file file data args pid i p ms :
  loads_as file data ->
  given_id (MaterialAdd.project_id args) = Some pid ->
  find_project (doc data) pid = Ok (Some (i, VDict p)) ->
  list_at "materials" p = Some ms ->
  exists d before after idv defaults,
    doc data = VDict d
    /\ lookup "projects" d = Some (VList (before ++ VDict p :: after)%list)
    /\ i = List.length before
    /\ forallb is_dict before = true
    /\ existsb (has_id pid) before = false
    /\ lookup "id" p = Some idv
    /\ eq_int idv pid = true
    /\ invoke (material_add args) file =
       (Ok tt,
        {| DEFAULT_DATA := defaults;
           DATA_FILE :=
             Some (Json.dumps
                     (VDict (store "projects"
                               (VList (before
                                       ++ VDict (store "materials"
                                                   (VList (ms ++ [new_material args])) p)
                                       :: after)) d)));
           stdout := [material_added (OfProject idv) args] |}).
Proof.
  intros Hl Hg Hf Hk.
  destruct (project_append_file file data _ i p "materials" (new_material args) ms
              Hl Hf Hk)
    as (d & b & a & defaults & Hd & Hps & Hi & Hb & He & Hp & Hrun).
  destruct (has_id_lookup _ _ Hp) as (idv & Hid).
  exists d, b, a, idv, defaults. repeat split; try assumption.
  - cbn [has_id] in Hp. now rewrite Hid in Hp.
  - apply loads_as_run in Hl.
    unfold invoke, main, cmd_material_add, bind. rewrite Hl, Hg. unfold lift.
    rewrite Hf. rewrite (truthy_found _ _ Hid). cbn [negb].
    fold (new_material args). rewrite Hrun. unfold save_data, print.
    cbn [doc getitem]. rewrite lookup_store_other by discriminate.
    rewrite Hid. reflexivity.
Qed.


(** *** Commands on valid documents *)

Lemma forallb_filter {A} (f g : A -> bool) l :
  forallb f l = true -> forallb f (filter g l) = true.
Proof.
  induction l as [|x l IH]; [reflexivity|]. cbn [forallb filter].
  intros H. apply andb_true_iff in H. destruct H as [Hx H].
  destruct (g x); cbn [forallb]; [now rewrite Hx, IH | now apply IH].
Qed.

Lemma forallb_dicts l : forallb is_dict l = true -> exists ds, l = map VDict ds.
Proof.
  induction l as [|x l IH]; intros H; [now exists []|].
  cbn [forallb] in H. apply andb_true_iff in H. destruct H as [Hx H].
  destruct (IH H) as (ds & ->). destruct x as [| | | | | |d]; try discriminate Hx.
  now exists (d :: ds).
Qed.

Lemma valid_task_is_dict t : valid_task t = true -> is_dict t = true.
Proof. now destruct t. Qed.

Lemma valid_material_is_dict m : valid_material m = true -> is_dict m = true.
Proof. now destruct m. Qed.

Lemma is_list_of_dicts ok key d :
  (forall v, ok v = true -> is_dict v = true) ->
  is_list_of ok (lookup key d) = true ->
  exists l, list_at key d = Some (map VDict l) /\ forallb ok (map VDict l) = true.
Proof.
  intros Hok. unfold is_list_of, list_at.
  destruct (lookup key d) as [[| | | | |l|]|]; try discriminate.
  - intros H. destruct (forallb_dicts l (forallb_impl _ _ _ Hok H)) as (ds & ->).
    now exists ds.
  - intros _. now exists [].
Qed.

Lemma valid_new_task args : valid_task (new_task args) = true.
Proof.
  unfold new_task, Task.to_dict. cbn. now destruct (TaskAdd.due_date args).
Qed.

Lemma valid_new_project n args : valid_project (new_project (VInt n) args) = true.
Proof.
  unfold new_project, Project.to_dict. cbn.
  now destruct (ProjectAdd.address args), (ProjectAdd.due_date args),
    (ProjectAdd.notes args).
Qed.

(** A valid project stays valid when a valid list is stored under
    ["tasks"] or ["materials"]. *)
Lemma valid_project_store_tasks p ts :
  valid_project (VDict p) = true -> forallb valid_task ts = true ->
  valid_project (VDict (store "tasks" (VList ts) p)) = true.
Proof.
  cbn [valid_project]. intros H Hts.
  rewrite lookup_store_same, !lookup_store_other by discriminate.
  cbn [is_list_of]. rewrite !andb_true_iff in H |- *.
  repeat match goal with G : _ /\ _ |- _ => destruct G end.
  repeat split; assumption.
Qed.

Lemma valid_project_store_materials p ms :
  valid_project (VDict p) = true -> forallb valid_material ms = true ->
  valid_project (VDict (store "materials" (VList ms) p)) = true.
Proof.
  cbn [valid_project]. intros H Hms.
  rewrite lookup_store_same, !lookup_store_other by discriminate.
  cbn [is_list_of]. rewrite !andb_true_iff in H |- *.
  repeat match goal with G : _ /\ _ |- _ => destruct G end.
  repeat split; assumption.
Qed.

Lemma forallb_middle {A} (f : A -> bool) before x after :
  forallb f (before ++ x :: after) = true ->
  forallb f before = true /\ f x = true /\ forallb f after = true.
Proof.
  rewrite forallb_app. cbn [forallb]. intros H.
  apply andb_true_iff in H. destruct H as [H1 H]. apply andb_true_iff in H.
  tauto.
Qed.

Lemma forallb_middle_set {A} (f : A -> bool) before x y after :
  forallb f (before ++ x :: after) = true -> f y = true ->
  forallb f (before ++ y :: after) = true.
Proof.
  intros H Hy. destruct (forallb_middle _ _ _ _ H) as (H1 & _ & H3).
  rewrite forallb_app. cbn [forallb]. now rewrite H1, Hy, H3.
Qed.

Lemma valid_document_parts d :
  valid_document (VDict d) = true <->
  json_ok (VDict d) = true
  /\ is_list_of valid_project (lookup "projects" d) = true
  /\ is_list_of valid_material (lookup "inventory" d) = true.
Proof.
  unfold valid_document. rewrite !andb_true_iff. tauto.
Qed.

(** The document after a valid project has been changed into a valid
    one. *)
Lemma valid_document_project d before p p' after :
  valid_document (VDict d) = true ->
  lookup "projects" d = Some (VList (before ++ p :: after)%list) ->
  valid_project p' = true -> json_ok p' = true ->
  valid_document
    (VDict (store "projects" (VList (before ++ p' :: after)) d)) = true.
Proof.
  intros H Hps Hp Hj. apply valid_document_parts in H.
  destruct H as (Hok & Hpr & Hinv). apply valid_document_parts.
  rewrite lookup_store_same, lookup_store_other by discriminate.
  rewrite Hps in Hpr. cbn [is_list_of] in Hpr |- *.
  split; [|split; [exact (forallb_middle_set _ _ _ _ _ Hpr Hp) | exact Hinv]].
  apply json_ok_store; [exact Hok|].
  pose proof (json_ok_lookup _ _ _ Hok Hps) as Hl. cbn [json_ok] in Hl |- *.
  exact (forallb_middle_set _ _ _ _ _ Hl Hj).
Qed.

Lemma is_list_of_list_at_all ok key d l :
  is_list_of ok (lookup key d) = true -> list_at key d = Some l ->
  forallb ok l = true.
Proof.
  unfold is_list_of, list_at.
  destruct (lookup key d) as [[| | | | |l'|]|]; try discriminate.
  - now intros H [= <-].
  - now intros _ [= <-].
Qed.

Lemma json_ok_list_at key d l :
  json_ok (VDict d) = true -> list_at key d = Some l -> json_ok (VList l) = true.
Proof.
  intros H. unfold list_at.
  destruct (lookup key d) as [[| | | | |l'|]|] eqn:E; try discriminate.
  - intros [= <-]. exact (json_ok_lookup _ _ _ H E).
  - now intros [= <-].
Qed.

Lemma valid_project_parts p :
  valid_project (VDict p) = true ->
  (exists name, lookup "name" p = Some name)
  /\ (exists customer, lookup "customer" p = Some customer)
  /\ is_list_of valid_task (lookup "tasks" p) = true
  /\ is_list_of valid_material (lookup "materials" p) = true.
Proof.
  cbn [valid_project]. intros H.
  repeat (apply andb_true_iff in H; let G := fresh "G" in destruct H as [H G]).
  repeat split; try assumption.
  - destruct (lookup "name" p); [eauto | discriminate].
  - destruct (lookup "customer" p); [eauto | discriminate].
Qed.

(** The lookup on a document whose projects are dicts. *)
Lemma find_project_dicts data ps pid :
  projects_of data = Some ps -> forallb is_dict ps = true ->
  find_project data pid = Ok None
  \/ exists i p, find_project data pid = Ok (Some (i, p)) /\ nth_error ps i = Some p.
Proof.
  intros Hps Hd. destruct (projects_of_get _ _ Hps) as (d & -> & G).
  unfold find_project. rewrite G. cbn [rbind iter].
  pose proof (first_with_id_spec ps pid 0 Hd) as H.
  destruct (first_with_id ps pid 0) as [[[i p]|]| |]; try contradiction.
  - destruct H as (j & -> & H & _). right. now exists j, p.
  - now left.
Qed.

Lemma nth_error_forallb {A} (f : A -> bool) l i x :
  forallb f l = true -> nth_error l i = Some x -> f x = true.
Proof.
  intros H Hn. rewrite forallb_forall in H. apply H.
  exact (nth_error_In _ _ Hn).
Qed.

Lemma int_id_store key v p :
  key <> "id" -> int_id (VDict (store key v p)) = int_id (VDict p).
Proof.
  intros Hk. cbn [int_id]. rewrite lookup_store_other; [reflexivity|].
  intros E. apply Hk. now symmetry.
Qed.

Lemma int_ids_middle before p p' after :
  int_id p' = int_id p ->
  int_ids (before ++ p' :: after) = int_ids (before ++ p :: after).
Proof.
  intros H. induction before as [|b before IH]; cbn [app int_ids].
  - now rewrite H.
  - now rewrite IH.
Qed.

Lemma holds_valid_ids_saved data ids :
  valid_document data = true -> stored_ids data = Some ids ->
  holds_valid_ids (Some (Json.dumps data)) ids.
Proof.
  intros H Hids. exists {| doc := data; aliased := false |}.
  split; [|split; [exact H | exact Hids]].
  apply loads_as_saved. now apply valid_document_json_ok.
Qed.

(** A command on a valid document: it returns; [project add] announces
    the next id; and the command leaves a valid file, with the ids that
    were there and the new one behind them, when the quantity it brings
    can be held. *)
Lemma valid_step c file data ids :
  loads_as file data -> valid_document (doc data) = true ->
  stored_ids (doc data) = Some ids ->
  fst (invoke c file) = Ok tt
  /\ (forall args, c = project_add args ->
       stdout (snd (invoke c file))
       = [ProjectCreated (VInt (next_id ids)) (ProjectAdd.name args)
            (ProjectAdd.customer args)])
  /\ (quantity_ok c = true ->
       holds_valid_ids (DATA_FILE (snd (invoke c file))) (ids_after c ids)).
Proof.
  intros Hl Hv Hids0.
  assert (Hsame : holds_valid_ids file ids) by (now exists data).
  destruct (valid_document_projects _ Hv) as (d & ps & Hd & Hps & Hvp & Hdp).
  rewrite Hd in Hv. pose proof Hv as Hparts. apply valid_document_parts in Hparts.
  destruct Hparts as (Hok & Hpr & Hinv).
  assert (Hids : int_ids ps = Some ids)
    by (unfold stored_ids in Hids0; now rewrite Hps in Hids0).
  destruct c as [a|a|a|a|a|].
  - (* project add *)
    destruct (project_add_run a _ _ _ Hl Hids0) as (d0 & ps0 & Hd0 & Hps0 & ->).
    split; [reflexivity|]. split; [now intros args [= <-]|].
    intros _. cbn [snd DATA_FILE ids_after].
    assert (d0 = d) by congruence. assert (ps0 = ps) by congruence. subst d0 ps0.
    apply holds_valid_ids_saved.
    + apply valid_document_parts.
      rewrite lookup_store_same, lookup_store_other by discriminate.
      cbn [is_list_of]. rewrite forallb_app, Hvp. cbn [forallb].
      rewrite valid_new_project. split; [|split; [reflexivity | exact Hinv]].
      apply json_ok_store; [exact Hok|]. apply json_ok_snoc.
      * rewrite Hd in Hps. exact (json_ok_projects _ _ Hok Hps).
      * now apply json_ok_new_project.
    + unfold stored_ids. rewrite projects_of_store.
      now apply int_ids_snoc.
  - (* project list *)
    destruct a as [status].
    destruct (valid_projects_rows
                (match given_status status with
                 | Some x => filter (has_status x) ps
                 | None => ps
                 end)) as (rows & Hrows).
    { destruct (given_status status); [now apply forallb_filter | exact Hvp]. }
    rewrite (project_list_run file data ps status rows Hl Hps Hdp Hrows).
    split; [reflexivity|]. split; [discriminate | intros _; exact Hsame].
  - (* project detail *)
    destruct a as [pid].
    destruct (find_project_dicts _ _ pid Hps Hdp) as [Hf|(i & p & Hf & Hi)].
    + rewrite (not_found_run (project_detail {| ProjectDetail.project_id := pid |})
                 file data pid eq_refl Hl Hf).
      split; [reflexivity|]. split; [discriminate | intros _; exact Hsame].
    + pose proof (nth_error_forallb _ _ _ _ Hvp Hi) as Hp.
      destruct p as [| | | | | |pd]; try discriminate Hp.
      destruct (valid_project_parts _ Hp) as ((name & Hn) & (customer & Hc) & Ht & Hm).
      destruct (is_list_of_dicts _ _ _ valid_task_is_dict Ht) as (ts & Hts & _).
      destruct (is_list_of_dicts _ _ _ valid_material_is_dict Hm) as (ms & Hms & _).
      destruct (project_detail_run file data pid i pd name customer ts ms
                  Hl Hf Hn Hc Hts Hms) as (id & _ & ->).
      split; [reflexivity|]. split; [discriminate | intros _; exact Hsame].
  - (* task add *)
    destruct (find_project_dicts _ _ (TaskAdd.project_id a) Hps Hdp)
      as [Hf|(i & p & Hf & Hi)].
    + rewrite (not_found_run (task_add a) file data _ eq_refl Hl Hf).
      split; [reflexivity|]. split; [discriminate | intros _; exact Hsame].
    + pose proof (nth_error_forallb _ _ _ _ Hvp Hi) as Hp.
      destruct p as [| | | | | |pd]; try discriminate Hp.
      destruct (valid_project_parts _ Hp) as (_ & _ & Ht & _).
      destruct (is_list_of_list_at _ _ _ Ht) as (ts & Hts).
      destruct (task_add_file file data a i pd ts Hl Hf Hts)
        as (d0 & b & af & idv & defaults & Hd0 & Hps0 & _ & _ & _ & _ & _ & ->).
      split; [reflexivity|]. split; [discriminate|].
      intros _. cbn [snd DATA_FILE ids_after].
      assert (d0 = d) by congruence. subst d0.
      pose proof (json_ok_lookup _ _ _ Hok Hps0) as Hl0. cbn [json_ok] in Hl0.
      destruct (forallb_middle _ _ _ _ Hl0) as (_ & Hjp & _).
      apply holds_valid_ids_saved.
      * apply (valid_document_project d b (VDict pd)); try assumption.
        -- apply valid_project_store_tasks; [exact Hp|].
           rewrite forallb_app, (is_list_of_list_at_all _ _ _ _ Ht Hts).
           cbn [forallb]. now rewrite valid_new_task.
        -- apply json_ok_store; [exact Hjp|].
           apply json_ok_snoc; [|apply json_ok_new_task].
           exact (json_ok_list_at "tasks" pd _ Hjp Hts).
      * unfold stored_ids. rewrite projects_of_store.
        rewrite (int_ids_middle b (VDict pd)) by (now apply int_id_store).
        unfold projects_of in Hps. rewrite Hd, Hps0 in Hps.
        injection Hps as <-. exact Hids.
  - (* material add *)
    destruct (given_id (MaterialAdd.project_id a)) as [pid|] eqn:Hg.
    + destruct (find_project_dicts _ _ pid Hps Hdp) as [Hf|(i & p & Hf & Hi)].
      * rewrite (not_found_run (material_add a) file data pid Hg Hl Hf).
        split; [reflexivity|]. split; [discriminate | intros _; exact Hsame].
      * pose proof (nth_error_forallb _ _ _ _ Hvp Hi) as Hp.
        destruct p as [| | | | | |pd]; try discriminate Hp.
        destruct (valid_project_parts _ Hp) as (_ & _ & _ & Hm).
        destruct (is_list_of_list_at _ _ _ Hm) as (ms & Hms).
        destruct (material_add_project_file file data a pid i pd ms Hl Hg Hf Hms)
          as (d0 & b & af & idv & defaults & Hd0 & Hps0 & _ & _ & _ & _ & _ & ->).
        split; [reflexivity|]. split; [discriminate|].
        intros Hq. cbn [snd DATA_FILE quantity_ok ids_after] in *.
        assert (d0 = d) by congruence. subst d0.
        pose proof (json_ok_lookup _ _ _ Hok Hps0) as Hl0. cbn [json_ok] in Hl0.
        destruct (forallb_middle _ _ _ _ Hl0) as (_ & Hjp & _).
        apply holds_valid_ids_saved.
        -- apply (valid_document_project d b (VDict pd)); try assumption.
           ++ apply valid_project_store_materials; [exact Hp|].
              rewrite forallb_app, (is_list_of_list_at_all _ _ _ _ Hm Hms).
              reflexivity.
           ++ apply json_ok_store; [exact Hjp|].
              apply json_ok_snoc; [|now rewrite json_ok_new_material].
              exact (json_ok_list_at "materials" pd _ Hjp Hms).
        -- unfold stored_ids. rewrite projects_of_store.
           rewrite (int_ids_middle b (VDict pd)) by (now apply int_id_store).
           unfold projects_of in Hps. rewrite Hd, Hps0 in Hps.
           injection Hps as <-. exact Hids.
    + destruct (is_list_of_list_at _ _ _ Hinv) as (inv & Hi).
      destruct (material_add_inventory_run file data a d inv Hl Hg Hd Hi)
        as (defaults & ->).
      split; [reflexivity|]. split; [discriminate|].
      intros Hq. cbn [snd DATA_FILE quantity_ok ids_after] in *.
      apply holds_valid_ids_saved.
      * apply valid_document_parts.
        rewrite lookup_store_same, lookup_store_other by discriminate.
        cbn [is_list_of].
        rewrite forallb_app, (is_list_of_list_at_all _ _ _ _ Hinv Hi).
        split; [|split; [exact Hpr | reflexivity]].
        apply json_ok_store; [exact Hok|].
        apply json_ok_snoc; [|now rewrite json_ok_new_material].
        exact (json_ok_list_at "inventory" d _ Hok Hi).
      * unfold stored_ids, projects_of.
        rewrite lookup_store_other by discriminate.
        unfold projects_of in Hps. rewrite Hd in Hps. now rewrite Hps.
  - (* inventory list *)
    destruct (is_list_of_dicts _ _ _ valid_material_is_dict Hinv) as (inv & Hi & _).
    rewrite (inventory_list_run file data d inv Hl Hd Hi).
    split; [reflexivity|]. split; [discriminate | intros _; exact Hsame].
Qed.

(** *** The module global *)

Lemma keeps_default_bind {A B} (c : M A) (k : A -> M B) :
  keeps_default c -> (forall a, keeps_default (k a)) -> keeps_default (bind c k).
Proof.
  intros Hc Hk w. unfold bind. specialize (Hc w).
  destruct (c w) as [[a|e|] w']; cbn [snd] in Hc; [|exact Hc|exact Hc].
  now rewrite Hk.
Qed.

Lemma keeps_default_lift {A} (r : result A) : keeps_default (lift r).
Proof. now intros w. Qed.

Lemma keeps_default_ret {A} (a : A) : keeps_default (ret a).
Proof. now intros w. Qed.

Lemma keeps_default_print l : keeps_default (print l).
Proof. now intros w. Qed.

Lemma keeps_default_save_data data : keeps_default (save_data data).
Proof. now intros w. Qed.

Lemma keeps_default_mutated data doc' :
  aliased data = false -> keeps_default (mutated data doc').
Proof. intros H w. unfold mutated. now rewrite H. Qed.

Lemma keeps_default_setdefault_append data key item :
  aliased data = false -> keeps_default (setdefault_append data key item).
Proof.
  intros H. unfold setdefault_append.
  destruct (doc data); try apply keeps_default_lift.
  apply keeps_default_bind; [apply keeps_default_lift|]. intros l.
  destruct (lookup key d);
    [now apply keeps_default_mutated | apply keeps_default_ret].
Qed.

Lemma keeps_default_project_setdefault_append data i project key item :
  aliased data = false ->
  keeps_default (project_setdefault_append data i project key item).
Proof.
  intros H. unfold project_setdefault_append.
  destruct project; try apply keeps_default_lift.
  apply keeps_default_bind; [apply keeps_default_lift|]. intros l.
  apply keeps_default_bind; [now apply keeps_default_mutated|]. intros data'.
  apply keeps_default_ret.
Qed.

Ltac keeps_default_step :=
  first
    [ apply keeps_default_ret
    | apply keeps_default_lift
    | apply keeps_default_print
    | apply keeps_default_save_data
    | apply keeps_default_setdefault_append; assumption
    | apply keeps_default_project_setdefault_append; assumption
    | apply keeps_default_bind; [|intros ?]
    | match goal with
      | |- keeps_default (if ?b then _ else _) => destruct b
      | |- keeps_default (match ?x with _ => _ end) => destruct x
      end ].

(** What follows [load_data] when the file is there: the document is no
    copy of [DEFAULT_DATA]. *)
Lemma keeps_default_loaded (k : loaded -> M unit) w text :
  (forall data, aliased data = false -> keeps_default (k data)) ->
  DATA_FILE w = Some text ->
  DEFAULT_DATA (snd (bind load_data k w)) = DEFAULT_DATA w.
Proof.
  intros Hk Hw. unfold bind, load_data. rewrite Hw.
  destruct (Json.loads text) as [v| |]; cbn [rbind snd]; try reflexivity.
  now apply Hk.
Qed.

Lemma main_keeps_default c w text :
  DATA_FILE w = Some text -> DEFAULT_DATA (snd (main c w)) = DEFAULT_DATA w.
Proof.
  intros Hw. destruct c as [a|a|a|a|a|]; cbn [main].
  - apply (keeps_default_loaded _ w text); [|exact Hw]. intros data Ha.
    repeat keeps_default_step.
  - exact (proj1 (reads_only_shows (project_list a) eq_refl w)).
  - exact (proj1 (reads_only_shows (project_detail a) eq_refl w)).
  - apply (keeps_default_loaded _ w text); [|exact Hw]. intros data Ha.
    repeat keeps_default_step.
  - apply (keeps_default_loaded _ w text); [|exact Hw]. intros data Ha.
    cbv zeta. repeat keeps_default_step.
  - exact (proj1 (reads_only_shows inventory_list eq_refl w)).
Qed.

(** *** Ids that are not numbers *)

Lemma gt_kinds item cur :
  is_list item = false ->
  gt item cur = Raise TypeError
  \/ exists b, gt item cur = Ok b
               /\ is_number item = is_number cur
               /\ is_list cur = false.
Proof.
  intros Hi. unfold gt, is_number.
  destruct item as [|b|z|f|s|l|d]; try discriminate Hi;
    destruct cur as [|b'|z'|f'|s'|l'|d']; cbn [as_num];
    first [now left | right; eexists; repeat split].
Qed.

Lemma max_from_numbers xs :
  forall cur,
    forallb (fun p => negb (is_list (id_or_zero p))) xs = true ->
    is_list cur = false ->
    max_from (fun p => get p "id" (VInt 0)) (map VDict xs) cur = Raise TypeError
    \/ exists m,
         max_from (fun p => get p "id" (VInt 0)) (map VDict xs) cur = Ok m
         /\ is_number m = is_number cur
         /\ (is_number cur = true ->
             forallb (fun p => is_number (id_or_zero p)) xs = true).
Proof.
  induction xs as [|x xs IH]; intros cur Hl Hc.
  - right. exists cur. repeat split.
  - cbn [forallb] in Hl. apply andb_true_iff in Hl. destruct Hl as [Hx Hl].
    apply negb_true_iff in Hx.
    cbn [map max_from get rbind]. fold (id_or_zero x).
    destruct (gt_kinds (id_or_zero x) cur Hx) as [->|(b & -> & Hk & Hc')];
      [now left|]. cbn [rbind].
    destruct (IH (if b then id_or_zero x else cur) Hl) as [->|(m & -> & Hm & Hall)].
    + now destruct b.
    + now left.
    + right. exists m. split; [reflexivity|].
      assert (E : is_number (if b then id_or_zero x else cur) = is_number cur)
        by now destruct b.
      rewrite E in Hm, Hall. split; [exact Hm|].
      intros Hn. cbn [forallb]. now rewrite Hk, Hn, Hall.
Qed.

Lemma next_project_id_not_numbers data ps :
  projects_of data = Some (map VDict ps) ->
  forallb (fun p => negb (is_list (id_or_zero p))) ps = true ->
  existsb (fun p => negb (is_number (id_or_zero p))) ps = true ->
  next_project_id data = Raise TypeError.
Proof.
  intros Hps Hl He. destruct (projects_of_get _ _ Hps) as (d & -> & G).
  unfold next_project_id. rewrite G. cbn [rbind iter].
  destruct ps as [|x xs]; [discriminate He|].
  cbn [forallb existsb] in Hl, He. apply andb_true_iff in Hl.
  destruct Hl as [Hx Hl]. apply negb_true_iff in Hx.
  cbn [map max_default get rbind]. fold (id_or_zero x).
  destruct (max_from_numbers xs (id_or_zero x) Hl Hx) as [->|(m & -> & Hm & Hall)];
    [reflexivity|]. cbn [rbind].
  assert (Hn : is_number m = false).
  { rewrite Hm. destruct (is_number (id_or_zero x)) eqn:E; [|reflexivity].
    exfalso. cbn [negb orb] in He. specialize (Hall eq_refl).
    clear - He Hall. induction xs as [|y ys IH]; [discriminate He|].
    cbn [forallb existsb] in *. apply andb_true_iff in Hall.
    destruct Hall as [Hy Hall]. rewrite Hy in He. now apply IH. }
  unfold add_one. unfold is_number in Hn. now destruct (as_num m).
Qed.

Lemma gt_numbers a b :
  is_number a = true -> is_number b = true -> exists r, gt a b = Ok r.
Proof.
  unfold is_number, gt. destruct (as_num a), (as_num b); try discriminate.
  intros _ _. eauto.
Qed.

Lemma max_from_all_numbers xs :
  forall cur,
    forallb (fun p => is_number (id_or_zero p)) xs = true ->
    is_number cur = true ->
    exists m,
      max_from (fun p => get p "id" (VInt 0)) (map VDict xs) cur = Ok m
      /\ is_number m = true.
Proof.
  induction xs as [|x xs IH]; intros cur Hx Hc; [now exists cur|].
  cbn [forallb] in Hx. apply andb_true_iff in Hx. destruct Hx as [Hx Hxs].
  cbn [map max_from get rbind]. fold (id_or_zero x).
  destruct (gt_numbers _ _ Hx Hc) as (r & ->). cbn [rbind].
  apply IH; [exact Hxs | now destruct r].
Qed.

(** *** Rows that cannot be printed *)

Lemma for_each_rows_stop before p after rows e w :
  Forall2 (fun q l => row q = Ok l) before rows -> row p = Raise e ->
  for_each (before ++ p :: after) list_row w = (Raise e, printed w rows).
Proof.
  intros H Hp. revert w. induction H as [|q l before rows Hq _ IH]; intros w.
  - cbn [app for_each]. unfold bind, list_row, bind, lift. rewrite Hp.
    now rewrite printed_nil.
  - cbn [app for_each]. unfold bind at 1. unfold list_row, bind, lift.
    rewrite Hq. unfold print at 1. rewrite IH.
    unfold printed. cbn. now rewrite <- app_assoc.
Qed.

Lemma row_without_id p : field "id" p = VNone -> row (VDict p) = Raise TypeError.
Proof.
  unfold field, row. cbn [get rbind]. intros H. now rewrite H.
Qed.



(** *** Commands on documents the program can write *)

Lemma storable_at_less v : forall slack slack' room,
  (slack <= slack')%nat ->
  storable_at slack' room v = true -> storable_at slack room v = true.
Proof.
  induction v as [|b|z|f|s|l IHl|d IHd] using JsonFacts.value_nested_ind;
    intros slack slack' room Hs H; try exact H.
  - cbn [storable_at] in H |- *. apply Z.ltb_lt in H. apply Z.ltb_lt. lia.
  - destruct room as [|room]; [discriminate H|]. cbn [storable_at] in H |- *.
    revert H. induction IHl as [|x l Px Pl IH]; intros H; [reflexivity|].
    cbn [forallb] in H |- *. apply andb_true_iff in H. destruct H as [Hx H].
    rewrite (Px _ _ _ Hs Hx). exact (IH H).
  - destruct room as [|room]; [discriminate H|]. cbn [storable_at] in H |- *.
    apply andb_true_iff in H. destruct H as [Hk H]. rewrite Hk. cbn [andb].
    clear Hk. revert H.
    induction IHd as [|[k x] d Px Pd IH]; intros H; [reflexivity|].
    cbn [forallb fst snd] in H, Px |- *. apply andb_true_iff in H.
    destruct H as [Hx H]. apply andb_true_iff in Hx. destruct Hx as [Hk Hx].
    rewrite Hk, (Px _ _ _ Hs Hx). exact (IH H).
Qed.

Lemma storable_at_lookup slack room k d v :
  storable_at slack (S room) (VDict d) = true -> lookup k d = Some v ->
  storable_at slack room v = true.
Proof.
  cbn [storable_at]. intros H Hl. apply andb_true_iff in H. destruct H as [_ H].
  rewrite forallb_forall in H. apply lookup_some_in in Hl.
  specialize (H _ Hl). cbn [fst snd] in H. apply andb_true_iff in H. tauto.
Qed.

Lemma forallb_store_entry (ok : string * value -> bool) k v d :
  forallb ok d = true -> ok (k, v) = true -> forallb ok (store k v d) = true.
Proof.
  intros Hd Hv. induction d as [|[k' v'] d IH]; cbn [store forallb].
  - now rewrite Hv.
  - cbn [forallb] in Hd. apply andb_true_iff in Hd. destruct Hd as [H1 H2].
    destruct (String.eqb_spec k k'); cbn [forallb].
    + now rewrite Hv, H2.
    + now rewrite H1, IH.
Qed.

Lemma storable_at_store slack room k v d :
  storable_at slack (S room) (VDict d) = true -> valid_utf8 k = true ->
  storable_at slack room v = true ->
  storable_at slack (S room) (VDict (store k v d)) = true.
Proof.
  cbn [storable_at]. intros H Hk Hv. apply andb_true_iff in H.
  destruct H as [Hd H]. apply andb_true_iff. split.
  - destruct (lookup k d) as [x|] eqn:E.
    + now rewrite (keys_store_present _ _ _ _ E).
    + rewrite (store_absent _ _ _ E). unfold keys. rewrite map_app.
      apply distinct_app_fresh; [exact Hd | now apply lookup_in].
  - apply forallb_store_entry; [exact H|]. cbn [fst snd]. now rewrite Hk, Hv.
Qed.

Lemma storable_at_snoc slack room l v :
  storable_at slack (S room) (VList l) = true ->
  storable_at slack room v = true ->
  storable_at slack (S room) (VList (l ++ [v])) = true.
Proof.
  cbn [storable_at]. intros Hl Hv. rewrite forallb_app, Hl. cbn [forallb andb].
  now rewrite Hv.
Qed.

Lemma storable_at_list_at slack room key d l :
  storable_at slack (S (S room)) (VDict d) = true -> list_at key d = Some l ->
  storable_at slack (S room) (VList l) = true.
Proof.
  intros H. unfold list_at.
  destruct (lookup key d) as [[| | | | |l'|]|] eqn:E; try discriminate.
  - intros [= <-]. exact (storable_at_lookup _ _ _ _ _ H E).
  - now intros [= <-].
Qed.

Lemma storable_at_middle slack room before p p' after :
  storable_at slack (S room) (VList (before ++ p :: after)) = true ->
  storable_at slack room p' = true ->
  storable_at slack (S room) (VList (before ++ p' :: after)) = true.
Proof. cbn [storable_at]. apply forallb_middle_set. Qed.

Lemma storable_at_element slack room before p after :
  storable_at slack (S room) (VList (before ++ p :: after)) = true ->
  storable_at slack room p = true.
Proof.
  cbn [storable_at]. intros H. now destruct (forallb_middle _ _ _ _ H) as (_ & H2 & _).
Qed.

Lemma storable_opt_str slack room o :
  storable_text o = true -> storable_at slack room (opt_str o) = true.
Proof. destruct o; [intros H; exact H | reflexivity]. Qed.

Lemma storable_new_task slack room args :
  storable_command (task_add args) = true ->
  storable_at slack (S room) (new_task args) = true.
Proof.
  cbn [storable_command]. intros H.
  apply andb_true_iff in H. destruct H as [H Hs].
  apply andb_true_iff in H. destruct H as [Ht Hd].
  unfold new_task, Task.to_dict.
  cbn [Task.title Task.due_date Task.status storable_at keys map fst snd forallb].
  rewrite Ht, Hs, (storable_opt_str slack room _ Hd). reflexivity.
Qed.

Lemma storable_new_material slack room args :
  storable_command (material_add args) = true ->
  storable_at slack (S room) (new_material args) = true.
Proof.
  cbn [storable_command]. intros H.
  apply andb_true_iff in H. destruct H as [H Hu].
  apply andb_true_iff in H. destruct H as [Hn Hq].
  unfold new_material, Material.to_dict.
  cbn [Material.name Material.quantity Material.unit storable_at keys map fst
         snd forallb].
  rewrite Hn, Hq, Hu. reflexivity.
Qed.

Lemma storable_new_project slack room n args :
  storable_command (project_add args) = true ->
  Z.abs n + Z.of_nat slack < int_limit ->
  storable_at slack (S (S room)) (new_project (VInt n) args) = true.
Proof.
  cbn [storable_command]. intros H Hn.
  repeat (apply andb_true_iff in H; let G := fresh "G" in destruct H as [H G]).
  apply Z.ltb_lt in Hn.
  unfold new_project, Project.to_dict.
  cbn [Project.id Project.name Project.customer Project.address
         Project.due_date Project.status Project.notes Project.tasks
         Project.materials storable_at keys map fst snd forallb].
  rewrite Hn, H, G3, G0.
  rewrite !storable_opt_str by assumption. reflexivity.
Qed.

Lemma fold_left_max_in rest : forall i, In (fold_left Z.max rest i) (i :: rest).
Proof.
  induction rest as [|x rest IH]; intros i; [now left|].
  cbn [fold_left]. destruct (IH (Z.max i x)) as [E|E].
  - rewrite <- E. destruct (Z.max_spec i x) as [[_ ->]|[_ ->]];
      [right; now left | now left].
  - right. now right.
Qed.

(** The next id is at most one further from zero than some stored id. *)
Lemma next_id_fits slack ids :
  Forall (fun z => Z.abs z + Z.of_nat (S slack) < int_limit) ids ->
  Z.of_nat (S slack) + 1 < int_limit ->
  Z.abs (next_id ids) + Z.of_nat slack < int_limit.
Proof.
  intros H Hs. destruct ids as [|i rest]; [cbn [next_id]; lia|].
  cbn [next_id]. rewrite Forall_forall in H.
  specialize (H _ (fold_left_max_in rest i)). lia.
Qed.

Lemma int_ids_fit slack room ps : forall ids,
  Z.of_nat slack < int_limit ->
  forallb (storable_at slack (S room)) ps = true -> int_ids ps = Some ids ->
  Forall (fun z => Z.abs z + Z.of_nat slack < int_limit) ids.
Proof.
  induction ps as [|p ps IH]; intros ids Hs H Hi; cbn [int_ids] in Hi.
  - injection Hi as <-. constructor.
  - cbn [forallb] in H. apply andb_true_iff in H. destruct H as [Hp H].
    destruct (int_id p) as [z|] eqn:Ez; [|discriminate].
    destruct (int_ids ps) as [zs|]; [|discriminate].
    injection Hi as <-. constructor; [|now apply IH].
    destruct p as [| | | | | |pd]; try discriminate Ez. cbn [int_id] in Ez.
    destruct (lookup "id" pd) as [[| |z'| | | |]|] eqn:E; try discriminate Ez.
    + injection Ez as <-.
      pose proof (storable_at_lookup _ _ _ _ _ Hp E) as Hz.
      cbn [storable_at] in Hz. now apply Z.ltb_lt in Hz.
    + injection Ez as <-. lia.
Qed.

Lemma stored_ids_fit slack room d ids :
  Z.of_nat slack < int_limit ->
  storable_at slack (S (S (S room))) (VDict d) = true ->
  stored_ids (VDict d) = Some ids ->
  Forall (fun z => Z.abs z + Z.of_nat slack < int_limit) ids.
Proof.
  intros Hs H. unfold stored_ids, projects_of.
  destruct (lookup "projects" d) as [[| | | | |ps|]|] eqn:E; try discriminate.
  - apply (int_ids_fit slack room ps); [exact Hs|].
    exact (storable_at_lookup _ _ _ _ _ H E).
  - intros [= <-]. constructor.
Qed.

Lemma storable_with_parts slack v :
  storable_with slack v = true <->
  Z.of_nat slack + 1 < int_limit /\ storable_at slack max_depth v = true.
Proof.
  unfold storable_with. rewrite andb_true_iff, Z.ltb_lt. tauto.
Qed.

Lemma storable_with_less slack slack' v :
  (slack <= slack')%nat ->
  storable_with slack' v = true -> storable_with slack v = true.
Proof.
  intros Hs H. apply storable_with_parts in H. destruct H as [H1 H2].
  apply storable_with_parts. split; [lia|].
  exact (storable_at_less _ _ _ _ Hs H2).
Qed.

Lemma storable_with_storable slack v :
  storable_with slack v = true -> storable v = true.
Proof.
  intros H. apply storable_with_parts in H. destruct H as [_ H].
  exact (storable_at_less _ _ _ _ (Nat.le_0_l slack) H).
Qed.

Lemma loads_as_same file data data' :
  loads_as file data -> loads_as file data' -> data = data'.
Proof. unfold loads_as. intros H H'. rewrite H in H'. now injection H'. Qed.

Lemma storable_command_quantity c :
  storable_command c = true -> quantity_ok c = true.
Proof.
  destruct c as [a|a|a|a|a|]; try reflexivity. cbn [storable_command quantity_ok].
  intros H. apply andb_true_iff in H. destruct H as [H _].
  apply andb_true_iff in H. destruct H as [_ H].
  now apply FloatFacts.float_text_ok_valid.
Qed.

Lemma loads_as_written data :
  storable data = true ->
  loads_as (Some (Json.dumps data)) {| doc := data; aliased := false |}.
Proof. intros H. apply loads_as_saved. now apply storable_json_ok. Qed.

(** The document with the next project appended. *)
Lemma storable_project_added n d ps ids args :
  storable_with (S n) (VDict d) = true ->
  projects_of (VDict d) = Some ps -> stored_ids (VDict d) = Some ids ->
  storable_command (project_add args) = true ->
  storable_at n max_depth
    (VDict (store "projects"
              (VList (ps ++ [new_project (VInt (next_id ids)) args])) d)) = true.
Proof.
  intros Hs Hps Hids Hc.
  apply storable_with_parts in Hs. destruct Hs as [Hn1 Hs1].
  assert (Hs0 : storable_at n max_depth (VDict d) = true)
    by exact (storable_at_less _ _ _ _ (Nat.le_succ_diag_r n) Hs1).
  change max_depth with (S (S (S (S (S 95))))) in *.
  apply storable_at_store; [exact Hs0 | reflexivity|].
  apply storable_at_snoc.
  - eapply (storable_at_list_at n _ "projects" d); [exact Hs0|].
    unfold list_at. unfold projects_of in Hps.
    destruct (lookup "projects" d) as [[| | | | |l|]|]; try discriminate Hps;
      exact Hps.
  - apply storable_new_project; [exact Hc|].
    apply next_id_fits; [|lia].
    eapply (stored_ids_fit (S n) _ d); [lia | exact Hs1 | exact Hids].
Qed.

(** What a command leaves in the file is a document the program can
    write, when the document it found and what it brings are. *)
Lemma storable_after c file data ids n :
  loads_as file data -> valid_document (doc data) = true ->
  stored_ids (doc data) = Some ids ->
  storable_with (S n) (doc data) = true -> storable_command c = true ->
  exists data',
    loads_as (DATA_FILE (snd (invoke c file))) data'
    /\ storable_with n (doc data') = true.
Proof.
  intros Hl Hv Hids0 Hs Hc.
  assert (Hsame : exists data', loads_as file data'
                                /\ storable_with n (doc data') = true).
  { exists data. split; [exact Hl|].
    exact (storable_with_less n (S n) _ (Nat.le_succ_diag_r n) Hs). }
  destruct (valid_document_projects _ Hv) as (d & ps & Hd & Hps & Hvp & Hdp).
  rewrite Hd in Hv, Hs, Hids0.
  pose proof Hv as Hparts. apply valid_document_parts in Hparts.
  destruct Hparts as (Hok & Hpr & Hinv).
  apply storable_with_parts in Hs. destruct Hs as [Hn1 Hs1].
  assert (Hs0 : storable_at n max_depth (VDict d) = true)
    by exact (storable_at_less _ _ _ _ (Nat.le_succ_diag_r n) Hs1).
  assert (Hn0 : Z.of_nat n + 1 < int_limit) by lia.
  assert (saved : forall doc',
             storable_at n max_depth doc' = true ->
             exists data', loads_as (Some (Json.dumps doc')) data'
                           /\ storable_with n (doc data') = true).
  { intros doc' H. exists {| doc := doc'; aliased := false |}. split.
    - apply loads_as_written.
      exact (storable_at_less _ _ _ _ (Nat.le_0_l n) H).
    - apply storable_with_parts. now split. }
  change max_depth with (S (S (S (S (S 95))))) in Hs0, Hs1, saved.
  destruct c as [a|a|a|a|a|].
  - (* project add *)
    destruct (project_add_run a _ _ _ Hl (eq_trans (f_equal stored_ids Hd) Hids0))
      as (d0 & ps0 & Hd0 & Hps0 & ->).
    cbn [snd DATA_FILE].
    assert (d0 = d) by congruence. assert (ps0 = ps) by congruence. subst d0 ps0.
    apply saved.
    apply (storable_project_added n d ps ids a); try assumption.
    + apply storable_with_parts. now split.
    + now rewrite <- Hd.
  - (* project list *)
    destruct a as [status].
    destruct (valid_projects_rows
                (match given_status status with
                 | Some x => filter (has_status x) ps
                 | None => ps
                 end)) as (rows & Hrows).
    { destruct (given_status status); [now apply forallb_filter | exact Hvp]. }
    rewrite (project_list_run file data ps status rows Hl Hps Hdp Hrows).
    exact Hsame.
  - (* project detail *)
    destruct a as [pid].
    destruct (find_project_dicts _ _ pid Hps Hdp) as [Hf|(i & p & Hf & Hi)].
    + rewrite (not_found_run (project_detail {| ProjectDetail.project_id := pid |})
                 file data pid eq_refl Hl Hf).
      exact Hsame.
    + pose proof (nth_error_forallb _ _ _ _ Hvp Hi) as Hp.
      destruct p as [| | | | | |pd]; try discriminate Hp.
      destruct (valid_project_parts _ Hp) as ((name & Hn) & (customer & Hcu) & Ht & Hm).
      destruct (is_list_of_dicts _ _ _ valid_task_is_dict Ht) as (ts & Hts & _).
      destruct (is_list_of_dicts _ _ _ valid_material_is_dict Hm) as (ms & Hms & _).
      destruct (project_detail_run file data pid i pd name customer ts ms
                  Hl Hf Hn Hcu Hts Hms) as (id & _ & ->).
      exact Hsame.
  - (* task add *)
    destruct (find_project_dicts _ _ (TaskAdd.project_id a) Hps Hdp)
      as [Hf|(i & p & Hf & Hi)].
    + rewrite (not_found_run (task_add a) file data _ eq_refl Hl Hf).
      exact Hsame.
    + pose proof (nth_error_forallb _ _ _ _ Hvp Hi) as Hp.
      destruct p as [| | | | | |pd]; try discriminate Hp.
      destruct (valid_project_parts _ Hp) as (_ & _ & Ht & _).
      destruct (is_list_of_list_at _ _ _ Ht) as (ts & Hts).
      destruct (task_add_file file data a i pd ts Hl Hf Hts)
        as (d0 & b & af & idv & defaults & Hd0 & Hps0 & _ & _ & _ & _ & _ & ->).
      cbn [snd DATA_FILE].
      assert (d0 = d) by congruence. subst d0.
      pose proof (storable_at_lookup _ _ _ _ _ Hs0 Hps0) as Hl0.
      apply saved. apply storable_at_store; [exact Hs0 | reflexivity|].
      eapply (storable_at_middle n _ b (VDict pd)); [exact Hl0|].
      pose proof (storable_at_element _ _ _ _ _ Hl0) as Hpd.
      apply storable_at_store; [exact Hpd | reflexivity|].
      apply storable_at_snoc;
        [exact (storable_at_list_at _ _ _ _ _ Hpd Hts)
        | now apply storable_new_task].
  - (* material add *)
    destruct (given_id (MaterialAdd.project_id a)) as [pid|] eqn:Hg.
    + destruct (find_project_dicts _ _ pid Hps Hdp) as [Hf|(i & p & Hf & Hi)].
      * rewrite (not_found_run (material_add a) file data pid Hg Hl Hf).
        exact Hsame.
      * pose proof (nth_error_forallb _ _ _ _ Hvp Hi) as Hp.
        destruct p as [| | | | | |pd]; try discriminate Hp.
        destruct (valid_project_parts _ Hp) as (_ & _ & _ & Hm).
        destruct (is_list_of_list_at _ _ _ Hm) as (ms & Hms).
        destruct (material_add_project_file file data a pid i pd ms Hl Hg Hf Hms)
          as (d0 & b & af & idv & defaults & Hd0 & Hps0 & _ & _ & _ & _ & _ & ->).
        cbn [snd DATA_FILE].
        assert (d0 = d) by congruence. subst d0.
        pose proof (storable_at_lookup _ _ _ _ _ Hs0 Hps0) as Hl0.
        apply saved. apply storable_at_store; [exact Hs0 | reflexivity|].
        eapply (storable_at_middle n _ b (VDict pd)); [exact Hl0|].
        pose proof (storable_at_element _ _ _ _ _ Hl0) as Hpd.
        apply storable_at_store; [exact Hpd | reflexivity|].
        apply storable_at_snoc;
          [exact (storable_at_list_at _ _ _ _ _ Hpd Hms)
          | now apply storable_new_material].
    + destruct (is_list_of_list_at _ _ _ Hinv) as (inv & Hi).
      destruct (material_add_inventory_run file data a d inv Hl Hg Hd Hi)
        as (defaults & ->).
      cbn [snd DATA_FILE].
      apply saved. apply storable_at_store; [exact Hs0 | reflexivity|].
      apply storable_at_snoc;
        [exact (storable_at_list_at _ _ _ _ _ Hs0 Hi)
        | now apply storable_new_material].
  - (* inventory list *)
    destruct (is_list_of_dicts _ _ _ valid_material_is_dict Hinv) as (inv & Hi & _).
    rewrite (inventory_list_run file data d inv Hl Hd Hi).
    exact Hsame.
Qed.

(** A command on a valid document the program can write: it returns;
    [project add] announces the next id; and the command leaves a valid
    file the program can write, with the ids that were there and the new
    one behind them. *)
Lemma storable_step c file data ids n :
  loads_as file data -> valid_document (doc data) = true ->
  stored_ids (doc data) = Some ids ->
  storable_with (S n) (doc data) = true -> storable_command c = true ->
  fst (invoke c file) = Ok tt
  /\ (forall args, c = project_add args ->
       stdout (snd (invoke c file))
       = [ProjectCreated (VInt (next_id ids)) (ProjectAdd.name args)
            (ProjectAdd.customer args)])
  /\ holds_storable_ids n (DATA_FILE (snd (invoke c file))) (ids_after c ids).
Proof.
  intros Hl Hv Hids Hs Hc.
  destruct (valid_step c file data ids Hl Hv Hids) as (Hr & Ho & Hf).
  specialize (Hf (storable_command_quantity c Hc)).
  split; [exact Hr|]. split; [exact Ho|].
  destruct Hf as (data1 & Hl1 & Hv1 & Hids1).
  destruct (storable_after c file data ids n Hl Hv Hids Hs Hc)
    as (data2 & Hl2 & Hs2).
  rewrite <- (loads_as_same _ _ _ Hl1 Hl2) in Hs2.
  now exists data1.
Qed.

(** The runs of a session on a valid file the program can write, with
    the ids 1..k and room for as many ids as there are commands. *)
Lemma storable_session cs :
  forall k file,
    holds_storable_ids (List.length cs) file (first_ids k) ->
    forallb storable_command cs = true ->
    counts_up cs (fst (session cs file)) (Z.of_nat k + 1)
    /\ holds_storable_ids 0 (snd (session cs file))
         (first_ids (k + List.length (filter adds cs))).
Proof.
  induction cs as [|c cs IH]; intros k file Hv Hq.
  - cbn. now rewrite Nat.add_0_r.
  - cbn [forallb] in Hq. apply andb_true_iff in Hq. destruct Hq as [Hc Hq].
    destruct Hv as (data & Hl & Hv & Hs & Hids). cbn [List.length] in Hs.
    destruct (storable_step c file data _ _ Hl Hv Hids Hs Hc) as (Hr & Ho & Hf).
    rewrite next_id_first_ids in Ho.
    cbn [session]. destruct (invoke c file) as [r w]. cbn [fst snd] in Hr, Ho, Hf.
    destruct c as [a|a|a|a|a|]; cbn [ids_after] in Hf;
      try (destruct (IH k (DATA_FILE w) Hf Hq) as [IH1 IH2];
           destruct (session cs (DATA_FILE w)) as [rs file'];
           cbn [fst snd counts_up filter adds] in *;
           split; [split; [exact Hr | exact IH1] | exact IH2]).
    rewrite next_id_first_ids, first_ids_succ in Hf.
    destruct (IH (S k) (DATA_FILE w) Hf Hq) as [IH1 IH2].
    destruct (session cs (DATA_FILE w)) as [rs file'].
    cbn [fst snd counts_up filter adds List.length] in *.
    split.
    + split; [exact Hr|]. split; [exact (Ho a eq_refl)|].
      replace (Z.of_nat k + 1 + 1) with (Z.of_nat (S k) + 1) by lia. exact IH1.
    + now rewrite Nat.add_succ_r.
Qed.

(** The same for the ids the file happens to hold. *)
Lemma storable_session_any cs :
  forall file,
    holds_storable (List.length cs) file ->
    forallb storable_command cs = true ->
    Forall (fun r : result unit * list line => fst r = Ok tt)
      (fst (session cs file))
    /\ holds_storable 0 (snd (session cs file)).
Proof.
  induction cs as [|c cs IH]; intros file Hv Hq.
  - split; [constructor | exact Hv].
  - cbn [forallb] in Hq. apply andb_true_iff in Hq. destruct Hq as [Hc Hq].
    destruct Hv as (ids & data & Hl & Hv & Hs & Hids). cbn [List.length] in Hs.
    destruct (storable_step c file data _ _ Hl Hv Hids Hs Hc) as (Hr & _ & Hf).
    cbn [session]. destruct (invoke c file) as [r w]. cbn [fst snd] in Hr, Hf.
    destruct (IH (DATA_FILE w) (ex_intro _ _ Hf) Hq) as [IH1 IH2].
    destruct (session cs (DATA_FILE w)) as [rs file']. cbn [fst snd] in *.
    split; [constructor; [exact Hr | exact IH1] | exact IH2].
Qed.

(** *** Sample files the program can write *)

Lemma sample_file_storable :
  holds_storable_ids 8 Sample.file [1; 2].
Proof.
  exists {| doc := Sample.document; aliased := false |}.
  split; [vm_compute; reflexivity|]. split; [vm_compute; reflexivity|].
  split; vm_compute; reflexivity.
Qed.

Lemma no_file_storable : holds_storable_ids 8 None (first_ids 0).
Proof.
  exists {| doc := VDict (DEFAULT_DATA (start None)); aliased := true |}.
  split; [reflexivity|]. split; [vm_compute; reflexivity|].
  split; vm_compute; reflexivity.
Qed.

Lemma holds_storable_ids_less n n' file ids :
  (n <= n')%nat -> holds_storable_ids n' file ids -> holds_storable_ids n file ids.
Proof.
  intros Hn (data & Hl & Hv & Hs & Hids). exists data.
  repeat split; try assumption. exact (storable_with_less _ _ _ Hn Hs).
Qed.

(** ** Further properties of the commands *)

(** X1.  An exception leaves the file as it was.  Whatever the command,
    the content of the file and the state of the module: when [main]
    ends with an exception of the model ([AttributeError], [TypeError]
    or [KeyError] from the content of the document, the parser's
    [JSONDecodeError]), the file is the one the command found.  In every
    command that saves, each statement that can raise one of these comes
    before [save_data].  (What [save_data] itself can raise while it
    writes is not among them, see [save_data].) *)
Theorem failed_command_keeps_file (c : command) (w : world) (e : exn) :
  fst (main c w) = Raise e -> DATA_FILE (snd (main c w)) = DATA_FILE w.
Proof.
  intros H. destruct (settles_main c w) as [E|E]; [|exact E].
  rewrite E in H. discriminate H.
Qed.

Lemma failed_command_keeps_file_witness :
  let w := start (Some (Json.dumps (VDict [("projects", VInt 5)]))) in
  fst (main (project_add Sample.dach) w) = Raise TypeError
  /\ DATA_FILE (snd (main (project_add Sample.dach) w)) = DATA_FILE w.
Proof.
  split; [vm_compute; reflexivity|].
  apply (failed_command_keeps_file _ _ TypeError). vm_compute. reflexivity.
Defined.

(** X2.  The commands that show the document change nothing.
    [project list], [project detail] and [inventory list] never write
    the file and never touch [DEFAULT_DATA], whatever the file holds and
    whether they return or raise. *)
Theorem showing_changes_nothing (c : command) (w : world) :
  shows c = true ->
  DEFAULT_DATA (snd (main c w)) = DEFAULT_DATA w
  /\ DATA_FILE (snd (main c w)) = DATA_FILE w.
Proof. intros H. now apply reads_only_shows. Qed.

Lemma showing_changes_nothing_witness :
  DEFAULT_DATA (snd (main (project_detail {| ProjectDetail.project_id := 2 |})
                       (start Sample.file)))
  = DEFAULT_DATA (start Sample.file)
  /\ DATA_FILE (snd (main (project_detail {| ProjectDetail.project_id := 2 |})
                       (start Sample.file)))
     = Sample.file.
Proof.
  apply (showing_changes_nothing
           (project_detail {| ProjectDetail.project_id := 2 |})
           (start Sample.file)).
  reflexivity.
Defined.

(** X3.  A file that [json.load] refuses stops every command.  No
    command catches the exception of [load_data]: it reaches the top
    level before anything is printed or written. *)
Theorem unreadable_file_stops_every_command
  (c : command) (text : string) (e : exn) :
  Json.loads text = Raise e ->
  invoke c (Some text) = (Raise e, start (Some text)).
Proof.
  intros H.
  destruct c as [a|a|a|a|a|]; unfold invoke, main;
    [unfold cmd_project_add | unfold cmd_project_list
    | unfold cmd_project_detail | unfold cmd_task_add
    | unfold cmd_material_add | unfold cmd_inventory_list];
    unfold bind at 1; unfold load_data; cbn [start DATA_FILE];
    rewrite H; reflexivity.
Qed.

Lemma unreadable_file_stops_every_command_witness :
  Json.loads EmptyString = Raise JSONDecodeError
  /\ invoke inventory_list (Some EmptyString)
     = (Raise JSONDecodeError, start (Some EmptyString)).
Proof.
  split; [reflexivity|].
  apply (unreadable_file_stops_every_command inventory_list EmptyString).
  reflexivity.
Defined.

(** X4.  The document has to be a dict.  When the file holds a JSON
    value of any other kind (a list, a number, a string, [null], ...),
    every command raises [AttributeError] at its first use of the
    document, before anything is printed or written. *)
Theorem document_must_be_a_dict
  (c : command) (file : option string) (data : loaded) :
  loads_as file data -> is_dict (doc data) = false ->
  invoke c file = (Raise AttributeError, start file).
Proof.
  intros Hl Hd. apply loads_as_run in Hl.
  assert (G : forall k v, get (doc data) k v = Raise AttributeError)
    by (intros k v; destruct (doc data); try reflexivity; discriminate Hd).
  assert (F : forall pid, find_project (doc data) pid = Raise AttributeError)
    by (intros pid; unfold find_project; now rewrite G).
  destruct c as [a|a|a|a|a|]; unfold invoke, main.
  - unfold cmd_project_add, bind. rewrite Hl. unfold lift, next_project_id.
    now rewrite G.
  - unfold cmd_project_list, bind. rewrite Hl. unfold lift. now rewrite G.
  - unfold cmd_project_detail, bind. rewrite Hl. unfold lift. now rewrite F.
  - unfold cmd_task_add, bind. rewrite Hl. unfold lift. now rewrite F.
  - unfold cmd_material_add, bind. rewrite Hl.
    destruct (given_id (MaterialAdd.project_id a)).
    + unfold lift. now rewrite F.
    + unfold setdefault_append.
      destruct (doc data); try reflexivity; discriminate Hd.
  - unfold cmd_inventory_list, bind. rewrite Hl. unfold lift. now rewrite G.
Qed.

Lemma document_must_be_a_dict_witness :
  loads_as (Some "[]") {| doc := VList []; aliased := false |}
  /\ invoke (project_add Sample.dach) (Some "[]")
     = (Raise AttributeError, start (Some "[]")).
Proof.
  split; [reflexivity|].
  apply (document_must_be_a_dict (project_add Sample.dach) (Some "[]")
           {| doc := VList []; aliased := false |}); reflexivity.
Defined.

(** X5.  [find_project] returns the first stored project that carries
    the id, and [None] exactly when none does.  For every document whose
    projects are dicts: the lookup does not raise; when it returns a
    project, that project stands at the position that comes with it,
    carries the id (its ["id"] equals it as [==] has it), and no project
    before it does; when it returns [None], no stored project carries
    the id. *)
Theorem find_project_finds_first (data : value) (ps : list value) (pid : Z) :
  projects_of data = Some ps -> forallb is_dict ps = true ->
  match find_project data pid with
  | Ok None => existsb (has_id pid) ps = false
  | Ok (Some (i, p)) =>
      nth_error ps i = Some p /\ has_id pid p = true
      /\ existsb (has_id pid) (firstn i ps) = false
  | _ => False
  end.
Proof.
  intros Hps Hd. destruct (projects_of_get _ _ Hps) as (d & -> & G).
  unfold find_project. rewrite G. cbn [rbind iter].
  pose proof (first_with_id_spec ps pid 0 Hd) as H.
  destruct (first_with_id ps pid 0) as [[[i p]|]| |]; try exact H.
  destruct H as (j & -> & H). exact H.
Qed.

Lemma find_project_finds_first_witness :
  exists p,
    find_project Sample.document 2 = Ok (Some (1%nat, p))
    /\ nth_error
         [new_project (VInt 1) Sample.dach; p] 1 = Some p
    /\ has_id 2 p = true.
Proof.
  pose proof (find_project_finds_first Sample.document _ 2 eq_refl eq_refl) as H.
  destruct (find_project Sample.document 2) as [[[i p]|]| |] eqn:E;
    try discriminate E.
  injection E as <- <-. eexists. split; [reflexivity|].
  destruct H as (H1 & H2 & _). split; [exact H1 | exact H2].
Defined.

(** X6.  The id [next_project_id] returns is not in use.  For every
    document whose projects carry int ids (or none, which counts as 0)
    the result is an int larger than every stored id, and
    [find_project] finds no project under it. *)
Theorem next_project_id_is_fresh (data : value) (ids : list Z) :
  stored_ids data = Some ids ->
  exists n,
    next_project_id data = Ok (VInt n)
    /\ (forall i, In i ids -> i < n)
    /\ find_project data n = Ok None.
Proof.
  intros H. exists (next_id ids).
  split; [now apply next_project_id_ints|].
  split; [apply next_id_above|].
  unfold stored_ids in H.
  destruct (projects_of data) as [ps|] eqn:Hps; [|discriminate].
  apply (find_project_none _ ps); [exact Hps | exact (int_ids_dicts _ _ H) |].
  apply (existsb_has_id_other _ ids); [exact H|].
  intros i Hi. pose proof (next_id_above _ _ Hi). lia.
Qed.

Lemma next_project_id_is_fresh_witness :
  stored_ids Sample.document = Some [1; 2]
  /\ exists n, next_project_id Sample.document = Ok (VInt n)
               /\ find_project Sample.document n = Ok None.
Proof.
  split; [reflexivity|].
  destruct (next_project_id_is_fresh Sample.document [1; 2] eq_refl)
    as (n & H1 & _ & H2).
  exists n. split; [exact H1 | exact H2].
Defined.

(** X7.  [project add] appends the new project and changes nothing
    else.  For every document the program can write whose projects
    carry int ids, and every name, customer and further fields that are
    well-formed text: the command returns and writes the document in
    which the list under ["projects"] (created at the end when the key
    was absent) is the stored one followed by the new project, every
    other key holds what it held and the keys stand as they stood; and
    that document can be written again.  The new project is the
    [to_dict] of the namespace's fields with the id [next_project_id]
    returned, no task and no material. *)
Theorem project_add_appends_project
  (file : option string) (data : loaded) (args : ProjectAdd.args)
  (ids : list Z) :
  loads_as file data -> stored_ids (doc data) = Some ids ->
  storable_with 1 (doc data) = true ->
  storable_command (project_add args) = true ->
  exists d d',
    doc data = VDict d
    /\ fst (invoke (project_add args) file) = Ok tt
    /\ written (snd (invoke (project_add args) file)) (VDict d')
    /\ appended_under "projects" (new_project (VInt (next_id ids)) args) d d'
    /\ stdout (snd (invoke (project_add args) file))
       = [ProjectCreated (VInt (next_id ids))
            (ProjectAdd.name args) (ProjectAdd.customer args)]
    /\ storable (VDict d') = true.
Proof.
  intros Hl Hids Hs Hc.
  destruct (project_add_run args _ _ _ Hl Hids) as (d & ps & Hd & Hps & ->).
  exists d. eexists. split; [exact Hd|]. split; [reflexivity|].
  split; [reflexivity|]. rewrite Hd in Hps, Hids, Hs.
  split; [|split; [reflexivity|]].
  - apply store_appended_under. exact Hps.
  - now apply (storable_project_added 0 d ps ids args).
Qed.

Lemma project_add_appends_project_witness :
  loads_as Sample.file {| doc := Sample.document; aliased := false |}
  /\ exists d',
       written (snd (invoke (project_add Sample.bad) Sample.file)) (VDict d')
       /\ lookup "inventory" d' = Some (VList [new_material (Sample.holz None)])
       /\ stdout (snd (invoke (project_add Sample.bad) Sample.file))
          = [ProjectCreated (VInt 3) "Bad" "Schmidt"]
       /\ storable (VDict d') = true.
Proof.
  assert (Hl : loads_as Sample.file {| doc := Sample.document; aliased := false |})
    by (vm_compute; reflexivity).
  split; [exact Hl|].
  destruct (project_add_appends_project Sample.file _ Sample.bad [1; 2] Hl eq_refl)
    as (d & d' & Hd & _ & Hw & (l & _ & _ & Hk & _) & Ho & Hs);
    [vm_compute; reflexivity | vm_compute; reflexivity |].
  exists d'. split; [exact Hw|]. split; [|split; [exact Ho | exact Hs]].
  rewrite Hk by discriminate. injection Hd as <-. reflexivity.
Defined.



(** X9.  What [inventory list] prints.  For every document with a list
    of dicts (or nothing) under ["inventory"]: when the list is empty or
    absent, the one line that says so; otherwise the header and one line
    for each item, in stored order, with what the item holds under
    ["name"], ["quantity"] and ["unit"] ([None] for a key it does not
    have).  The command returns and changes nothing. *)
Theorem inventory_list_prints
  (file : option string) (data : loaded) (d : items) (inv : list items) :
  loads_as file data -> doc data = VDict d ->
  list_at "inventory" d = Some (map VDict inv) ->
  invoke inventory_list file =
  (Ok tt, {| DEFAULT_DATA := DEFAULT_DATA (start file);
             DATA_FILE := file;
             stdout := inventory_listing inv |}).
Proof. apply inventory_list_run. Qed.

Lemma inventory_list_prints_witness :
  loads_as Sample.file {| doc := Sample.document; aliased := false |}
  /\ stdout (snd (invoke inventory_list Sample.file))
     = [InventoryHeader;
        InventoryRow (VStr "Holz") (VFloat Sample.two_and_a_half) (VStr "Stk")]
  /\ stdout (snd (invoke inventory_list None)) = [NoInventory].
Proof.
  assert (Hl : loads_as Sample.file {| doc := Sample.document; aliased := false |})
    by (vm_compute; reflexivity).
  split; [exact Hl|]. split.
  - rewrite (inventory_list_prints Sample.file _ _
               [[("name", VStr "Holz"); ("quantity", VFloat Sample.two_and_a_half);
                 ("unit", VStr "Stk")]] Hl eq_refl eq_refl).
    reflexivity.
  - rewrite (inventory_list_prints None
               {| doc := VDict (DEFAULT_DATA (start None)); aliased := true |}
               _ [] eq_refl eq_refl eq_refl).
    reflexivity.
Defined.



(** X11.  What [project detail] prints for a project it finds.  For the
    first stored project that carries the id, when it has a ["name"] and
    a ["customer"] and lists of dicts (or nothing) under ["tasks"] and
    ["materials"]: the title with id and name, the customer, the address
    and the due date when they are set (neither absent nor [None] nor
    empty), the status (["-"] when absent), the notes when set, then the
    tasks, numbered from 1 in stored order (or the line that there are
    none), then the materials (or the line that there are none).  The
    command returns and changes nothing. *)
Theorem project_detail_prints
  (file : option string) (data : loaded) (pid : Z) (i : nat) (p : items)
  (name customer : value) (ts ms : list items) :
  loads_as file data ->
  find_project (doc data) pid = Ok (Some (i, VDict p)) ->
  lookup "name" p = Some name -> lookup "customer" p = Some customer ->
  list_at "tasks" p = Some (map VDict ts) ->
  list_at "materials" p = Some (map VDict ms) ->
  exists id,
    lookup "id" p = Some id /\
    invoke (project_detail {| ProjectDetail.project_id := pid |}) file =
    (Ok tt, {| DEFAULT_DATA := DEFAULT_DATA (start file);
               DATA_FILE := file;
               stdout := detail id name customer p ts ms |}).
Proof. apply project_detail_run. Qed.

Lemma project_detail_prints_witness :
  loads_as Sample.file {| doc := Sample.document; aliased := false |}
  /\ stdout (snd (invoke (project_detail {| ProjectDetail.project_id := 2 |})
                    Sample.file))
     = [DetailTitle (VInt 2) (VStr "Bad");
        DetailCustomer (VStr "Schmidt");
        DetailAddress (VStr "Hauptstr. 1");
        DetailStatus (VStr "erledigt");
        DetailNotes (VStr "Fliesen");
        TasksHeader;
        TaskRow 1 (VStr "offen") (VStr "Fliesen legen") (VStr "-");
        MaterialsHeader;
        MaterialRow (VStr "Holz") (VFloat Sample.two_and_a_half) (VStr "Stk")].
Proof.
  assert (Hl : loads_as Sample.file {| doc := Sample.document; aliased := false |})
    by (vm_compute; reflexivity).
  split; [exact Hl|].
  destruct (project_detail_prints Sample.file _ 2 1 _ (VStr "Bad") (VStr "Schmidt")
              [[("title", VStr "Fliesen legen"); ("due_date", VNone);
                ("status", VStr "offen")]]
              [[("name", VStr "Holz"); ("quantity", VFloat Sample.two_and_a_half);
                ("unit", VStr "Stk")]]
              Hl eq_refl eq_refl eq_refl eq_refl eq_refl) as (id & Hid & ->).
  injection Hid as <-. reflexivity.
Defined.



(** X13.  No command fails on a valid document the program can write.
    When the file holds (or, being absent, stands for) a valid document
    whose strs are well-formed text, whose ints stay within the digit
    limit with room for one more id and whose nesting is bounded, every
    command that brings well-formed text and a binary64 quantity returns
    normally, exit status 0, and leaves a file that holds such a
    document again. *)
Theorem valid_document_never_raises
  (c : command) (file : option string) (data : loaded) :
  loads_as file data -> valid_document (doc data) = true ->
  storable_with 1 (doc data) = true -> storable_command c = true ->
  fst (invoke c file) = Ok tt
  /\ exit_status (fst (invoke c file)) = Some 0
  /\ holds_storable 0 (DATA_FILE (snd (invoke c file))).
Proof.
  intros Hl Hv Hs Hc.
  destruct (valid_document_stored_ids _ Hv) as (ids & Hids).
  destruct (storable_step c file data ids 0 Hl Hv Hids Hs Hc) as (Hr & _ & Hf).
  rewrite Hr. split; [reflexivity|]. split; [reflexivity|]. now exists (ids_after c ids).
Qed.

Lemma valid_document_never_raises_witness :
  loads_as Sample.file {| doc := Sample.document; aliased := false |}
  /\ valid_document Sample.document = true
  /\ storable_with 1 Sample.document = true
  /\ exit_status (fst (invoke (task_add Sample.fliesen) Sample.file)) = Some 0.
Proof.
  assert (Hl : loads_as Sample.file {| doc := Sample.document; aliased := false |})
    by (vm_compute; reflexivity).
  assert (Hs : storable_with 1 Sample.document = true)
    by (vm_compute; reflexivity).
  split; [exact Hl|]. split; [vm_compute; reflexivity|]. split; [exact Hs|].
  apply (valid_document_never_raises (task_add Sample.fliesen) Sample.file
           {| doc := Sample.document; aliased := false |} Hl);
    [vm_compute; reflexivity | exact Hs | vm_compute; reflexivity].
Defined.

(** X14.  The commands keep the file valid.  From a file that holds a
    valid document the program can write, with room in the digit limit
    for as many ids as there are commands, or from no file: in every
    sequence of commands that bring well-formed text and binary64
    quantities, each run on the file the one before left, every command
    returns normally, and the file holds a valid document the program
    can write at the end. *)
Theorem session_stays_valid (cs : list command) (file : option string) :
  holds_storable (List.length cs) file ->
  forallb storable_command cs = true ->
  Forall (fun r : result unit * list line => fst r = Ok tt)
    (fst (session cs file))
  /\ holds_storable 0 (snd (session cs file)).
Proof. apply storable_session_any. Qed.

Lemma session_stays_valid_witness :
  holds_storable 5 None
  /\ holds_storable 0
       (snd (session [project_add Sample.dach;
                      task_add {| TaskAdd.project_id := 1;
                                  TaskAdd.title := "Ziegel";
                                  TaskAdd.due_date := None;
                                  TaskAdd.status := "offen" |};
                      material_add (Sample.holz (Some 1));
                      material_add (Sample.holz None);
                      inventory_list] None)).
Proof.
  assert (H : holds_storable 5 None).
  { exists (first_ids 0).
    exact (holds_storable_ids_less 5 8 _ _ ltac:(repeat constructor) no_file_storable). }
  split; [exact H|].
  apply session_stays_valid; [exact H | vm_compute; reflexivity].
Defined.

(** X15.  With the file there, no command changes [DEFAULT_DATA].  The
    document comes from the file, and what a command appends to it does
    not reach the module global, whether the command returns or
    raises. *)
Theorem file_shields_default_data (c : command) (w : world) (text : string) :
  DATA_FILE w = Some text -> DEFAULT_DATA (snd (main c w)) = DEFAULT_DATA w.
Proof. apply main_keeps_default. Qed.

Lemma file_shields_default_data_witness :
  DEFAULT_DATA (snd (main (material_add (Sample.holz None)) (start Sample.file)))
  = [("projects", VList []); ("inventory", VList [])].
Proof.
  exact (file_shields_default_data (material_add (Sample.holz None))
           (start Sample.file) (Json.dumps Sample.document) eq_refl).
Defined.

(** X16.  Without the file, what a command appends lands in
    [DEFAULT_DATA].  [load_data] then returns a shallow copy: the lists
    of the copy are the lists [DEFAULT_DATA] holds, and [append] changes
    them in place.  In a state without the file, after [project add]
    (the stored ids being ints) the list under ["projects"] of
    [DEFAULT_DATA] has the new project at its end, and after
    [material add] without a project id the list under ["inventory"] has
    the new material at its end.  A later [load_data] without the file
    in the same process returns them. *)
Theorem appends_reach_default_data (w : world) :
  DATA_FILE w = None ->
  (forall args ps ids,
     lookup "projects" (DEFAULT_DATA w) = Some (VList ps) ->
     int_ids ps = Some ids ->
     DEFAULT_DATA (snd (main (project_add args) w))
     = store "projects" (VList (ps ++ [new_project (VInt (next_id ids)) args]))
         (DEFAULT_DATA w))
  /\ (forall args inv,
        given_id (MaterialAdd.project_id args) = None ->
        lookup "inventory" (DEFAULT_DATA w) = Some (VList inv) ->
        DEFAULT_DATA (snd (main (material_add args) w))
        = store "inventory" (VList (inv ++ [new_material args])) (DEFAULT_DATA w)).
Proof.
  intros Hw. split.
  - intros args ps ids Hps Hids.
    assert (Hn : next_project_id (VDict (DEFAULT_DATA w)) = Ok (VInt (next_id ids))).
    { apply next_project_id_ints. unfold stored_ids, projects_of.
      now rewrite Hps. }
    unfold main, cmd_project_add, bind, load_data. rewrite Hw. cbn [doc].
    unfold lift. rewrite Hn. unfold setdefault_append. cbn [doc].
    unfold bind, lift. rewrite Hps. cbn [appended]. reflexivity.
  - intros args inv Hg Hi.
    unfold main, cmd_material_add, bind, load_data. rewrite Hw, Hg.
    unfold setdefault_append. cbn [doc]. unfold bind, lift. rewrite Hi.
    cbn [appended]. reflexivity.
Qed.

Lemma appends_reach_default_data_witness :
  DEFAULT_DATA (snd (main (project_add Sample.dach) (start None)))
  = [("projects", VList [new_project (VInt 1) Sample.dach]);
     ("inventory", VList [])]
  /\ DEFAULT_DATA (snd (main (material_add (Sample.holz None)) (start None)))
     = [("projects", VList []);
        ("inventory", VList [new_material (Sample.holz None)])].
Proof.
  destruct (appends_reach_default_data (start None) eq_refl) as [Hp Hm].
  split.
  - exact (Hp Sample.dach [] [] eq_refl eq_refl).
  - exact (Hm (Sample.holz None) [] eq_refl eq_refl).
Defined.

(** X17.  [project detail] needs a name and a customer.  For a project
    that the lookup finds: without a ["name"] the command raises
    [KeyError] before it prints anything; with a name and without a
    ["customer"] it prints the title and then raises [KeyError].  (The
    other fields are read with [get] and may be absent.) *)
Theorem project_detail_needs_name_and_customer
  (file : option string) (data : loaded) (pid : Z) (i : nat) (p : items) :
  loads_as file data ->
  find_project (doc data) pid = Ok (Some (i, VDict p)) ->
  let run := invoke (project_detail {| ProjectDetail.project_id := pid |}) file in
  (lookup "name" p = None -> run = (Raise KeyError, start file))
  /\ (forall name,
        lookup "name" p = Some name -> lookup "customer" p = None ->
        run = (Raise KeyError,
               printed (start file) [DetailTitle (field "id" p) name])).
Proof.
  intros Hl Hf run. unfold run. clear run.
  destruct (find_project_some _ _ _ _ Hf) as (d & ps & p0 & id & _ & _ & _ & Hp0 & Hid & _).
  injection Hp0 as <-. apply loads_as_run in Hl.
  assert (E : invoke (project_detail {| ProjectDetail.project_id := pid |}) file
              = (id <- lift (getitem (VDict p) "id") ;;
                 name <- lift (getitem (VDict p) "name") ;;
                 print (DetailTitle id name) ;;
                 customer <- lift (getitem (VDict p) "customer") ;;
                 print (DetailCustomer customer) ;;
                 print_if_set (VDict p) "address" DetailAddress ;;
                 print_if_set (VDict p) "due_date" DetailDue ;;
                 status <- lift (get (VDict p) "status" (VStr "-")) ;;
                 print (DetailStatus status) ;;
                 print_if_set (VDict p) "notes" DetailNotes ;;
                 tasks <- lift (get (VDict p) "tasks" (VList [])) ;;
                 (if truthy tasks then
                    print TasksHeader ;;
                    ts <- lift (iter tasks) ;;
                    for_each (enumerate ts 1) task_row
                  else print NoTasks) ;;
                 materials <- lift (get (VDict p) "materials" (VList [])) ;;
                 if truthy materials then
                   print MaterialsHeader ;;
                   ms <- lift (iter materials) ;;
                   for_each ms (material_row MaterialRow)
                 else print NoMaterials) (start file)).
  { unfold invoke, main, cmd_project_detail. unfold bind at 1. rewrite Hl.
    cbn [ProjectDetail.project_id]. unfold bind at 1, lift at 1. rewrite Hf.
    now rewrite (truthy_found _ _ Hid). }
  rewrite E. clear E. unfold field. rewrite Hid. split.
  - intros Hn. unfold bind, lift. cbn [getitem]. now rewrite Hid, Hn.
  - intros name Hn Hc. unfold bind, lift, print. cbn [getitem].
    now rewrite Hid, Hn, Hc.
Qed.

Lemma project_detail_needs_name_and_customer_witness :
  let file := Some (Json.dumps
                      (VDict [("projects", VList [VDict [("id", VInt 1)]])])) in
  invoke (project_detail {| ProjectDetail.project_id := 1 |}) file
  = (Raise KeyError, start file).
Proof.
  apply (project_detail_needs_name_and_customer
           (Some (Json.dumps (VDict [("projects", VList [VDict [("id", VInt 1)]])])))
           {| doc := VDict [("projects", VList [VDict [("id", VInt 1)]])];
              aliased := false |}
           1 0 [("id", VInt 1)]); reflexivity.
Defined.

(** X18.  [next_project_id] needs ids that are numbers.  For every
    document whose projects are dicts, none with a list as id: when the
    id of some project is no number (a str, [None], a dict; a project
    without an ["id"] counts as 0), [next_project_id] raises
    [TypeError], from [max] or from the addition, and [project add]
    fails with it before anything is written or printed. *)
Theorem next_project_id_needs_numbers
  (file : option string) (data : loaded) (ps : list items)
  (args : ProjectAdd.args) :
  loads_as file data -> projects_of (doc data) = Some (map VDict ps) ->
  forallb (fun p => negb (is_list (id_or_zero p))) ps = true ->
  existsb (fun p => negb (is_number (id_or_zero p))) ps = true ->
  next_project_id (doc data) = Raise TypeError
  /\ invoke (project_add args) file = (Raise TypeError, start file).
Proof.
  intros Hl Hps Hnl He.
  pose proof (next_project_id_not_numbers _ _ Hps Hnl He) as Hn.
  split; [exact Hn|]. apply loads_as_run in Hl.
  unfold invoke, main, cmd_project_add, bind. rewrite Hl. unfold lift.
  now rewrite Hn.
Qed.

Lemma next_project_id_needs_numbers_witness :
  let d := VDict [("projects",
                   VList [VDict [("id", VInt 1)]; VDict [("id", VStr "2")]])] in
  invoke (project_add Sample.dach) (Some (Json.dumps d))
  = (Raise TypeError, start (Some (Json.dumps d))).
Proof.
  apply (next_project_id_needs_numbers
           (Some (Json.dumps
                    (VDict [("projects",
                             VList [VDict [("id", VInt 1)];
                                    VDict [("id", VStr "2")]])])))
           {| doc := VDict [("projects",
                             VList [VDict [("id", VInt 1)];
                                    VDict [("id", VStr "2")]])];
              aliased := false |}
           [[("id", VInt 1)]; [("id", VStr "2")]] Sample.dach); reflexivity.
Defined.

(** X19.  Ids count up whatever runs in between.  From a valid file the
    program can write whose projects carry the ids 1, ..., k (from no
    file: k = 0), with room in the digit limit for as many ids as there
    are commands: in every sequence of commands that bring well-formed
    text and binary64 quantities, each run on the file the one before
    left, every command returns, the runs of [project add] announce the
    ids k+1, k+2, ... in the order of the runs, and at the end the file
    is valid, can be written again and its projects carry the ids
    1, ..., k+n, where n counts the runs of [project add]. *)
Theorem ids_count_up_in_every_session
  (cs : list command) (k : nat) (file : option string) :
  holds_storable_ids (List.length cs) file (first_ids k) ->
  forallb storable_command cs = true ->
  counts_up cs (fst (session cs file)) (Z.of_nat k + 1)
  /\ holds_storable_ids 0 (snd (session cs file))
       (first_ids (k + List.length (filter adds cs))).
Proof. apply storable_session. Qed.

Lemma ids_count_up_in_every_session_witness :
  holds_storable_ids 4 None (first_ids 0)
  /\ counts_up
       [project_add Sample.dach; material_add (Sample.holz (Some 1));
        project_list {| ProjectList.status := None |}; project_add Sample.bad]
       (fst (session
               [project_add Sample.dach; material_add (Sample.holz (Some 1));
                project_list {| ProjectList.status := None |};
                project_add Sample.bad] None))
       1.
Proof.
  assert (H : holds_storable_ids 4 None (first_ids 0))
    by exact (holds_storable_ids_less 4 8 _ _ ltac:(repeat constructor)
                no_file_storable).
  split; [exact H|].
  apply (ids_count_up_in_every_session
           [project_add Sample.dach; material_add (Sample.holz (Some 1));
            project_list {| ProjectList.status := None |}; project_add Sample.bad]
           0 None H).
  vm_compute; reflexivity.
Defined.

(** X20.  [project list] stops at a project without an id.  Without a
    status filter, on a document whose projects start with projects that
    have their rows, followed by a dict that has no ["id"] (or [None]
    under it): the command prints the header and the rows of the
    projects before, and then raises [TypeError], since [None] takes no
    format specification.  ([next_project_id] counts such a project as
    0, and [find_project] never returns it.) *)
Theorem project_list_stops_without_id
  (file : option string) (data : loaded) (before after : list value)
  (p : items) (rows : list line) (status : option string) :
  loads_as file data ->
  projects_of (doc data) = Some (before ++ VDict p :: after)%list ->
  given_status status = None ->
  Forall2 (fun q l => row q = Ok l) before rows ->
  field "id" p = VNone ->
  invoke (project_list {| ProjectList.status := status |}) file
  = (Raise TypeError, printed (start file) (ListHeader :: ListRule :: rows)).
Proof.
  intros Hl Hps Hs Hrows Hid. apply loads_as_run in Hl.
  destruct (projects_of_get _ _ Hps) as (d & Hd & G).
  unfold invoke, main, cmd_project_list. unfold bind at 1. rewrite Hl.
  unfold bind at 1. unfold lift at 1. rewrite G.
  cbn [ProjectList.status]. rewrite Hs. unfold bind at 1, ret.
  assert (T : truthy (VList (before ++ VDict p :: after)) = true)
    by now destruct before.
  rewrite T. cbn [negb]. unfold bind, print at 1 2, lift. cbn [iter].
  rewrite (for_each_rows_stop before (VDict p) after rows TypeError)
    by (try assumption; now apply row_without_id).
  unfold printed. cbn. reflexivity.
Qed.

Lemma project_list_stops_without_id_witness :
  let d := VDict [("projects",
                   VList [new_project (VInt 1) Sample.dach;
                          VDict [("name", VStr "Bad")]])] in
  invoke (project_list {| ProjectList.status := None |}) (Some (Json.dumps d))
  = (Raise TypeError,
     printed (start (Some (Json.dumps d)))
       [ListHeader; ListRule;
        ListRow (VInt 1) (VStr "Dach") (VStr "Mueller") (VStr "offen")
          (VStr "2024-05-01")]).
Proof.
  apply (project_list_stops_without_id
           (Some (Json.dumps
                    (VDict [("projects",
                             VList [new_project (VInt 1) Sample.dach;
                                    VDict [("name", VStr "Bad")]])])))
           {| doc := VDict [("projects",
                             VList [new_project (VInt 1) Sample.dach;
                                    VDict [("name", VStr "Bad")]])];
              aliased := false |}
           [new_project (VInt 1) Sample.dach] [] [("name", VStr "Bad")]
           [ListRow (VInt 1) (VStr "Dach") (VStr "Mueller") (VStr "offen")
              (VStr "2024-05-01")] None).
  - vm_compute; reflexivity.
  - reflexivity.
  - reflexivity.
  - repeat constructor.
  - reflexivity.
Defined.





(** X23.  An empty file is refused.  When the file holds nothing, or
    white space only (spaces, tabs, line ends), [json.load] raises
    [JSONDecodeError] and every command ends with it, before anything is
    printed or written: the file has to be removed, or to hold a
    document, for the tool to work. *)
Theorem blank_file_stops_every_command (c : command) (text : string) :
  Json.skip_ws text = EmptyString ->
  invoke c (Some text) = (Raise JSONDecodeError, start (Some text)).
Proof.
  intros H.
  assert (E : Json.loads text = Raise JSONDecodeError).
  { unfold Json.loads. rewrite H.
    destruct (Json.strip_prefix Json.BOM text); reflexivity. }
  destruct c as [a|a|a|a|a|]; unfold invoke, main;
    [unfold cmd_project_add | unfold cmd_project_list
    | unfold cmd_project_detail | unfold cmd_task_add
    | unfold cmd_material_add | unfold cmd_inventory_list];
    unfold bind at 1; unfold load_data; cbn [start DATA_FILE];
    rewrite E; reflexivity.
Qed.

Lemma blank_file_stops_every_command_witness :
  invoke (project_list {| ProjectList.status := None |})
    (Some (String " " (String Json.LF EmptyString)))
  = (Raise JSONDecodeError, start (Some (String " " (String Json.LF EmptyString)))).
Proof.
  apply (blank_file_stops_every_command
           (project_list {| ProjectList.status := None |})
           (String " " (String Json.LF EmptyString))).
  reflexivity.
Defined.

(** X24.  [append] needs a list.  [setdefault] returns what is stored
    under the key, whatever it is: when a found project holds something
    other than a list under ["tasks"] ([None], a str, a number, a
    dict), [task add] raises [AttributeError]; so does [material add]
    for ["materials"] of the project, and, without a project id, for
    ["inventory"] of the document.  Nothing is printed and the file is
    left as it is. *)
Theorem append_needs_a_list
  (file : option string) (data : loaded) (v : value) :
  loads_as file data -> is_list v = false ->
  (forall args i p,
     find_project (doc data) (TaskAdd.project_id args) = Ok (Some (i, VDict p)) ->
     lookup "tasks" p = Some v ->
     invoke (task_add args) file = (Raise AttributeError, start file))
  /\ (forall args pid i p,
        given_id (MaterialAdd.project_id args) = Some pid ->
        find_project (doc data) pid = Ok (Some (i, VDict p)) ->
        lookup "materials" p = Some v ->
        invoke (material_add args) file = (Raise AttributeError, start file))
  /\ (forall args d,
        given_id (MaterialAdd.project_id args) = None ->
        doc data = VDict d -> lookup "inventory" d = Some v ->
        invoke (material_add args) file = (Raise AttributeError, start file)).
Proof.
  intros Hl Hv. apply loads_as_run in Hl.
  assert (A : forall item, appended (Some v) item = Raise AttributeError)
    by (intros item; destruct v; try reflexivity; discriminate Hv).
  split; [|split].
  - intros args i p Hf Ht.
    destruct (find_project_some _ _ _ _ Hf) as (d & ps & p0 & id & _ & _ & _ & Hp0 & Hid & _).
    injection Hp0 as <-.
    unfold invoke, main, cmd_task_add, bind. rewrite Hl. unfold lift. rewrite Hf.
    rewrite (truthy_found _ _ Hid). cbn [negb].
    unfold project_setdefault_append, bind, lift. now rewrite Ht, A.
  - intros args pid i p Hg Hf Hm.
    destruct (find_project_some _ _ _ _ Hf) as (d & ps & p0 & id & _ & _ & _ & Hp0 & Hid & _).
    injection Hp0 as <-.
    unfold invoke, main, cmd_material_add, bind. rewrite Hl, Hg. unfold lift.
    rewrite Hf. rewrite (truthy_found _ _ Hid). cbn [negb].
    unfold project_setdefault_append, bind, lift. now rewrite Hm, A.
  - intros args d Hg Hd Hi.
    unfold invoke, main, cmd_material_add, bind. rewrite Hl, Hg.
    unfold setdefault_append. rewrite Hd. unfold bind, lift. now rewrite Hi, A.
Qed.

Lemma append_needs_a_list_witness :
  let d := VDict [("projects", VList [VDict [("id", VInt 1); ("tasks", VNone)]])] in
  invoke (task_add {| TaskAdd.project_id := 1; TaskAdd.title := "Ziegel";
                      TaskAdd.due_date := None; TaskAdd.status := "offen" |})
    (Some (Json.dumps d))
  = (Raise AttributeError, start (Some (Json.dumps d))).
Proof.
  destruct (append_needs_a_list
              (Some (Json.dumps
                       (VDict [("projects",
                                VList [VDict [("id", VInt 1); ("tasks", VNone)]])])))
              {| doc := VDict [("projects",
                                VList [VDict [("id", VInt 1); ("tasks", VNone)]])];
                 aliased := false |}
              VNone eq_refl eq_refl) as (H & _).
  exact (H {| TaskAdd.project_id := 1; TaskAdd.title := "Ziegel";
              TaskAdd.due_date := None; TaskAdd.status := "offen" |}
           0%nat [("id", VInt 1); ("tasks", VNone)] eq_refl eq_refl).
Defined.

(** X25.  [next_project_id] takes every number as an id.  For every
    document whose projects are dicts with numbers as ids (ints, floats,
    bools; a project without an ["id"] counts as 0), [next_project_id]
    returns a number and does not raise.  (An id that is no number makes
    it raise, see [next_project_id_not_numbers].) *)
Theorem next_project_id_takes_numbers (data : value) (ps : list items) :
  projects_of data = Some (map VDict ps) ->
  forallb (fun p => is_number (id_or_zero p)) ps = true ->
  exists n, next_project_id data = Ok n /\ is_number n = true.
Proof.
  intros Hps Hn. destruct (projects_of_get _ _ Hps) as (d & -> & G).
  unfold next_project_id. rewrite G. cbn [rbind iter].
  destruct ps as [|x xs]; [now exists (VInt 1)|].
  cbn [forallb] in Hn. apply andb_true_iff in Hn. destruct Hn as [Hx Hxs].
  cbn [map max_default get rbind]. fold (id_or_zero x).
  destruct (max_from_all_numbers xs (id_or_zero x) Hxs Hx) as (m & -> & Hm).
  cbn [rbind]. unfold add_one. unfold is_number in Hm.
  destruct (as_num m) as [[z|f]|]; try discriminate Hm; eexists; split;
    reflexivity.
Qed.

Lemma next_project_id_takes_numbers_witness :
  exists n,
    next_project_id
      (VDict [("projects",
               VList [VDict [("id", VInt 1)];
                      VDict [("id", VFloat Sample.two_and_a_half)];
                      VDict [("name", VStr "Bad")]])])
    = Ok n
    /\ is_number n = true.
Proof.
  apply (next_project_id_takes_numbers
           (VDict [("projects",
                    VList [VDict [("id", VInt 1)];
                           VDict [("id", VFloat Sample.two_and_a_half)];
                           VDict [("name", VStr "Bad")]])])
           [[("id", VInt 1)]; [("id", VFloat Sample.two_and_a_half)];
            [("name", VStr "Bad")]]); reflexivity.
Defined.

(** X26.  What [load_data] returns, in every state of the module.
    Without the file it is [DEFAULT_DATA.copy()]: a dict of its own
    whose two lists are the very lists [DEFAULT_DATA] holds.  They are
    empty when the module has just been loaded; what a caller appends to
    them (the file still being absent) is in [DEFAULT_DATA] from then
    on, and the next [load_data] returns it.  With the file,
    [load_data] returns what [json.load] makes of the text: the document
    [save_data] wrote there, or the exception of the parser.  In no case
    is anything printed or written. *)
Theorem load_data_returns (w : world) :
  load_data (start None)
  = (Ok {| doc := VDict [("projects", VList []); ("inventory", VList [])];
           aliased := true |}, start None)
  /\ (DATA_FILE w = None ->
      load_data w
      = (Ok {| doc := VDict (DEFAULT_DATA w); aliased := true |}, w))
  /\ (forall key l item,
        DATA_FILE w = None -> lookup key (DEFAULT_DATA w) = Some (VList l) ->
        (first <- load_data ;;
         _ <- setdefault_append first key item ;;
         load_data) w
        = (Ok {| doc := VDict (store key (VList (l ++ [item])) (DEFAULT_DATA w));
                 aliased := true |},
           {| DEFAULT_DATA := store key (VList (l ++ [item])) (DEFAULT_DATA w);
              DATA_FILE := None;
              stdout := stdout w |}))
  /\ (forall data,
        storable data = true -> DATA_FILE w = Some (Json.dumps data) ->
        load_data w = (Ok {| doc := data; aliased := false |}, w))
  /\ (forall text e,
        DATA_FILE w = Some text -> Json.loads text = Raise e ->
        load_data w = (Raise e, w)).
Proof.
  split; [reflexivity|]. split; [|split; [|split]].
  - intros H. unfold load_data. now rewrite H.
  - intros key l item H Hl. destruct w as [defaults file out].
    cbn [DATA_FILE DEFAULT_DATA stdout] in *. subst file.
    unfold bind, load_data, setdefault_append, lift, appended, mutated.
    cbn [DATA_FILE DEFAULT_DATA stdout doc aliased]. rewrite Hl. reflexivity.
  - intros data Hs H. unfold load_data. rewrite H.
    now rewrite JsonFacts.loads_dumps by (now apply storable_json_ok).
  - intros text e H He. unfold load_data. now rewrite H, He.
Qed.

Lemma load_data_returns_witness :
  (first <- load_data ;;
   _ <- setdefault_append first "projects" (new_project (VInt 1) Sample.dach) ;;
   load_data) (start None)
  = (Ok {| doc := VDict [("projects", VList [new_project (VInt 1) Sample.dach]);
                         ("inventory", VList [])];
           aliased := true |},
     {| DEFAULT_DATA := [("projects", VList [new_project (VInt 1) Sample.dach]);
                         ("inventory", VList [])];
        DATA_FILE := None;
        stdout := [] |})
  /\ load_data (start Sample.file)
     = (Ok {| doc := Sample.document; aliased := false |}, start Sample.file).
Proof.
  split.
  - exact (proj1 (proj2 (proj2 (load_data_returns (start None))))
             "projects" [] (new_project (VInt 1) Sample.dach) eq_refl eq_refl).
  - apply (proj1 (proj2 (proj2 (proj2 (load_data_returns (start Sample.file)))))
             Sample.document); [vm_compute; reflexivity | reflexivity].
Defined.
